(** * OmniBot Hub API: the real-time conversation and messaging core

    A shallow embedding of the message store (messages.service.ts), the
    conversation directory (conversations.service.ts), the realtime hub
    (config/socket.ts) and the webhook ingestion routes
    (webhooks.routes.ts), with the properties of the specification stated
    and settled against it.

    Conventions of the embedding:
    - a table is the list of its rows, oldest first; a row is a record of
      the columns the code reads or writes;
    - [db.query] is a step of a state-and-exception monad; the database can
      reject the statement issued at any call site with an SQLSTATE, which
      is how the [catch] branches of the services become reachable;
    - socket.io rooms are a finite map from room name to the set of
      connection ids in the room; every emission is logged together with
      the connections it reached;
    - [await] points and [console.log] have no counterpart, except in the
      webhook channel route, which is given as a step machine so that two
      deliveries can be interleaved. *)

From Stdlib Require Import String Ascii List Bool Arith Lia.
From stdpp Require Import base gmap strings list.
Import ListNotations.
Open Scope string_scope.
Open Scope list_scope.

(** ** JavaScript values *)

Module Js.

(** Truthiness of a value that is a string, [null] or [undefined]. *)
Definition truthy (v : option string) : bool :=
  match v with
  | Some s => negb (s =? EmptyString)
  | None => false
  end.

(** [a || b] on such values. *)
Definition or (a b : option string) : option string :=
  if truthy a then a else b.

(** [a || d] where [d] is a string literal. *)
Definition or_lit (a : option string) (d : string) : string :=
  match a with
  | Some s => if s =? EmptyString then d else s
  | None => d
  end.

(** [a ?? b ?? false] on booleans. *)
Definition nullish (a b : option bool) : bool :=
  match a with
  | Some x => x
  | None => match b with Some y => y | None => false end
  end.

Definition lower_ascii (c : ascii) : ascii :=
  let n := nat_of_ascii c in
  if ((65 <=? n)%nat && (n <=? 90)%nat)%bool then ascii_of_nat (n + 32) else c.

(** [String.prototype.toLowerCase], on the ASCII range. *)
Fixpoint toLowerCase (s : string) : string :=
  match s with
  | EmptyString => EmptyString
  | String c r => String (lower_ascii c) (toLowerCase r)
  end.

(** [s.substring(0, n)]. *)
Definition substring0 (n : nat) (s : string) : string := String.substring 0 n s.

(** [s.startsWith(p)]. *)
Definition startsWith (p s : string) : bool := String.prefix p s.

(** [Record<string, string>] indexed by a key that may be [undefined]
    (the key is then the string "undefined", which no table below has). *)
Definition index (table : gmap string string) (k : option string) : option string :=
  match k with
  | Some key => table !! key
  | None => None
  end.

End Js.

(** ** Errors (shared/middleware/error.middleware.ts) *)

Inductive Exn : Type :=
| AppError (message : string) (statusCode : nat) (code : option string)
| PgError (code : string)
| RangeError (message : string).

Definition NotFoundError (resource : string) : Exn :=
  AppError (resource +:+ " not found") 404 (Some "NOT_FOUND").

Definition UnauthorizedError (message : string) : Exn :=
  AppError message 401 (Some "UNAUTHORIZED").

(** [err.code], as the [catch] blocks read it. *)
Definition exn_code (e : Exn) : option string :=
  match e with
  | AppError _ _ c => c
  | PgError c => Some c
  | RangeError _ => Some "ERR_CRYPTO_TIMING_SAFE_EQUAL_LENGTH"
  end.

Definition code_is (e : Exn) (c : string) : bool :=
  match exn_code e with
  | Some c' => c' =? c
  | None => false
  end.

(** ** Rows of the tables the core touches (migrations 002, 001) *)

Record User := {
  user_id : string;
  user_tenant_id : option string;
  user_name : option string
}.

Record Contato := {
  ct_id : string;
  ct_nome : option string;
  ct_telefone : option string;
  ct_email : option string;
  ct_avatar : option string
}.

Record Agent := {
  a_id : string;
  a_nome : option string
}.

Record Canal := {
  canal_id : string;
  canal_tenant_id : string;
  canal_tipo : string
}.

Record Conversa := {
  c_id : string;
  c_tenant_id : string;
  c_company_id : option string;
  c_cliente_id : option string;
  c_cliente_nome : option string;
  c_agente_id : option string;
  c_canal : string;
  c_status : string;
  c_ultima_mensagem : option string;
  c_ultima_atividade : option nat;
  c_metadata : option string;
  c_created_at : nat;
  c_updated_at : nat
}.

Record Mensagem := {
  m_id : string;
  m_tenant_id : string;
  m_conversa_id : string;
  m_remetente_tipo : string;
  m_remetente_id : option string;
  m_conteudo : string;
  m_tipo : string;
  m_tipo_mensagem : option string;
  m_metadata : option string;
  m_lida : bool;
  m_lida_em : option nat;
  m_resposta_para : option string;
  m_created_at : nat
}.

(** A row of the English-named fallback table [messages]. *)
Record MessageRow := {
  e_id : string;
  e_tenant_id : string;
  e_conversation_id : string;
  e_sender_type : string;
  e_sender_id : option string;
  e_content : string;
  e_type : string;
  e_metadata : option string;
  e_reply_to_id : option string;
  e_read : bool;
  e_created_at : nat
}.

Record WebhookLog := {
  wl_event_type : string;
  wl_payload : option string;
  wl_success : bool
}.

(** ** Call sites of [db.query] *)

Inductive Site : Type :=
(* config/socket.ts *)
| S_getTenantId | S_join | S_typing_name | S_read_ids | S_read_all
(* messages.service.ts *)
| M_getTenantId | M_list_check | M_list_count | M_list_select
| M_create_check | M_create_insert | M_create_insert_en
| M_mark_ids | M_mark_all | M_getById
| M_byTenant_insert | M_byTenant_touch | M_unread
(* conversations.service.ts *)
| C_getTenantId | C_list_count | C_list_select | C_getById
| C_updateStatus | C_assignAgent | C_getByTenantId | C_updateLastMessage
(* webhooks.routes.ts *)
| W_channel | W_conv_find | W_conv_insert | W_msg_insert | W_event_log.

#[global] Instance site_eq_dec : EqDecision Site.
Proof. solve_decision. Defined.

(** ** The database *)

Record Store := {
  users : list User;
  contatos : list Contato;
  agents : list Agent;
  canais : list Canal;
  conversas : list Conversa;
  mensagens : list Mensagem;
  messages : list MessageRow;
  webhook_logs : list WebhookLog;
  (** [NOW()] *)
  clock : nat;
  (** [uuid_generate_v4()]: the supply of ids and how many were drawn *)
  uuid : nat -> string;
  drawn : nat;
  (** SQLSTATE with which the server rejects the statement of a call site *)
  rejects : Site -> option string
}.

Definition set_conversas (l : list Conversa) (s : Store) : Store :=
  {| users := users s; contatos := contatos s; agents := agents s;
     canais := canais s; conversas := l; mensagens := mensagens s;
     messages := messages s; webhook_logs := webhook_logs s;
     clock := clock s; uuid := uuid s; drawn := drawn s; rejects := rejects s |}.

Definition set_mensagens (l : list Mensagem) (s : Store) : Store :=
  {| users := users s; contatos := contatos s; agents := agents s;
     canais := canais s; conversas := conversas s; mensagens := l;
     messages := messages s; webhook_logs := webhook_logs s;
     clock := clock s; uuid := uuid s; drawn := drawn s; rejects := rejects s |}.

Definition set_messages (l : list MessageRow) (s : Store) : Store :=
  {| users := users s; contatos := contatos s; agents := agents s;
     canais := canais s; conversas := conversas s; mensagens := mensagens s;
     messages := l; webhook_logs := webhook_logs s;
     clock := clock s; uuid := uuid s; drawn := drawn s; rejects := rejects s |}.

Definition set_webhook_logs (l : list WebhookLog) (s : Store) : Store :=
  {| users := users s; contatos := contatos s; agents := agents s;
     canais := canais s; conversas := conversas s; mensagens := mensagens s;
     messages := messages s; webhook_logs := l;
     clock := clock s; uuid := uuid s; drawn := drawn s; rejects := rejects s |}.

(** Drawing the next generated id. *)
Definition draw (s : Store) : string * Store :=
  (uuid s (drawn s),
   {| users := users s; contatos := contatos s; agents := agents s;
      canais := canais s; conversas := conversas s; mensagens := mensagens s;
      messages := messages s; webhook_logs := webhook_logs s;
      clock := clock s; uuid := uuid s; drawn := S (drawn s);
      rejects := rejects s |}).

(** Time passes with every statement the server executes. *)
Definition tick (s : Store) : Store :=
  {| users := users s; contatos := contatos s; agents := agents s;
     canais := canais s; conversas := conversas s; mensagens := mensagens s;
     messages := messages s; webhook_logs := webhook_logs s;
     clock := S (clock s); uuid := uuid s; drawn := drawn s;
     rejects := rejects s |}.

(** ** API responses *)

Record Sender := {
  sender_id : option string;
  sender_name : string;
  sender_avatar : option string
}.

Record MessageResponse := {
  r_id : string;
  r_tenant_id : string;
  r_conversation_id : option string;
  r_sender_type : string;
  r_sender_id : option string;
  r_content : option string;
  r_type : string;
  r_metadata : option string;
  r_read : bool;
  r_reply_to_id : option string;
  r_created_at : nat;
  r_sender : option Sender
}.

Record Customer := {
  cust_id : option string;
  cust_name : string;
  cust_phone : option string;
  cust_email : option string;
  cust_avatar : option string
}.

Record AgentRef := {
  ag_id : option string;
  ag_name : string;
  ag_avatar : option string
}.

Record ConversationResponse := {
  cr_id : string;
  cr_tenant_id : string;
  cr_company_id : option string;
  cr_customer_id : option string;
  cr_agent_id : option string;
  cr_channel : string;
  cr_status : string;
  cr_last_message : option string;
  cr_last_activity : nat;
  cr_metadata : option string;
  cr_created_at : nat;
  cr_updated_at : nat;
  cr_customer : option Customer;
  cr_agent : option AgentRef;
  cr_unread_count : option nat
}.

(** ** Realtime events (ServerToClientEvents) *)

Inductive ServerEvent : Type :=
| conversation_new (c : ConversationResponse)
| conversation_updated (c : ConversationResponse)
| message_new (m : MessageResponse)
| message_read (conversationId : string) (messageIds : list string)
| typing_start (conversationId userId userName : string)
| typing_stop (conversationId userId : string)
| user_online (userId : string)
| user_offline (userId : string)
| error_event (message : string).

(** What a run leaves behind, in order: statements the database executed
    or rejected, and emissions with the connections they reached. *)
Inductive Effect : Type :=
| Sql (site : Site)
| SqlRejected (site : Site) (code : string)
| Emit (room : string) (reached : gset string) (ev : ServerEvent)
| EmitSelf (socketId : string) (ev : ServerEvent).

(** ** The world: database, the [io] singleton of socket.ts, the log *)

Record World := {
  store : Store;
  io : option (gmap string (gset string));
  log : list Effect
}.

Definition with_store (s : Store) (w : World) : World :=
  {| store := s; io := io w; log := log w |}.

Definition with_io (r : gmap string (gset string)) (w : World) : World :=
  {| store := store w; io := Some r; log := log w |}.

Definition logged (e : Effect) (w : World) : World :=
  {| store := store w; io := io w; log := log w ++ [e] |}.

(** ** Computations that read and write the world and may throw *)

Inductive Outcome (A : Type) : Type :=
| Return (a : A)
| Throw (e : Exn).
Arguments Return {A} a.
Arguments Throw {A} e.

Definition M (A : Type) : Type := World -> Outcome A * World.

Definition ret {A} (a : A) : M A := fun w => (Return a, w).

Definition throw {A} (e : Exn) : M A := fun w => (Throw e, w).

Definition bind {A B} (m : M A) (k : A -> M B) : M B :=
  fun w =>
    match m w with
    | (Return a, w') => k a w'
    | (Throw e, w') => (Throw e, w')
    end.

(** [try { m } catch (e) { h e }]: what [m] wrote before throwing stays. *)
Definition try_catch {A} (m : M A) (h : Exn -> M A) : M A :=
  fun w =>
    match m w with
    | (Return a, w') => (Return a, w')
    | (Throw e, w') => h e w'
    end.

Declare Scope m_scope.
Delimit Scope m_scope with m.
Notation "x <- c1 ;; c2" := (bind c1 (fun x => c2))
  (at level 100, c1 at next level, right associativity) : m_scope.
Notation "c1 ;; c2" := (bind c1 (fun _ => c2))
  (at level 100, right associativity) : m_scope.
Open Scope m_scope.

(** [await db.query(...)] at a call site: rejected with the SQLSTATE the
    server answers there, or executed by [run]. *)
Definition query {A} (site : Site) (run : Store -> A * Store) : M A :=
  fun w =>
    match rejects (store w) site with
    | Some code => (Throw (PgError code), logged (SqlRejected site code) w)
    | None =>
        let '(a, s') := run (store w) in
        (Return a, logged (Sql site) (with_store (tick s') w))
    end.

(** A statement that only reads. *)
Definition select {A} (site : Site) (read : Store -> A) : M A :=
  query site (fun s => (read s, s)).

(** ** SQL fragments shared by the statements *)

Module Sql.

(** [column = $n] where the parameter may be NULL: NULL equals nothing. *)
Definition eq_param (column : string) (param : option string) : bool :=
  match param with
  | Some v => column =? v
  | None => false
  end.

(** [column = $n] on a nullable column. *)
Definition eq_null (column param : option string) : bool :=
  match column, param with
  | Some c, Some v => c =? v
  | _, _ => false
  end.

(** [id = ANY($n)]. *)
Definition any (ids : list string) (id : string) : bool :=
  existsb (String.eqb id) ids.

(** [remetente_tipo IN ('cliente', 'customer')]. *)
Definition is_customer (remetente_tipo : string) : bool :=
  (remetente_tipo =? "cliente") || (remetente_tipo =? "customer").

(** [remetente_tipo = 'agente' OR remetente_tipo = 'agent']. *)
Definition is_agent (remetente_tipo : string) : bool :=
  (remetente_tipo =? "agente") || (remetente_tipo =? "agent").

(** [UPDATE mensagens SET ... WHERE p RETURNING ...]. *)
Definition update_mensagens (p : Mensagem -> bool) (f : Mensagem -> Mensagem)
    (s : Store) : list Mensagem * Store :=
  (map f (List.filter p (mensagens s)),
   set_mensagens (map (fun m => if p m then f m else m) (mensagens s)) s).

(** The trigger [update_conversas_updated_at]: [NEW.updated_at = now]. *)
Definition touch_updated_at (now : nat) (c : Conversa) : Conversa :=
  {| c_id := c_id c; c_tenant_id := c_tenant_id c;
     c_company_id := c_company_id c; c_cliente_id := c_cliente_id c;
     c_cliente_nome := c_cliente_nome c; c_agente_id := c_agente_id c;
     c_canal := c_canal c; c_status := c_status c;
     c_ultima_mensagem := c_ultima_mensagem c;
     c_ultima_atividade := c_ultima_atividade c; c_metadata := c_metadata c;
     c_created_at := c_created_at c; c_updated_at := now |}.

(** [UPDATE conversas SET ... WHERE p RETURNING *], the trigger included. *)
Definition update_conversas (p : Conversa -> bool) (f : Conversa -> Conversa)
    (s : Store) : list Conversa * Store :=
  let g := fun c => touch_updated_at (clock s) (f c) in
  (map g (List.filter p (conversas s)),
   set_conversas (map (fun c => if p c then g c else c) (conversas s)) s).

(** [SET lida = true]. *)
Definition set_lida (m : Mensagem) : Mensagem :=
  {| m_id := m_id m; m_tenant_id := m_tenant_id m;
     m_conversa_id := m_conversa_id m; m_remetente_tipo := m_remetente_tipo m;
     m_remetente_id := m_remetente_id m; m_conteudo := m_conteudo m;
     m_tipo := m_tipo m; m_tipo_mensagem := m_tipo_mensagem m;
     m_metadata := m_metadata m; m_lida := true; m_lida_em := m_lida_em m;
     m_resposta_para := m_resposta_para m; m_created_at := m_created_at m |}.

(** [SET lida = true, lida_em = NOW()]. *)
Definition set_lida_em (now : nat) (m : Mensagem) : Mensagem :=
  {| m_id := m_id m; m_tenant_id := m_tenant_id m;
     m_conversa_id := m_conversa_id m; m_remetente_tipo := m_remetente_tipo m;
     m_remetente_id := m_remetente_id m; m_conteudo := m_conteudo m;
     m_tipo := m_tipo m; m_tipo_mensagem := m_tipo_mensagem m;
     m_metadata := m_metadata m; m_lida := true; m_lida_em := Some now;
     m_resposta_para := m_resposta_para m; m_created_at := m_created_at m |}.

(** [SELECT id FROM conversas WHERE id = $1 AND tenant_id = $2]. *)
Definition conversa_of_tenant (id : string) (tenant : option string)
    (s : Store) : list Conversa :=
  List.filter (fun c => (c_id c =? id) && eq_param (c_tenant_id c) tenant)
    (conversas s).

(** [SELECT tenant_id FROM users WHERE id = $1]. *)
Definition users_by_id (userId : string) (s : Store) : list User :=
  List.filter (fun u => user_id u =? userId) (users s).

(** Stable insertion sort, for [ORDER BY]; [before a b] says that [a] may
    stay in front of [b]. *)
Fixpoint insert_by {A} (before : A -> A -> bool) (x : A) (l : list A) : list A :=
  match l with
  | [] => [x]
  | y :: r => if before x y then x :: y :: r else y :: insert_by before x r
  end.

Fixpoint order_by {A} (before : A -> A -> bool) (l : list A) : list A :=
  match l with
  | [] => []
  | x :: r => insert_by before x (order_by before r)
  end.

(** [LIMIT n OFFSET k]. *)
Definition limit_offset {A} (n k : nat) (l : list A) : list A :=
  firstn n (skipn k l).

End Sql.

(** ** config/socket.ts: the realtime hub *)

Module Hub.

Record Socket := {
  id : string;
  userId : string;
  tenantId : option string
}.

(** [`tenant:${tenantId}`] and [`conversation:${conversationId}`]. *)
Definition tenant_room (tenantId : string) : string := "tenant:" +:+ tenantId.
Definition conversation_room (conversationId : string) : string :=
  "conversation:" +:+ conversationId.

(** The connections in a room. *)
Definition members (room : string) (rooms : gmap string (gset string)) : gset string :=
  default ∅ (rooms !! room).

(** [socket.join(room)]. *)
Definition socket_join (sock : Socket) (room : string) : M unit :=
  fun w =>
    match io w with
    | Some rooms =>
        (Return tt, with_io (<[room := {[id sock]} ∪ members room rooms]> rooms) w)
    | None => (Return tt, w)
    end.

(** [socket.leave(room)]; an emptied room is dropped. *)
Definition socket_leave (sock : Socket) (room : string) : M unit :=
  fun w =>
    match io w with
    | Some rooms =>
        let rest := members room rooms ∖ {[id sock]} in
        (Return tt,
         with_io (if decide (rest = ∅) then delete room rooms
                  else <[room := rest]> rooms) w)
    | None => (Return tt, w)
    end.

(** [socket.to(room).emit(ev)]: everyone in the room but the sender. *)
Definition socket_to_emit (sock : Socket) (room : string) (ev : ServerEvent) : M unit :=
  fun w =>
    match io w with
    | Some rooms =>
        (Return tt, logged (Emit room (members room rooms ∖ {[id sock]}) ev) w)
    | None => (Return tt, w)
    end.

(** [socket.emit(ev)]: back to the sender only. *)
Definition socket_emit (sock : Socket) (ev : ServerEvent) : M unit :=
  fun w => (Return tt, logged (EmitSelf (id sock) ev) w).

(** [if (io) { io.to(room).emit(ev) }]. *)
Definition io_to_emit (room : string) (ev : ServerEvent) : M unit :=
  fun w =>
    match io w with
    | Some rooms => (Return tt, logged (Emit room (members room rooms) ev) w)
    | None => (Return tt, w)
    end.

(** [getTenantId]: a failed lookup is no tenant. *)
Definition getTenantId (userId : string) : M (option string) :=
  try_catch
    (rows <- select S_getTenantId (Sql.users_by_id userId) ;;
     ret (match rows with
          | u :: _ => user_tenant_id u
          | [] => None
          end))
    (fun _ => ret None).

Record Handshake := {
  auth_token : option string;
  authorization : option string
}.

(** The first occurrence of [p] in [s] removed: [s.replace(p, '')]. *)
Fixpoint remove_first (p s : string) : string :=
  if String.prefix p s then String.substring (String.length p) (String.length s) s
  else match s with
       | EmptyString => EmptyString
       | String c r => String c (remove_first p r)
       end.

(** [authenticateSocket]; [verify] is [jwt.verify] with the server secret,
    giving the [userId] of a valid token. The result is the error passed to
    [next], or the socket with its user and tenant set. *)
Definition authenticateSocket (verify : string -> option string)
    (socketId : string) (h : Handshake) : M (string + Socket) :=
  let token := Js.or (auth_token h)
                 (option_map (remove_first "Bearer ") (authorization h)) in
  if negb (Js.truthy token) then ret (inl "Authentication required")
  else
    match verify (Js.or_lit token EmptyString) with
    | None => ret (inl "Invalid token")
    | Some uid =>
        tenant <- getTenantId uid ;;
        if negb (Js.truthy tenant) then ret (inl "User not found")
        else ret (inr {| id := socketId; userId := uid; tenantId := tenant |})
    end.

(** [io.on('connection', ...)]: join the tenant room, announce presence. *)
Definition on_connection (sock : Socket) : M unit :=
  (match tenantId sock with
   | Some t => if Js.truthy (Some t) then socket_join sock (tenant_room t) else ret tt
   | None => ret tt
   end) ;;
  match tenantId sock with
  | Some t =>
      if Js.truthy (Some t)
      then socket_to_emit sock (tenant_room t) (user_online (userId sock))
      else ret tt
  | None => ret tt
  end.

(** [socket.on('conversation:join', ...)]. *)
Definition conversation_join (sock : Socket) (conversationId : string) : M unit :=
  try_catch
    (rows <- select S_join (Sql.conversa_of_tenant conversationId (tenantId sock)) ;;
     if (0 <? length rows)%nat
     then socket_join sock (conversation_room conversationId)
     else ret tt)
    (fun _ => socket_emit sock (error_event "Failed to join conversation")).

(** [socket.on('conversation:leave', ...)]. *)
Definition conversation_leave (sock : Socket) (conversationId : string) : M unit :=
  socket_leave sock (conversation_room conversationId).

(** [socket.on('typing:start', ...)]. *)
Definition on_typing_start (sock : Socket) (conversationId : string) : M unit :=
  try_catch
    (rows <- select S_typing_name (Sql.users_by_id (userId sock)) ;;
     let userName :=
       Js.or_lit (match rows with u :: _ => user_name u | [] => None end)
                 "Usuário" in
     socket_to_emit sock (conversation_room conversationId)
       (typing_start conversationId (userId sock) userName))
    (fun _ => ret tt).

(** [socket.on('typing:stop', ...)]. *)
Definition on_typing_stop (sock : Socket) (conversationId : string) : M unit :=
  socket_to_emit sock (conversation_room conversationId)
    (typing_stop conversationId (userId sock)).

(** [messageIds && messageIds.length > 0]. *)
Definition named (messageIds : option (list string)) : option (list string) :=
  match messageIds with
  | Some (i :: r) => Some (i :: r)
  | _ => None
  end.

(** [socket.on('message:read', ...)]. *)
Definition on_message_read (sock : Socket) (conversationId : string)
    (messageIds : option (list string)) : M unit :=
  try_catch
    (match named messageIds with
     | Some ids =>
         query S_read_ids (fun s =>
           Sql.update_mensagens
             (fun m => (m_conversa_id m =? conversationId)
                       && Sql.eq_param (m_tenant_id m) (tenantId sock)
                       && Sql.any ids (m_id m))
             (Sql.set_lida_em (clock s)) s)
     | None =>
         query S_read_all (fun s =>
           Sql.update_mensagens
             (fun m => (m_conversa_id m =? conversationId)
                       && Sql.eq_param (m_tenant_id m) (tenantId sock)
                       && negb (m_lida m)
                       && Sql.is_customer (m_remetente_tipo m))
             (Sql.set_lida_em (clock s)) s)
     end ;;
     socket_to_emit sock (conversation_room conversationId)
       (message_read conversationId
          (match messageIds with Some ids => ids | None => [] end)))
    (fun _ => socket_emit sock (error_event "Failed to mark messages as read")).

(** Closing a connection: socket.io takes it out of every room, then
    [socket.on('disconnect', ...)] announces the user offline. *)
Definition on_disconnect (sock : Socket) : M unit :=
  (fun w =>
     match io w with
     | Some rooms =>
         (Return tt,
          with_io (map_filter (fun kv => snd kv <> ∅) _
                     (fmap (fun set => set ∖ {[id sock]}) rooms)) w)
     | None => (Return tt, w)
     end) ;;
  match tenantId sock with
  | Some t =>
      if Js.truthy (Some t)
      then socket_to_emit sock (tenant_room t) (user_offline (userId sock))
      else ret tt
  | None => ret tt
  end.

(** What a connected client may send (ClientToServerEvents), and its
    disconnection; [on] is the handler registered for each. *)
Inductive ClientEvent : Type :=
| conversation_join_event (conversationId : string)
| conversation_leave_event (conversationId : string)
| typing_start_event (conversationId : string)
| typing_stop_event (conversationId : string)
| message_read_event (conversationId : string) (messageIds : option (list string))
| disconnect_event.

Definition on (sock : Socket) (ev : ClientEvent) : M unit :=
  match ev with
  | conversation_join_event conversationId => conversation_join sock conversationId
  | conversation_leave_event conversationId => conversation_leave sock conversationId
  | typing_start_event conversationId => on_typing_start sock conversationId
  | typing_stop_event conversationId => on_typing_stop sock conversationId
  | message_read_event conversationId messageIds =>
      on_message_read sock conversationId messageIds
  | disconnect_event => on_disconnect sock
  end.

(** [initializeSocket]: [io = new Server(...)], with no room yet. *)
Definition initializeSocket : M unit :=
  fun w => (Return tt, with_io ∅ w).

(** [emitToTenant] and [emitToConversation]. *)
Definition emitToTenant (tenantId : string) (ev : ServerEvent) : M unit :=
  io_to_emit (tenant_room tenantId) ev.

Definition emitToConversation (conversationId : string) (ev : ServerEvent) : M unit :=
  io_to_emit (conversation_room conversationId) ev.

(** [emitNewMessage]: the conversation room first, then the tenant room. *)
Definition emitNewMessage (tenantId conversationId : string)
    (message : MessageResponse) : M unit :=
  fun w =>
    match io w with
    | Some _ =>
        (io_to_emit (conversation_room conversationId) (message_new message) ;;
         io_to_emit (tenant_room tenantId) (message_new message)) w
    | None => (Return tt, w)
    end.

(** [emitConversationUpdate] and [emitNewConversation]. *)
Definition emitConversationUpdate (tenantId : string)
    (conversation : ConversationResponse) : M unit :=
  io_to_emit (tenant_room tenantId) (conversation_updated conversation).

Definition emitNewConversation (tenantId : string)
    (conversation : ConversationResponse) : M unit :=
  io_to_emit (tenant_room tenantId) (conversation_new conversation).

End Hub.

(** ** conversations.service.ts: the conversation directory *)

Module Conversations.

Definition statusPtToEn : gmap string string :=
  list_to_map
    [("aberta", "open"); ("em_atendimento", "in_progress");
     ("resolvida", "resolved"); ("fechada", "closed");
     ("open", "open"); ("in_progress", "in_progress");
     ("resolved", "resolved"); ("closed", "closed")].

Definition statusEnToPt : gmap string string :=
  list_to_map
    [("open", "aberta"); ("in_progress", "em_atendimento");
     ("resolved", "resolvida"); ("closed", "fechada")].

Definition mapStatusToEn (status : string) : string :=
  Js.or_lit (Js.or (statusPtToEn !! Js.toLowerCase status) (Some status)) "open".

Definition mapStatusToPt (status : string) : string :=
  Js.or_lit (Js.or (statusEnToPt !! Js.toLowerCase status) (Some status)) "aberta".

Definition getTenantId (userId : string) : M (option string) :=
  rows <- select C_getTenantId (Sql.users_by_id userId) ;;
  ret (match rows with
       | u :: _ => user_tenant_id u
       | [] => None
       end).

(** A row of [conversas] with the columns the joins add. *)
Record Joined := {
  row : Conversa;
  customer_name : option string;
  customer_phone : option string;
  customer_email : option string;
  customer_avatar : option string;
  agent_name : option string;
  agent_avatar : option string;
  unread_count : option nat
}.

(** [mapConversationToResponse]; a row of [conversas] has none of the
    English-named columns the function falls back to. *)
Definition mapConversationToResponse (conv : Joined) : ConversationResponse :=
  let c := row conv in
  {| cr_id := c_id c;
     cr_tenant_id := c_tenant_id c;
     cr_company_id := c_company_id c;
     cr_customer_id := Js.or (c_cliente_id c) None;
     cr_agent_id := Js.or (c_agente_id c) None;
     cr_channel := c_canal c;
     cr_status := mapStatusToEn (c_status c);
     cr_last_message := Js.or (c_ultima_mensagem c) None;
     cr_last_activity := default (c_updated_at c) (c_ultima_atividade c);
     cr_metadata := c_metadata c;
     cr_created_at := c_created_at c;
     cr_updated_at := c_updated_at c;
     cr_customer :=
       match customer_name conv with
       | Some n =>
           if n =? EmptyString then None
           else Some {| cust_id := Js.or (c_cliente_id c) None; cust_name := n;
                        cust_phone := customer_phone conv;
                        cust_email := customer_email conv;
                        cust_avatar := customer_avatar conv |}
       | None => None
       end;
     cr_agent :=
       match agent_name conv with
       | Some n =>
           if n =? EmptyString then None
           else Some {| ag_id := Js.or (c_agente_id c) None; ag_name := n;
                        ag_avatar := agent_avatar conv |}
       | None => None
       end;
     cr_unread_count := unread_count conv |}.

(** [LEFT JOIN contatos ct ON c.cliente_id = ct.id] and
    [LEFT JOIN agents a ON c.agente_id = a.id]; ids are primary keys. *)
Definition contato_of (s : Store) (c : Conversa) : option Contato :=
  List.find (fun ct => Sql.eq_null (c_cliente_id c) (Some (ct_id ct))) (contatos s).

Definition agent_of (s : Store) (c : Conversa) : option Agent :=
  List.find (fun a => Sql.eq_null (c_agente_id c) (Some (a_id a))) (agents s).

(** Unread customer messages of a conversation, as the two subqueries
    count them: [lida = false AND remetente_tipo = 'customer']. *)
Definition unread_of (s : Store) (c : Conversa) : nat :=
  length (List.filter
            (fun m => (m_conversa_id m =? c_id c) && negb (m_lida m)
                      && (m_remetente_tipo m =? "customer"))
            (mensagens s)).

Definition joined (s : Store) (c : Conversa) : Joined :=
  let ct := contato_of s c in
  let a := agent_of s c in
  {| row := c;
     customer_name := ct ≫= ct_nome;
     customer_phone := ct ≫= ct_telefone;
     customer_email := ct ≫= ct_email;
     customer_avatar := ct ≫= ct_avatar;
     agent_name := a ≫= a_nome;
     agent_avatar := Some (default "AG" (a ≫= a_nome));
     unread_count := Some (unread_of s c) |}.

Record ListParams := {
  lp_userId : string;
  lp_page : nat;
  lp_perPage : nat;
  lp_status : option string;
  lp_channel : option string;
  lp_agentId : option string;
  lp_customerId : option string;
  lp_search : option string
}.

(** [ORDER BY c.ultima_atividade DESC NULLS LAST, c.updated_at DESC]. *)
Definition latest_first (a b : Conversa) : bool :=
  match c_ultima_atividade a, c_ultima_atividade b with
  | Some x, Some y =>
      (y <? x)%nat || ((x =? y)%nat && (c_updated_at b <=? c_updated_at a)%nat)
  | Some _, None => true
  | None, Some _ => false
  | None, None => (c_updated_at b <=? c_updated_at a)%nat
  end.

Section Listing.

(** [column ILIKE '%' || search || '%'], on a nullable column. *)
Variable ilike : option string -> string -> bool.

(** The [WHERE] clause that [list] assembles. *)
Definition list_where (tenantId : string) (p : ListParams) (s : Store)
    (c : Conversa) : bool :=
  (c_tenant_id c =? tenantId)
  && (if Js.truthy (lp_status p)
      then c_status c =? mapStatusToPt (Js.or_lit (lp_status p) EmptyString)
      else true)
  && (if Js.truthy (lp_channel p)
      then c_canal c =? Js.or_lit (lp_channel p) EmptyString
      else true)
  && (if Js.truthy (lp_agentId p)
      then Sql.eq_null (c_agente_id c) (lp_agentId p)
      else true)
  && (if Js.truthy (lp_customerId p)
      then Sql.eq_null (c_cliente_id c) (lp_customerId p)
      else true)
  && (if Js.truthy (lp_search p)
      then
        let q := Js.or_lit (lp_search p) EmptyString in
        ilike (contato_of s c ≫= ct_nome) q
        || ilike (contato_of s c ≫= ct_telefone) q
        || ilike (c_ultima_mensagem c) q
      else true).

Definition list (p : ListParams) : M (list ConversationResponse * nat) :=
  let offset := ((lp_page p - 1) * lp_perPage p)%nat in
  tenantId <- getTenantId (lp_userId p) ;;
  if negb (Js.truthy tenantId) then ret ([], 0%nat)
  else
    let t := Js.or_lit tenantId EmptyString in
    try_catch
      (total <- select C_list_count
                  (fun s => length (List.filter (list_where t p s) (conversas s))) ;;
       rows <- select C_list_select
                 (fun s =>
                    map (joined s)
                      (Sql.limit_offset (lp_perPage p) offset
                         (Sql.order_by latest_first
                            (List.filter (list_where t p s) (conversas s))))) ;;
       ret (map mapConversationToResponse rows, total))
      (fun dbError =>
         if code_is dbError "42P01" then ret ([], 0%nat) else throw dbError).

End Listing.

Definition getById (id userId : string) : M ConversationResponse :=
  tenantId <- getTenantId userId ;;
  if negb (Js.truthy tenantId) then throw (NotFoundError "Conversation")
  else
    try_catch
      (rows <- select C_getById
                 (fun s => map (joined s) (Sql.conversa_of_tenant id tenantId s)) ;;
       match rows with
       | [] => throw (NotFoundError "Conversation")
       | r :: _ => ret (mapConversationToResponse r)
       end)
      (fun dbError =>
         if code_is dbError "42P01" then throw (NotFoundError "Conversation")
         else throw dbError).

(** [SET status = $1, updated_at = NOW(), ultima_atividade = NOW()]. *)
Definition set_status (status : string) (now : nat) (c : Conversa) : Conversa :=
  {| c_id := c_id c; c_tenant_id := c_tenant_id c;
     c_company_id := c_company_id c; c_cliente_id := c_cliente_id c;
     c_cliente_nome := c_cliente_nome c; c_agente_id := c_agente_id c;
     c_canal := c_canal c; c_status := status;
     c_ultima_mensagem := c_ultima_mensagem c;
     c_ultima_atividade := Some now; c_metadata := c_metadata c;
     c_created_at := c_created_at c; c_updated_at := now |}.

(** [SET agente_id = $1, status = 'em_atendimento', updated_at = NOW(),
    ultima_atividade = NOW()]. *)
Definition set_agent (agentId : string) (now : nat) (c : Conversa) : Conversa :=
  {| c_id := c_id c; c_tenant_id := c_tenant_id c;
     c_company_id := c_company_id c; c_cliente_id := c_cliente_id c;
     c_cliente_nome := c_cliente_nome c; c_agente_id := Some agentId;
     c_canal := c_canal c; c_status := "em_atendimento";
     c_ultima_mensagem := c_ultima_mensagem c;
     c_ultima_atividade := Some now; c_metadata := c_metadata c;
     c_created_at := c_created_at c; c_updated_at := now |}.

(** [SET ultima_mensagem = $1, ultima_atividade = NOW()] (and
    [updated_at = NOW()], which the trigger sets in any case). *)
Definition set_last_message (message : string) (now : nat) (c : Conversa) : Conversa :=
  {| c_id := c_id c; c_tenant_id := c_tenant_id c;
     c_company_id := c_company_id c; c_cliente_id := c_cliente_id c;
     c_cliente_nome := c_cliente_nome c; c_agente_id := c_agente_id c;
     c_canal := c_canal c; c_status := c_status c;
     c_ultima_mensagem := Some message;
     c_ultima_atividade := Some now; c_metadata := c_metadata c;
     c_created_at := c_created_at c; c_updated_at := now |}.

Definition updateStatus (id userId status : string) : M ConversationResponse :=
  tenantId <- getTenantId userId ;;
  if negb (Js.truthy tenantId) then throw (NotFoundError "User")
  else
    let dbStatus := mapStatusToPt status in
    try_catch
      (rows <- query C_updateStatus
                 (fun s =>
                    Sql.update_conversas
                      (fun c => (c_id c =? id) && Sql.eq_param (c_tenant_id c) tenantId)
                      (set_status dbStatus (clock s)) s) ;;
       match rows with
       | [] => throw (NotFoundError "Conversation")
       | _ :: _ => getById id userId
       end)
      (fun dbError =>
         if code_is dbError "42P01" then throw (NotFoundError "Conversation")
         else throw dbError).

Definition assignAgent (id userId agentId : string) : M ConversationResponse :=
  tenantId <- getTenantId userId ;;
  if negb (Js.truthy tenantId) then throw (NotFoundError "User")
  else
    try_catch
      (rows <- query C_assignAgent
                 (fun s =>
                    Sql.update_conversas
                      (fun c => (c_id c =? id) && Sql.eq_param (c_tenant_id c) tenantId)
                      (set_agent agentId (clock s)) s) ;;
       match rows with
       | [] => throw (NotFoundError "Conversation")
       | _ :: _ => getById id userId
       end)
      (fun dbError =>
         if code_is dbError "42P01" then throw (NotFoundError "Conversation")
         else throw dbError).

Definition close (id userId : string) : M ConversationResponse :=
  updateStatus id userId "closed".

(** [getByTenantId], for webhooks: no row and any failure are [null]. *)
Definition getByTenantId (tenantId conversationId : string)
    : M (option ConversationResponse) :=
  try_catch
    (rows <- select C_getByTenantId
               (fun s =>
                  map (fun c =>
                         {| row := c;
                            customer_name := contato_of s c ≫= ct_nome;
                            customer_phone := contato_of s c ≫= ct_telefone;
                            customer_email := contato_of s c ≫= ct_email;
                            customer_avatar := None;
                            agent_name := agent_of s c ≫= a_nome;
                            agent_avatar := None;
                            unread_count := None |})
                    (Sql.conversa_of_tenant conversationId (Some tenantId) s)) ;;
     match rows with
     | [] => ret None
     | r :: _ => ret (Some (mapConversationToResponse r))
     end)
    (fun _ => ret None).

(** [updateLastMessage]: the conversation is found by id alone; a failure
    is swallowed. *)
Definition updateLastMessage (conversationId message : string) : M unit :=
  try_catch
    (query C_updateLastMessage
       (fun s =>
          Sql.update_conversas (fun c => c_id c =? conversationId)
            (set_last_message message (clock s)) s) ;;
     ret tt)
    (fun _ => ret tt).

End Conversations.

(** ** messages.service.ts: the message store *)

Module Messages.

Definition senderTypePtToEn : gmap string string :=
  list_to_map
    [("cliente", "customer"); ("agente", "agent"); ("sistema", "system");
     ("bot", "bot"); ("customer", "customer"); ("agent", "agent");
     ("system", "system")].

Definition senderTypeEnToPt : gmap string string :=
  list_to_map
    [("customer", "cliente"); ("agent", "agente"); ("system", "sistema");
     ("bot", "bot")].

Definition mapSenderTypeToEn (type : option string) : string :=
  Js.or_lit (Js.or (Js.index senderTypePtToEn (option_map Js.toLowerCase type)) type)
            "system".

Definition mapSenderTypeToPt (type : string) : string :=
  Js.or_lit (Js.or (senderTypeEnToPt !! Js.toLowerCase type) (Some type)) "sistema".

Definition getTenantId (userId : string) : M (option string) :=
  rows <- select M_getTenantId (Sql.users_by_id userId) ;;
  ret (match rows with
       | u :: _ => user_tenant_id u
       | [] => None
       end).

(** The [msg: any] that [mapMessageToResponse] receives: a row of
    [mensagens] or of [messages], with the columns a join may add. *)
Record Raw := {
  raw_id : string;
  raw_tenant_id : string;
  raw_conversa_id : option string;
  raw_conversation_id : option string;
  raw_remetente_tipo : option string;
  raw_sender_type : option string;
  raw_remetente_id : option string;
  raw_sender_id : option string;
  raw_conteudo : option string;
  raw_content : option string;
  raw_tipo : option string;
  raw_type : option string;
  raw_metadata : option string;
  raw_lida : option bool;
  raw_read : option bool;
  raw_resposta_para : option string;
  raw_reply_to_id : option string;
  raw_created_at : nat;
  raw_sender_name : option string;
  raw_sender_avatar : option string
}.

Definition of_mensagem (m : Mensagem) (name avatar : option string) : Raw :=
  {| raw_id := m_id m; raw_tenant_id := m_tenant_id m;
     raw_conversa_id := Some (m_conversa_id m); raw_conversation_id := None;
     raw_remetente_tipo := Some (m_remetente_tipo m); raw_sender_type := None;
     raw_remetente_id := m_remetente_id m; raw_sender_id := None;
     raw_conteudo := Some (m_conteudo m); raw_content := None;
     raw_tipo := Some (m_tipo m); raw_type := None;
     raw_metadata := m_metadata m;
     raw_lida := Some (m_lida m); raw_read := None;
     raw_resposta_para := m_resposta_para m; raw_reply_to_id := None;
     raw_created_at := m_created_at m;
     raw_sender_name := name; raw_sender_avatar := avatar |}.

Definition of_message_row (e : MessageRow) : Raw :=
  {| raw_id := e_id e; raw_tenant_id := e_tenant_id e;
     raw_conversa_id := None; raw_conversation_id := Some (e_conversation_id e);
     raw_remetente_tipo := None; raw_sender_type := Some (e_sender_type e);
     raw_remetente_id := None; raw_sender_id := e_sender_id e;
     raw_conteudo := None; raw_content := Some (e_content e);
     raw_tipo := None; raw_type := Some (e_type e);
     raw_metadata := e_metadata e;
     raw_lida := None; raw_read := Some (e_read e);
     raw_resposta_para := None; raw_reply_to_id := e_reply_to_id e;
     raw_created_at := e_created_at e;
     raw_sender_name := None; raw_sender_avatar := None |}.

Definition mapMessageToResponse (msg : Raw) : MessageResponse :=
  {| r_id := raw_id msg;
     r_tenant_id := raw_tenant_id msg;
     r_conversation_id := Js.or (raw_conversa_id msg) (raw_conversation_id msg);
     r_sender_type :=
       mapSenderTypeToEn (Js.or (raw_remetente_tipo msg) (raw_sender_type msg));
     r_sender_id := Js.or (raw_remetente_id msg) (raw_sender_id msg);
     r_content := Js.or (raw_conteudo msg) (raw_content msg);
     r_type := Js.or_lit (Js.or (raw_tipo msg) (raw_type msg)) "text";
     r_metadata := raw_metadata msg;
     r_read := Js.nullish (raw_lida msg) (raw_read msg);
     r_reply_to_id := Js.or (raw_resposta_para msg) (raw_reply_to_id msg);
     r_created_at := raw_created_at msg;
     r_sender :=
       match raw_sender_name msg with
       | Some n =>
           if n =? EmptyString then None
           else Some {| sender_id := Js.or (raw_remetente_id msg) (raw_sender_id msg);
                        sender_name := n;
                        sender_avatar := raw_sender_avatar msg |}
       | None => None
       end |}.

Record ListParams := {
  lp_userId : string;
  lp_conversationId : string;
  lp_page : nat;
  lp_perPage : nat;
  lp_before : option nat;
  lp_after : option nat
}.

(** The [WHERE] clause that [listByConversation] assembles. *)
Definition list_where (tenantId : string) (p : ListParams) (m : Mensagem) : bool :=
  (m_conversa_id m =? lp_conversationId p)
  && (m_tenant_id m =? tenantId)
  && match lp_before p with
     | Some b => (m_created_at m <? b)%nat
     | None => true
     end
  && match lp_after p with
     | Some a => (a <? m_created_at m)%nat
     | None => true
     end.

(** The sender columns of [listByConversation]: each join is restricted
    to its sender type. *)
Definition with_sender (s : Store) (m : Mensagem) : Raw :=
  let ct := if Sql.is_customer (m_remetente_tipo m)
            then List.find (fun ct => Sql.eq_null (m_remetente_id m) (Some (ct_id ct)))
                   (contatos s)
            else None in
  let a := if Sql.is_agent (m_remetente_tipo m)
           then List.find (fun a => Sql.eq_null (m_remetente_id m) (Some (a_id a)))
                  (agents s)
           else None in
  of_mensagem m
    (if Sql.is_customer (m_remetente_tipo m) then ct ≫= ct_nome
     else if Sql.is_agent (m_remetente_tipo m) then a ≫= a_nome
     else Some "Sistema")
    (if Sql.is_customer (m_remetente_tipo m) then ct ≫= ct_avatar
     else if Sql.is_agent (m_remetente_tipo m) then Some (default "AG" (a ≫= a_nome))
     else None).

(** The sender name of [getById]: the joins are on the sender id alone. *)
Definition with_sender_name (s : Store) (m : Mensagem) : Raw :=
  let ct := List.find (fun ct => Sql.eq_null (m_remetente_id m) (Some (ct_id ct)))
              (contatos s) in
  let a := List.find (fun a => Sql.eq_null (m_remetente_id m) (Some (a_id a)))
             (agents s) in
  of_mensagem m
    (if Sql.is_customer (m_remetente_tipo m) then ct ≫= ct_nome
     else if Sql.is_agent (m_remetente_tipo m) then a ≫= a_nome
     else Some "Sistema")
    None.

(** [ORDER BY m.created_at ASC]. *)
Definition oldest_first (a b : Mensagem) : bool :=
  (m_created_at a <=? m_created_at b)%nat.

Definition listByConversation (p : ListParams) : M (list MessageResponse * nat) :=
  let offset := ((lp_page p - 1) * lp_perPage p)%nat in
  tenantId <- getTenantId (lp_userId p) ;;
  if negb (Js.truthy tenantId) then ret ([], 0%nat)
  else
    let t := Js.or_lit tenantId EmptyString in
    convCheck <- select M_list_check
                   (Sql.conversa_of_tenant (lp_conversationId p) tenantId) ;;
    if (length convCheck =? 0)%nat then throw (NotFoundError "Conversation")
    else
      try_catch
        (total <- select M_list_count
                    (fun s => length (List.filter (list_where t p) (mensagens s))) ;;
         rows <- select M_list_select
                   (fun s =>
                      map (with_sender s)
                        (Sql.limit_offset (lp_perPage p) offset
                           (Sql.order_by oldest_first
                              (List.filter (list_where t p) (mensagens s))))) ;;
         ret (map mapMessageToResponse rows, total))
        (fun dbError =>
           if code_is dbError "42P01" then ret ([], 0%nat) else throw dbError).

Record CreateMessageDTO := {
  conversationId : string;
  senderType : string;
  senderId : option string;
  content : string;
  type : option string;
  metadata : option string;
  replyToId : option string
}.

(** [x || null]. *)
Definition or_null (x : option string) : option string := Js.or x None.

(** [INSERT INTO mensagens (...) VALUES (...) RETURNING *]. *)
Definition insert_mensagem (fill : string -> nat -> Mensagem) (s : Store)
    : Mensagem * Store :=
  let '(newId, s1) := draw s in
  let m := fill newId (clock s) in
  (m, set_mensagens (mensagens s1 ++ [m]) s1).

(** [INSERT INTO messages (...) VALUES (...) RETURNING *]. *)
Definition insert_message_row (fill : string -> nat -> MessageRow) (s : Store)
    : MessageRow * Store :=
  let '(newId, s1) := draw s in
  let e := fill newId (clock s) in
  (e, set_messages (messages s1 ++ [e]) s1).

Definition create (userId : string) (data : CreateMessageDTO) : M MessageResponse :=
  tenantId <- getTenantId userId ;;
  if negb (Js.truthy tenantId) then throw (NotFoundError "User")
  else
    let t := Js.or_lit tenantId EmptyString in
    convCheck <- select M_create_check
                   (Sql.conversa_of_tenant (conversationId data) tenantId) ;;
    if (length convCheck =? 0)%nat then throw (NotFoundError "Conversation")
    else
      let senderTypePt := mapSenderTypeToPt (senderType data) in
      try_catch
        (m <- query M_create_insert
                (insert_mensagem (fun newId now =>
                   {| m_id := newId;
                      m_tenant_id := t;
                      m_conversa_id := conversationId data;
                      m_remetente_tipo := senderTypePt;
                      m_remetente_id := or_null (senderId data);
                      m_conteudo := content data;
                      m_tipo := Js.or_lit (type data) "text";
                      m_tipo_mensagem := None;
                      m_metadata := metadata data;
                      m_lida := if senderType data =? "customer" then false else true;
                      m_lida_em := None;
                      m_resposta_para := or_null (replyToId data);
                      m_created_at := now |})) ;;
         Conversations.updateLastMessage (conversationId data)
           (Js.substring0 100 (content data)) ;;
         let messageResponse := mapMessageToResponse (of_mensagem m None None) in
         Hub.emitNewMessage t (conversationId data) messageResponse ;;
         ret messageResponse)
        (fun dbError =>
           if code_is dbError "42P01" || code_is dbError "42703"
           then
             e <- query M_create_insert_en
                    (insert_message_row (fun newId now =>
                       {| e_id := newId;
                          e_tenant_id := t;
                          e_conversation_id := conversationId data;
                          e_sender_type := senderType data;
                          e_sender_id := or_null (senderId data);
                          e_content := content data;
                          e_type := Js.or_lit (type data) "text";
                          e_metadata := metadata data;
                          e_reply_to_id := or_null (replyToId data);
                          e_read := if senderType data =? "customer" then false else true;
                          e_created_at := now |})) ;;
             ret (mapMessageToResponse (of_message_row e))
           else throw dbError).

Definition markAsRead (userId conversationId : string)
    (messageIds : option (list string)) : M nat :=
  tenantId <- getTenantId userId ;;
  if negb (Js.truthy tenantId) then throw (NotFoundError "User")
  else
    try_catch
      (rows <-
         match Hub.named messageIds with
         | Some ids =>
             query M_mark_ids
               (Sql.update_mensagens
                  (fun m => (m_conversa_id m =? conversationId)
                            && Sql.eq_param (m_tenant_id m) tenantId
                            && Sql.any ids (m_id m)
                            && negb (m_lida m))
                  Sql.set_lida)
         | None =>
             query M_mark_all
               (Sql.update_mensagens
                  (fun m => (m_conversa_id m =? conversationId)
                            && Sql.eq_param (m_tenant_id m) tenantId
                            && negb (m_lida m)
                            && Sql.is_customer (m_remetente_tipo m))
                  Sql.set_lida)
         end ;;
       ret (length rows))
      (fun dbError =>
         if code_is dbError "42P01" then ret 0%nat else throw dbError).

Definition getById (id userId : string) : M MessageResponse :=
  tenantId <- getTenantId userId ;;
  if negb (Js.truthy tenantId) then throw (NotFoundError "Message")
  else
    try_catch
      (rows <- select M_getById
                 (fun s =>
                    map (with_sender_name s)
                      (List.filter
                         (fun m => (m_id m =? id) && Sql.eq_param (m_tenant_id m) tenantId)
                         (mensagens s))) ;;
       match rows with
       | [] => throw (NotFoundError "Message")
       | r :: _ => ret (mapMessageToResponse r)
       end)
      (fun dbError =>
         if code_is dbError "42P01" then throw (NotFoundError "Message")
         else throw dbError).

Record ByTenantData := {
  bt_senderType : string;
  bt_senderId : option string;
  bt_content : string;
  bt_type : option string;
  bt_metadata : option string
}.

(** [createByTenantId], for webhooks: the tenant is taken as given and
    every failure is [null]. *)
Definition createByTenantId (tenantId conversationId : string)
    (data : ByTenantData) : M (option MessageResponse) :=
  let senderTypePt := mapSenderTypeToPt (bt_senderType data) in
  try_catch
    (m <- query M_byTenant_insert
            (insert_mensagem (fun newId now =>
               {| m_id := newId;
                  m_tenant_id := tenantId;
                  m_conversa_id := conversationId;
                  m_remetente_tipo := senderTypePt;
                  m_remetente_id := or_null (bt_senderId data);
                  m_conteudo := bt_content data;
                  m_tipo := Js.or_lit (bt_type data) "text";
                  m_tipo_mensagem := None;
                  m_metadata := bt_metadata data;
                  m_lida := if bt_senderType data =? "customer" then false else true;
                  m_lida_em := None;
                  m_resposta_para := None;
                  m_created_at := now |})) ;;
     query M_byTenant_touch
       (fun s =>
          Sql.update_conversas (fun c => c_id c =? conversationId)
            (fun c =>
               {| c_id := c_id c; c_tenant_id := c_tenant_id c;
                  c_company_id := c_company_id c; c_cliente_id := c_cliente_id c;
                  c_cliente_nome := c_cliente_nome c; c_agente_id := c_agente_id c;
                  c_canal := c_canal c; c_status := c_status c;
                  c_ultima_mensagem := Some (Js.substring0 100 (bt_content data));
                  c_ultima_atividade := Some (clock s);
                  c_metadata := c_metadata c;
                  c_created_at := c_created_at c;
                  c_updated_at := c_updated_at c |}) s) ;;
     let messageResponse := mapMessageToResponse (of_mensagem m None None) in
     Hub.emitNewMessage tenantId conversationId messageResponse ;;
     ret (Some messageResponse))
    (fun _ => ret None).

Definition getUnreadCount (userId conversationId : string) : M nat :=
  tenantId <- getTenantId userId ;;
  if negb (Js.truthy tenantId) then ret 0%nat
  else
    try_catch
      (select M_unread
         (fun s =>
            length (List.filter
                      (fun m => (m_conversa_id m =? conversationId)
                                && Sql.eq_param (m_tenant_id m) tenantId
                                && negb (m_lida m)
                                && Sql.is_customer (m_remetente_tipo m))
                      (mensagens s))))
      (fun _ => ret 0%nat).

End Messages.

(** ** webhooks.routes.ts: webhook ingestion *)

Module Webhooks.

(** A JSON object of the request is kept as the fields the handlers read
    together with its [JSON.stringify] text. *)
Record From := {
  from_id : option string;
  from_phone : option string;
  from_name : option string
}.

Record InboundMessage := {
  msg_text : option string;
  msg_type : option string;
  msg_json : string
}.

Record Body := {
  from : option From;
  message : option InboundMessage;
  (** [JSON.stringify({ ...metadata, timestamp, from })] *)
  metadata_json : string;
  event : option string;
  (** [JSON.stringify(data)] *)
  data_json : option string;
  (** [JSON.stringify(req.body)] *)
  body_json : string
}.

Record Request := {
  x_webhook_signature : option string;
  x_webhook_secret : option string;
  param_type : string;
  param_id : string;
  body : Body
}.

Record Env := {
  WEBHOOK_SECRET : option string
}.

Inductive Data : Type :=
| Received (conversationId : string) (timestamp : nat)
| ReceivedEvent (event : option string) (timestamp : nat).

Inductive Response : Type :=
| Success (data : Data)
| Failure (status : nat) (message : string) (code : option string).

(** [errorHandler], for the errors that reach it here. *)
Definition errorHandler (err : Exn) : Response :=
  match err with
  | AppError message statusCode code => Failure statusCode message code
  | _ => Failure 500 "Internal server error" None
  end.

Section Signature.

(** [crypto.createHmac('sha256', key).update(text).digest('hex')]. *)
Variable hmac_sha256_hex : string -> string -> string.

(** [crypto.timingSafeEqual] on the bytes of two strings: inputs of
    different lengths are an exception, not [false]. *)
Definition timingSafeEqual (a b : string) : Outcome bool :=
  if (String.length a =? String.length b)%nat then Return (a =? b)
  else Throw (RangeError "Input buffers must have the same byte length").

(** [validateWebhookSignature]: [Return tt] is [next()], [Throw e] is
    [next(e)] or an exception, which Express hands to the error handler
    alike. *)
Definition validateWebhookSignature (env : Env) (req : Request) : Outcome unit :=
  let signature := Js.or (x_webhook_signature req) (x_webhook_secret req) in
  let secret := WEBHOOK_SECRET env in
  if negb (Js.truthy secret) then Return tt
  else if negb (Js.truthy signature)
  then Throw (UnauthorizedError "Missing webhook signature")
  else
    let sig := Js.or_lit signature EmptyString in
    let sec := Js.or_lit secret EmptyString in
    if sig =? sec then Return tt
    else if Js.startsWith "sha256=" sig
    then
      let expectedSignature := "sha256=" +:+ hmac_sha256_hex sec (body_json (body req)) in
      match timingSafeEqual sig expectedSignature with
      | Throw e => Throw e
      | Return true => Return tt
      | Return false => Throw (UnauthorizedError "Invalid webhook signature")
      end
    else Throw (UnauthorizedError "Invalid webhook signature").

End Signature.

(** *** POST /channels/:type/:id *)

(** Where a delivery stands: each constructor but the last is the
    [await db.query] it is about to issue. *)
Inductive Pc : Type :=
| AtChannel
| AtFindConversation (tenantId : string)
| AtCreateConversation (tenantId : string)
| AtCreateMessage (tenantId conversationId : string)
| Done (r : Response).

(** [from?.id || from?.phone]. *)
Definition customer_key (req : Request) : option string :=
  Js.or (from (body req) ≫= from_id) (from (body req) ≫= from_phone).

(** [SELECT id FROM conversas WHERE cliente_id = $1 AND canal = $2 AND
    tenant_id = $3]. *)
Definition find_conversation (cliente : option string) (canal tenantId : string)
    (s : Store) : list Conversa :=
  List.filter
    (fun c => Sql.eq_null (c_cliente_id c) cliente
              && (c_canal c =? canal) && (c_tenant_id c =? tenantId))
    (conversas s).

(** [INSERT INTO conversas (tenant_id, canal, cliente_id, cliente_nome,
    status) VALUES ($1, $2, $3, $4, 'aberta') RETURNING id]. *)
Definition insert_conversa (tenantId canal : string) (cliente : option string)
    (nome : string) (s : Store) : string * Store :=
  let '(newId, s1) := draw s in
  let c := {| c_id := newId; c_tenant_id := tenantId; c_company_id := None;
              c_cliente_id := cliente; c_cliente_nome := Some nome;
              c_agente_id := None; c_canal := canal; c_status := "aberta";
              c_ultima_mensagem := None; c_ultima_atividade := Some (clock s);
              c_metadata := None; c_created_at := clock s;
              c_updated_at := clock s |} in
  (newId, set_conversas (conversas s1 ++ [c]) s1).

(** One statement of the handler and the code up to the next one; an
    exception ends the delivery in [next(error)]. *)
Definition step (req : Request) (pc : Pc) : World -> Pc * World :=
  fun w =>
    let attempt (m : M Pc) :=
      match m w with
      | (Return pc', w') => (pc', w')
      | (Throw e, w') => (Done (errorHandler e), w')
      end in
    match pc with
    | AtChannel =>
        attempt
          (channelResult <- select W_channel
             (fun s => List.filter
                         (fun ch => (canal_id ch =? param_id req)
                                    && (canal_tipo ch =? param_type req))
                         (canais s)) ;;
           match channelResult with
           | [] => ret (Done (Failure 404 "Channel not found" (Some "CHANNEL_NOT_FOUND")))
           | ch :: _ => ret (AtFindConversation (canal_tenant_id ch))
           end)
    | AtFindConversation tenantId =>
        attempt
          (conversation <- select W_conv_find
             (find_conversation (customer_key req) (param_type req) tenantId) ;;
           match conversation with
           | c :: _ =>
               if c_id c =? EmptyString then ret (AtCreateConversation tenantId)
               else ret (AtCreateMessage tenantId (c_id c))
           | [] => ret (AtCreateConversation tenantId)
           end)
    | AtCreateConversation tenantId =>
        attempt
          (newId <- query W_conv_insert
             (insert_conversa tenantId (param_type req) (customer_key req)
                (Js.or_lit (from (body req) ≫= from_name) "Cliente")) ;;
           ret (AtCreateMessage tenantId newId))
    | AtCreateMessage tenantId conversationId =>
        attempt
          (* [message?.text || JSON.stringify(message)]; without a message
             it is [undefined], a NULL for [conteudo TEXT NOT NULL]. *)
          (match Js.or (message (body req) ≫= msg_text)
                       (option_map msg_json (message (body req))) with
           | None => throw (PgError "23502")
           | Some conteudo =>
               query W_msg_insert
                 (Messages.insert_mensagem (fun newId now =>
                    {| m_id := newId;
                       m_tenant_id := tenantId;
                       m_conversa_id := conversationId;
                       m_remetente_tipo := "customer";
                       m_remetente_id := None;
                       m_conteudo := conteudo;
                       m_tipo := "text";
                       m_tipo_mensagem :=
                         Some (Js.or_lit (message (body req) ≫= msg_type) "text");
                       m_metadata := Some (metadata_json (body req));
                       m_lida := false;
                       m_lida_em := None;
                       m_resposta_para := None;
                       m_created_at := now |})) ;;
               now <- (fun w' => (Return (clock (store w')), w')) ;;
               ret (Done (Success (Received conversationId now)))
           end)
    | Done r => (Done r, w)
    end.

(** Running a delivery for at most [n] statements. *)
Fixpoint run (n : nat) (req : Request) (pc : Pc) (w : World) : Pc * World :=
  match n with
  | O => (pc, w)
  | S k =>
      match pc with
      | Done r => (Done r, w)
      | _ => let '(pc', w') := step req pc w in run k req pc' w'
      end
  end.

(** The handler on its own: no path issues more than four statements. *)
Definition channel_message (req : Request) : World -> Pc * World :=
  run 4 req AtChannel.

(** Deliveries in flight together: [schedule] names, one resumption at a
    time, the delivery whose pending statement the database answers. *)
Fixpoint interleave (schedule : list nat) (reqs : list (Request * Pc))
    (w : World) : list (Request * Pc) * World :=
  match schedule with
  | [] => (reqs, w)
  | i :: rest =>
      match reqs !! i with
      | Some (req, pc) =>
          let '(pc', w') := step req pc w in
          interleave rest (<[i := (req, pc')]> reqs) w'
      | None => interleave rest reqs w
      end
  end.

(** *** POST /n8n/event *)

Definition n8n_event (req : Request) : World -> Response * World :=
  fun w =>
    match
      (query W_event_log
         (fun s =>
            (tt, set_webhook_logs
                   (webhook_logs s ++
                      [{| wl_event_type := "n8n." +:+ default "undefined" (event (body req));
                          wl_payload := data_json (body req);
                          wl_success := true |}]) s)) ;;
       now <- (fun w' => (Return (clock (store w')), w')) ;;
       ret (Success (ReceivedEvent (event (body req)) now))) w
    with
    | (Return r, w') => (r, w')
    | (Throw e, w') => (errorHandler e, w')
    end.

(** *** The router *)

Inductive Route : Type :=
| PostN8nEvent
| PostChannelMessage.

(** Whether the route is registered with [validateWebhookSignature]. *)
Definition signed (route : Route) : bool :=
  match route with
  | PostN8nEvent => true
  | PostChannelMessage => false
  end.

Definition post (hmac_sha256_hex : string -> string -> string) (env : Env)
    (route : Route) (req : Request) : World -> Response * World :=
  fun w =>
    match (if signed route
           then validateWebhookSignature hmac_sha256_hex env req
           else Return tt) with
    | Throw e => (errorHandler e, w)
    | Return _ =>
        match route with
        | PostN8nEvent => n8n_event req w
        | PostChannelMessage =>
            match channel_message req w with
            | (Done r, w') => (r, w')
            | (_, w') => (Failure 500 "Internal server error" None, w')
            end
        end
    end.

End Webhooks.

(** ** messages.schema.ts and conversations.schema.ts: the enumerations *)

Module Schema.

Definition senderTypes : list string := ["customer"; "agent"; "system"; "bot"].

Definition conversationStatusPt : list string :=
  ["aberta"; "em_atendimento"; "resolvida"; "fechada"].

Definition conversationStatusEn : list string :=
  ["open"; "in_progress"; "resolved"; "closed"].

End Schema.

(** ** Notions the statements are written with *)

(** The tenant of a user, as every [getTenantId] reads it. *)
Definition caller_tenant (userId : string) (s : Store) : option string :=
  match Sql.users_by_id userId s with
  | u :: _ => user_tenant_id u
  | [] => None
  end.

(** The database executes the statement of a call site. *)
Definition accepts (w : World) (site : Site) : Prop :=
  rejects (store w) site = None.

(** A conversation of the given id exists under the given tenant. *)
Definition owns (tenant : option string) (conversationId : string) (s : Store) : Prop :=
  exists c, In c (conversas s) /\ c_id c = conversationId
            /\ Some (c_tenant_id c) = tenant.

(** The events of a log that were sent to a room, with whom they reached;
    the events that reached a connection through a room. *)
Fixpoint sent_to (room : string) (l : list Effect) : list (gset string * ServerEvent) :=
  match l with
  | [] => []
  | Emit r reached ev :: rest =>
      if r =? room then (reached, ev) :: sent_to room rest else sent_to room rest
  | _ :: rest => sent_to room rest
  end.

Definition observed (socketId room : string) (l : list Effect) : list ServerEvent :=
  map snd (List.filter (fun p => bool_decide (socketId ∈ fst p)) (sent_to room l)).

(** The emissions of a log, in order. *)
Fixpoint emissions (l : list Effect) : list (string * ServerEvent) :=
  match l with
  | [] => []
  | Emit r _ ev :: rest => (r, ev) :: emissions rest
  | EmitSelf _ _ :: rest => emissions rest
  | _ :: rest => emissions rest
  end.

(** A message that a mark-all call is to transition: unread, written by
    the customer, in the conversation, under the tenant. *)
Definition unread_customer (tenant conversationId : string) (m : Mensagem) : bool :=
  (m_conversa_id m =? conversationId) && (m_tenant_id m =? tenant)
  && negb (m_lida m) && Sql.is_customer (m_remetente_tipo m).

(** Sender types of the messages no customer wrote. *)
Definition staff_authored (m : Mensagem) : Prop :=
  In (m_remetente_tipo m) ["agente"; "sistema"; "bot"; "agent"; "system"].

(** Two rows that differ in the read flag and its timestamp at most. *)
Definition same_but_read (m m' : Mensagem) : Prop :=
  m_id m' = m_id m /\ m_tenant_id m' = m_tenant_id m
  /\ m_conversa_id m' = m_conversa_id m
  /\ m_remetente_tipo m' = m_remetente_tipo m
  /\ m_remetente_id m' = m_remetente_id m
  /\ m_conteudo m' = m_conteudo m /\ m_tipo m' = m_tipo m
  /\ m_tipo_mensagem m' = m_tipo_mensagem m
  /\ m_metadata m' = m_metadata m
  /\ m_resposta_para m' = m_resposta_para m
  /\ m_created_at m' = m_created_at m.

(** The number of rows that went from unread to read between two states
    of [mensagens]. *)
Definition transitioned (before after : list Mensagem) : nat :=
  length (List.filter (fun p => negb (m_lida (fst p)) && m_lida (snd p))
            (combine before after)).

(** How a mark-read call may leave a row: as it was, or read, and then
    only a row the call names or, when it names none, a row the customer
    wrote. *)
Definition marked_by (messageIds : option (list string)) (m m' : Mensagem) : Prop :=
  m' = m
  \/ (same_but_read m m' /\ m_lida m' = true
      /\ match Hub.named messageIds with
         | Some ids => In (m_id m) ids
         | None => Sql.is_customer (m_remetente_tipo m) = true
         end).

(** The rows of a key in [conversas]: one customer on one channel of one
    tenant. *)
Definition conversations_of (tenant canal : string) (cliente : option string)
    (s : Store) : list Conversa :=
  Webhooks.find_conversation cliente canal tenant s.

(** ** A sample deployment, for the concrete runs

    Two tenants with one operator each, a WhatsApp channel and one open
    conversation under the first tenant, the hub up. *)

Module Sample.

Definition conversa (i t : string) (cliente : option string) : Conversa :=
  {| c_id := i; c_tenant_id := t; c_company_id := None; c_cliente_id := cliente;
     c_cliente_nome := None; c_agente_id := None; c_canal := "whatsapp";
     c_status := "aberta"; c_ultima_mensagem := None; c_ultima_atividade := None;
     c_metadata := None; c_created_at := 0; c_updated_at := 0 |}.

Definition mensagem (i t c tipo : string) (lida : bool) : Mensagem :=
  {| m_id := i; m_tenant_id := t; m_conversa_id := c; m_remetente_tipo := tipo;
     m_remetente_id := None; m_conteudo := "..."; m_tipo := "text";
     m_tipo_mensagem := None; m_metadata := None; m_lida := lida;
     m_lida_em := None; m_resposta_para := None; m_created_at := 1 |}.

(** Generated ids: "id0", "id1", ... *)
Definition ids (n : nat) : string :=
  "id" +:+ String (ascii_of_nat (48 + n)) EmptyString.

Definition db : Store :=
  {| users := [ {| user_id := "u1"; user_tenant_id := Some "T1"; user_name := Some "Ana" |};
                {| user_id := "u2"; user_tenant_id := Some "T2"; user_name := Some "Bia" |} ];
     contatos := [];
     agents := [];
     canais := [ {| canal_id := "ch1"; canal_tenant_id := "T1"; canal_tipo := "whatsapp" |} ];
     conversas := [ conversa "c1" "T1" (Some "k1") ];
     mensagens := [ mensagem "m1" "T1" "c1" "cliente" false;
                    mensagem "m2" "T1" "c1" "agente" false;
                    mensagem "m3" "T1" "c1" "customer" true ];
     messages := [];
     webhook_logs := [];
     clock := 10;
     uuid := ids;
     drawn := 0;
     rejects := fun _ => None |}.

(** The same database answering one call site with an SQLSTATE. *)
Definition rejecting (site : Site) (code : string) (s : Store) : Store :=
  {| users := users s; contatos := contatos s; agents := agents s;
     canais := canais s; conversas := conversas s; mensagens := mensagens s;
     messages := messages s; webhook_logs := webhook_logs s;
     clock := clock s; uuid := uuid s; drawn := drawn s;
     rejects := fun x => if decide (x = site) then Some code else rejects s x |}.

Definition ana : Hub.Socket :=
  {| Hub.id := "s1"; Hub.userId := "u1"; Hub.tenantId := Some "T1" |}.

Definition bia : Hub.Socket :=
  {| Hub.id := "s2"; Hub.userId := "u2"; Hub.tenantId := Some "T2" |}.

(** A second connection of the first tenant. *)
Definition rui : Hub.Socket :=
  {| Hub.id := "s3"; Hub.userId := "u1"; Hub.tenantId := Some "T1" |}.

Definition after {A} (m : M A) (w : World) : World := snd (m w).

(** All three are connected, each in the room of its tenant, and the two
    connections of the first tenant have opened its conversation. *)
Definition rooms : gmap string (gset string) :=
  <[Hub.conversation_room "c1" := {[ "s1"; "s3" ]}]>
    (<[Hub.tenant_room "T2" := {[ "s2" ]}]>
       (<[Hub.tenant_room "T1" := {[ "s1"; "s3" ]}]> ∅)).

Definition world : World :=
  {| store := db; io := Some rooms; log := [] |}.

(** A WhatsApp delivery from a customer the tenant has not seen yet. *)
Definition delivery : Webhooks.Request :=
  {| Webhooks.x_webhook_signature := None;
     Webhooks.x_webhook_secret := None;
     Webhooks.param_type := "whatsapp";
     Webhooks.param_id := "ch1";
     Webhooks.body :=
       {| Webhooks.from := Some {| Webhooks.from_id := Some "5511999";
                                   Webhooks.from_phone := None;
                                   Webhooks.from_name := Some "Ana" |};
          Webhooks.message := Some {| Webhooks.msg_text := Some "Oi";
                                      Webhooks.msg_type := Some "text";
                                      Webhooks.msg_json := "{}" |};
          Webhooks.metadata_json := "{}";
          Webhooks.event := None;
          Webhooks.data_json := None;
          Webhooks.body_json := "{}" |} |}.

Definition reply : Messages.CreateMessageDTO :=
  {| Messages.conversationId := "c1"; Messages.senderType := "agent";
     Messages.senderId := None; Messages.content := "Bom dia";
     Messages.type := Some "text"; Messages.metadata := None;
     Messages.replyToId := None |}.

(** The first page of the messages of conversation "c1", asked by a user. *)
Definition first_page (userId : string) : Messages.ListParams :=
  {| Messages.lp_userId := userId; Messages.lp_conversationId := "c1";
     Messages.lp_page := 1; Messages.lp_perPage := 50;
     Messages.lp_before := None; Messages.lp_after := None |}.

(** A stand-in for HMAC-SHA256, for the runs that do not depend on it. *)
Definition digest (key text : string) : string := key +:+ text.

Definition inbound : Messages.ByTenantData :=
  {| Messages.bt_senderType := "customer"; Messages.bt_senderId := None;
     Messages.bt_content := "Oi"; Messages.bt_type := None;
     Messages.bt_metadata := None |}.

End Sample.

(** ** shared/utils/jwt.utils.ts: token lifetimes *)

From Stdlib Require DecimalString DecimalN NArith.

Module Jwt.

(** [\d] *)
Definition is_digit (c : ascii) : bool :=
  let n := nat_of_ascii c in ((48 <=? n)%nat && (n <=? 57)%nat)%bool.

(** [[smhd]] *)
Definition is_unit (c : ascii) : bool :=
  Ascii.eqb c "s" || Ascii.eqb c "m" || Ascii.eqb c "h" || Ascii.eqb c "d".

Fixpoint all_digits (s : string) : bool :=
  match s with
  | EmptyString => true
  | String c r => is_digit c && all_digits r
  end.

(** A string without its last character, and that character. *)
Fixpoint split_last (s : string) : option (string * ascii) :=
  match s with
  | EmptyString => None
  | String c r =>
      match split_last r with
      | None => Some (EmptyString, c)
      | Some (init, last) => Some (String c init, last)
      end
  end.

(** [exp.match(/^(\d+)([smhd])$/)]: the two groups of a match. *)
Definition match_exp (exp : string) : option (string * ascii) :=
  match split_last exp with
  | Some (digits, unit) =>
      if negb (digits =? EmptyString) && all_digits digits && is_unit unit
      then Some (digits, unit)
      else None
  | None => None
  end.

(** [parseInt] on a string of digits. A JavaScript number is a double:
    the value is the numeral's as long as it stays below [2^53]. *)
Definition parseInt (digits : string) : N :=
  match DecimalString.NilEmpty.uint_of_string digits with
  | Some d => N.of_uint d
  | None => 0%N
  end.

Definition parseExpiration (exp : string) : N :=
  match match_exp exp with
  | None => 3600%N
  | Some (digits, unit) =>
      let value := parseInt digits in
      if Ascii.eqb unit "s" then value
      else if Ascii.eqb unit "m" then (value * 60)%N
      else if Ascii.eqb unit "h" then (value * 3600)%N
      else if Ascii.eqb unit "d" then (value * 86400)%N
      else 3600%N
  end.

(** [getTokenExpiration], with [Date.now()] in milliseconds. *)
Definition getTokenExpiration (now : N) (exp : string) : N :=
  (now + parseExpiration exp * 1000)%N.

End Jwt.

(** ** shared/middleware/auth.middleware.ts: the REST gate *)

Module Auth.

Definition ForbiddenError (message : string) : Exn :=
  AppError message 403 (Some "FORBIDDEN").

(** [req.user] *)
Record TokenPayload := {
  userId : string;
  email : string;
  role : string
}.

(** [s.split(' ')]. *)
Fixpoint split_space (s : string) : list string :=
  match s with
  | EmptyString => [EmptyString]
  | String c r =>
      if Ascii.eqb c " " then EmptyString :: split_space r
      else match split_space r with
           | p :: ps => String c p :: ps
           | [] => [String c EmptyString]
           end
  end.

(** What a middleware hands on: [next()] with [req.user] as it then is,
    [next(e)] with an error of the application, or [next(error)] with
    the error [verifyToken] threw, known by its [name]. *)
Inductive Next : Type :=
| Pass (user : option TokenPayload)
| PassError (e : Exn)
| PassThrown (name : string).

Section Verify.

(** [verifyToken]: the decoded token, or the name of the error thrown. *)
Variable verifyToken : string -> string + TokenPayload.

Definition authenticate (authorization : option string) : Next :=
  if negb (Js.truthy authorization)
  then PassError (UnauthorizedError "No authorization header provided")
  else
    let parts := split_space (Js.or_lit authorization EmptyString) in
    let type := parts !! 0%nat in
    let token := parts !! 1%nat in
    if negb (bool_decide (type = Some "Bearer")) || negb (Js.truthy token)
    then PassError (UnauthorizedError "Invalid authorization format. Use: Bearer <token>")
    else
      match verifyToken (Js.or_lit token EmptyString) with
      | inr decoded =>
          Pass (Some {| userId := userId decoded; email := email decoded;
                        role := role decoded |})
      | inl name =>
          if name =? "TokenExpiredError"
          then PassError (UnauthorizedError "Token expired")
          else if name =? "JsonWebTokenError"
          then PassError (UnauthorizedError "Invalid token")
          else PassThrown name
      end.

Definition optionalAuth (authorization : option string) : Next :=
  if negb (Js.truthy authorization) then Pass None
  else
    let parts := split_space (Js.or_lit authorization EmptyString) in
    let type := parts !! 0%nat in
    let token := parts !! 1%nat in
    if negb (bool_decide (type = Some "Bearer")) || negb (Js.truthy token)
    then Pass None
    else
      match verifyToken (Js.or_lit token EmptyString) with
      | inr decoded =>
          Pass (Some {| userId := userId decoded; email := email decoded;
                        role := role decoded |})
      | inl _ => Pass None
      end.

End Verify.

(** [authorize(...roles)], on the [req.user] it finds. *)
Definition authorize (roles : list string) (user : option TokenPayload) : Next :=
  match user with
  | None => PassError (UnauthorizedError "Not authenticated")
  | Some u =>
      if negb (existsb (String.eqb (role u)) roles)
      then PassError (ForbiddenError "Insufficient permissions")
      else Pass (Some u)
  end.

(** [router.use(authenticate); router.use(authorize('admin'))], as
    users.routes.ts has it: the second runs when the first called
    [next()]. *)
Definition admin_only (verifyToken : string -> string + TokenPayload)
    (authorization : option string) : Next :=
  match authenticate verifyToken authorization with
  | Pass user => authorize ["admin"] user
  | refused => refused
  end.

End Auth.

(** ** shared/utils/response.utils.ts and the controllers that page *)

Module Response.

(** The value of [Math.ceil(total / perPage)] on two counts: a count, or
    what a division by zero gives. *)
Inductive Pages : Type :=
| Count (n : nat)
| Infinity
| NaN.

Definition ceil_div (total perPage : nat) : Pages :=
  match perPage with
  | O => match total with O => NaN | S _ => Infinity end
  | S _ =>
      if (total mod perPage =? 0)%nat then Count (total / perPage)
      else Count (S (total / perPage))
  end.

Record PaginationMeta := {
  pm_total : nat;
  pm_page : nat;
  pm_perPage : nat
}.

Record Meta := {
  total : nat;
  page : nat;
  perPage : nat;
  totalPages : Pages
}.

(** What [res] was given: the status, the body and the pagination
    counts set as headers. *)
Record Sent (T : Type) := {
  status : nat;
  data : T;
  meta : option Meta;
  paging_headers : option (nat * nat * nat)
}.
Arguments status {T} _.
Arguments data {T} _.
Arguments meta {T} _.
Arguments paging_headers {T} _.

Definition sendSuccess {T} (d : T) (statusCode : nat)
    (m : option PaginationMeta) : Sent T :=
  {| status := statusCode;
     data := d;
     meta := option_map
               (fun pm => {| total := pm_total pm; page := pm_page pm;
                             perPage := pm_perPage pm;
                             totalPages := ceil_div (pm_total pm) (pm_perPage pm) |})
               m;
     paging_headers := option_map (fun pm => (pm_total pm, pm_page pm, pm_perPage pm)) m |}.

Definition sendCreated {T} (d : T) : Sent T := sendSuccess d 201 None.

End Response.

(** ** messages.controller.ts and conversations.controller.ts *)

Module Controllers.



(** [MessagesController.create]. *)
Definition createMessage (userId : string) (data : Messages.CreateMessageDTO)
    : M (Response.Sent MessageResponse) :=
  message <- Messages.create userId data ;;
  ret (Response.sendCreated message).

(** [ConversationsController.close]. *)
Definition closeConversation (id userId : string)
    : M (Response.Sent ConversationResponse) :=
  conversation <- Conversations.close id userId ;;
  ret (Response.sendSuccess conversation 200 None).

End Controllers.

(** ** The server at work: requests, deliveries and hub events in turn *)

Module Server.

(** A call of a service operation, as a controller or a route makes it. *)
Inductive Call : Type :=
| ListMessages (p : Messages.ListParams)
| CreateMessage (userId : string) (data : Messages.CreateMessageDTO)
| MarkAsRead (userId conversationId : string) (messageIds : option (list string))
| GetMessage (id userId : string)
| GetUnreadCount (userId conversationId : string)
| CreateByTenantId (tenantId conversationId : string) (data : Messages.ByTenantData)
| ListConversations (p : Conversations.ListParams)
| GetConversation (id userId : string)
| UpdateStatus (id userId status : string)
| AssignAgent (id userId agentId : string)
| GetByTenantId (tenantId conversationId : string)
| Webhook (route : Webhooks.Route) (req : Webhooks.Request).

(** What happens: a connection is accepted, a connected client sends an
    event or goes away, a service operation is called. *)
Inductive Happening : Type :=
| Connection (sock : Hub.Socket)
| FromClient (sock : Hub.Socket) (ev : Hub.ClientEvent)
| Service (c : Call).

Section Running.

Variable ilike : option string -> string -> bool.
Variable hmac_sha256_hex : string -> string -> string.
Variable env : Webhooks.Env.

(** The world after a call, whatever it returned or threw. *)
Definition call (c : Call) (w : World) : World :=
  match c with
  | ListMessages p => snd (Messages.listByConversation p w)
  | CreateMessage userId data => snd (Messages.create userId data w)
  | MarkAsRead userId conversationId messageIds =>
      snd (Messages.markAsRead userId conversationId messageIds w)
  | GetMessage id userId => snd (Messages.getById id userId w)
  | GetUnreadCount userId conversationId =>
      snd (Messages.getUnreadCount userId conversationId w)
  | CreateByTenantId tenantId conversationId data =>
      snd (Messages.createByTenantId tenantId conversationId data w)
  | ListConversations p => snd (Conversations.list ilike p w)
  | GetConversation id userId => snd (Conversations.getById id userId w)
  | UpdateStatus id userId status => snd (Conversations.updateStatus id userId status w)
  | AssignAgent id userId agentId => snd (Conversations.assignAgent id userId agentId w)
  | GetByTenantId tenantId conversationId =>
      snd (Conversations.getByTenantId tenantId conversationId w)
  | Webhook route req => snd (Webhooks.post hmac_sha256_hex env route req w)
  end.

Definition happen (h : Happening) (w : World) : World :=
  match h with
  | Connection sock => snd (Hub.on_connection sock w)
  | FromClient sock ev => snd (Hub.on sock ev w)
  | Service c => call c w
  end.

(** The world after a history, the oldest happening first. *)
Fixpoint after (history : list Happening) (w : World) : World :=
  match history with
  | [] => w
  | h :: rest => after rest (happen h w)
  end.

End Running.

(** The sockets a history speaks of. *)
Fixpoint sockets (history : list Happening) : list Hub.Socket :=
  match history with
  | [] => []
  | Connection sock :: rest => sock :: sockets rest
  | FromClient sock _ :: rest => sock :: sockets rest
  | Service _ :: rest => sockets rest
  end.

End Server.

(** ** Notions the further statements are written with *)

(** The decimal numeral of a number. *)
Definition numeral (n : N) : string :=
  DecimalString.NilEmpty.string_of_uint (N.to_uint n).

(** A string of one character. *)
Definition char (c : ascii) : string := String c EmptyString.

(** A word: a string without a space. *)
Fixpoint no_space (s : string) : bool :=
  match s with
  | EmptyString => true
  | String c r => negb (Ascii.eqb c " ") && no_space r
  end.

(** The conversations of a store are still in another, each under its
    id and its tenant. *)
Definition keeps_conversations (s s' : Store) : Prop :=
  forall c, In c (conversas s) ->
    exists c', In c' (conversas s') /\ c_id c' = c_id c /\ c_tenant_id c' = c_tenant_id c.

(** Every connection in a room is there as one of the given sockets: in
    the room of a tenant as a socket of that tenant, in the room of a
    conversation as a socket whose tenant has a conversation of that id. *)
Definition admitted (socks : list Hub.Socket) (w : World) : Prop :=
  forall rooms room sid,
    io w = Some rooms -> sid ∈ Hub.members room rooms ->
    exists sock,
      In sock socks /\ Hub.id sock = sid
      /\ ((exists t, Hub.tenantId sock = Some t /\ room = Hub.tenant_room t)
          \/ (exists c, room = Hub.conversation_room c
                        /\ owns (Hub.tenantId sock) c (store w))).


(** ** Further samples *)

Module Sample2.

(** The first twenty conversations of a user, the open ones. *)
Definition open_conversations (userId : string) : Conversations.ListParams :=
  {| Conversations.lp_userId := userId; Conversations.lp_page := 1;
     Conversations.lp_perPage := 20; Conversations.lp_status := Some "open";
     Conversations.lp_channel := None; Conversations.lp_agentId := None;
     Conversations.lp_customerId := None; Conversations.lp_search := None |}.

(** A search that matches nothing. *)
Definition no_match (column : option string) (pattern : string) : bool := false.

End Sample2.

(** * Properties *)

(** ** Running a statement *)

Lemma query_accepted {A} (site : Site) (run : Store -> A * Store) (w : World) :
  accepts w site ->
  query site run w =
    (Return (fst (run (store w))),
     logged (Sql site) (with_store (tick (snd (run (store w)))) w)).
Proof.
  unfold accepts, query. intros ->. destruct (run (store w)); reflexivity.
Qed.

Lemma query_rejected {A} (site : Site) (run : Store -> A * Store) (w : World) code :
  rejects (store w) site = Some code ->
  query site run w = (Throw (PgError code), logged (SqlRejected site code) w).
Proof. unfold query. intros ->. reflexivity. Qed.

Lemma select_accepted {A} (site : Site) (read : Store -> A) (w : World) :
  accepts w site ->
  select site read w =
    (Return (read (store w)), logged (Sql site) (with_store (tick (store w)) w)).
Proof. intros H. unfold select. rewrite query_accepted by assumption. reflexivity. Qed.

(** Case analysis on a run, one [match] at a time. *)
Ltac crack :=
  repeat (simpl in *;
    match goal with
    | H : (_, _) = (_, _) |- _ => inversion H; clear H; subst
    | H : Return _ = Return _ |- _ => inversion H; clear H; subst
    | H : Some _ = Some _ |- _ => inversion H; clear H; subst
    | H : context [match ?x with _ => _ end] |- _ => destruct x eqn:?
    | H : context [if ?x then _ else _] |- _ => destruct x eqn:?
    | H : _ |- _ => discriminate H
    end).

Ltac unfold_m :=
  unfold Hub.emitNewMessage, Hub.io_to_emit, Hub.socket_to_emit, Hub.socket_emit,
    Hub.socket_join, Hub.socket_leave,
    select, query, bind, ret, throw, try_catch in *.

Ltac unfold_services :=
  unfold Messages.create, Messages.createByTenantId, Messages.markAsRead,
    Messages.getUnreadCount, Messages.getById, Messages.listByConversation,
    Messages.getTenantId, Messages.insert_mensagem, Messages.insert_message_row,
    Conversations.updateLastMessage, Conversations.getTenantId in *;
  unfold_m.

(** ** Lists: what [ORDER BY], [LIMIT] and [UPDATE] keep *)

Lemma insert_by_In {A} (before : A -> A -> bool) (x y : A) (l : list A) :
  In y (Sql.insert_by before x l) <-> y = x \/ In y l.
Proof.
  induction l as [| z l IH]; simpl.
  - intuition.
  - destruct (before x z); simpl; [intuition |].
    rewrite IH. intuition.
Qed.

Lemma order_by_In {A} (before : A -> A -> bool) (y : A) (l : list A) :
  In y (Sql.order_by before l) <-> In y l.
Proof.
  induction l as [| x l IH]; simpl; [reflexivity |].
  rewrite insert_by_In, IH. intuition.
Qed.

Lemma limit_offset_In {A} (n k : nat) (y : A) (l : list A) :
  In y (Sql.limit_offset n k l) -> In y l.
Proof.
  unfold Sql.limit_offset. intros H.
  rewrite <- (firstn_skipn k l). apply in_or_app. right.
  rewrite <- (firstn_skipn n (skipn k l)). apply in_or_app. left. exact H.
Qed.

Lemma Forall2_map_update {A} (p : A -> bool) (f : A -> A) (l : list A) :
  Forall2 (fun x y => y = if p x then f x else x) l
    (map (fun x => if p x then f x else x) l).
Proof. induction l; simpl; constructor; auto. Qed.

Lemma filter_none {A} (p : A -> bool) (l : list A) :
  (forall x, In x l -> p x = false) -> List.filter p l = [].
Proof.
  induction l as [| x l IH]; simpl; intros H; [reflexivity |].
  rewrite (H x) by auto. apply IH. auto.
Qed.

Lemma map_update_none {A} (p : A -> bool) (f : A -> A) (l : list A) :
  (forall x, In x l -> p x = false) ->
  map (fun x => if p x then f x else x) l = l.
Proof.
  induction l as [| x l IH]; simpl; intros H; [reflexivity |].
  rewrite (H x) by auto. f_equal. apply IH. auto.
Qed.

(** ** The lookups that decide ownership *)

Lemma eq_param_true (column : string) (param : option string) :
  Sql.eq_param column param = true <-> param = Some column.
Proof.
  destruct param as [v |]; simpl.
  - rewrite String.eqb_eq. split; congruence.
  - split; discriminate.
Qed.

Lemma conversa_of_tenant_In c id tenant s :
  In c (Sql.conversa_of_tenant id tenant s) <->
  In c (conversas s) /\ c_id c = id /\ tenant = Some (c_tenant_id c).
Proof.
  unfold Sql.conversa_of_tenant. rewrite filter_In, andb_true_iff.
  rewrite String.eqb_eq, eq_param_true. reflexivity.
Qed.

Lemma not_owned_nil tenant id s :
  ~ owns tenant id s -> Sql.conversa_of_tenant id tenant s = [].
Proof.
  intros H. destruct (Sql.conversa_of_tenant id tenant s) as [| c l] eqn:E; [reflexivity |].
  exfalso. apply H. exists c.
  assert (Hin : In c (Sql.conversa_of_tenant id tenant s)) by (rewrite E; left; reflexivity).
  apply conversa_of_tenant_In in Hin as (? & ? & ->). auto.
Qed.

Lemma owned_cons tenant id s c l :
  Sql.conversa_of_tenant id tenant s = c :: l -> owns tenant id s.
Proof.
  intros E. exists c.
  assert (Hin : In c (Sql.conversa_of_tenant id tenant s)) by (rewrite E; left; reflexivity).
  apply conversa_of_tenant_In in Hin as (? & ? & ->). auto.
Qed.

Lemma owned_nonempty tenant id s :
  (length (Sql.conversa_of_tenant id tenant s) =? 0)%nat = false -> owns tenant id s.
Proof.
  destruct (Sql.conversa_of_tenant id tenant s) as [| c l] eqn:E; [discriminate |].
  intros _. eapply owned_cons; eassumption.
Qed.

(** ** The webhook channel route, statement by statement *)

Lemma done_is_final req r w : Webhooks.step req (Webhooks.Done r) w = (Webhooks.Done r, w).
Proof. reflexivity. Qed.

Lemma run_done n req r w : Webhooks.run n req (Webhooks.Done r) w = (Webhooks.Done r, w).
Proof. destruct n; reflexivity. Qed.

Lemma emissions_app l1 l2 : emissions (l1 ++ l2) = emissions l1 ++ emissions l2.
Proof.
  induction l1 as [| e l1 IH]; simpl; [reflexivity |].
  destruct e; simpl; rewrite ?IH; reflexivity.
Qed.

Ltac worlds := unfold logged, with_store, with_io, tick in *; simpl in *.

(** A statement of a delivery emits nothing and leaves the rooms alone. *)
Lemma step_emits_nothing req pc w pc' w' :
  Webhooks.step req pc w = (pc', w') ->
  emissions (log w') = emissions (log w) /\ io w' = io w.
Proof.
  intros H. unfold Webhooks.step in H. unfold_services.
  destruct pc; crack; worlds; rewrite ?emissions_app; simpl;
    rewrite ?app_nil_r; auto.
Qed.

Lemma run_emits_nothing n req pc w pc' w' :
  Webhooks.run n req pc w = (pc', w') ->
  emissions (log w') = emissions (log w) /\ io w' = io w.
Proof.
  revert pc w. induction n as [| n IH]; simpl; intros pc w H.
  - inversion H; auto.
  - destruct pc; try (inversion H; auto; fail).
    all: match type of H with
         | (let '(_, _) := ?s in _) = _ => destruct s as [pc1 w1] eqn:E
         end;
      apply step_emits_nothing in E as [E1 E2]; apply IH in H as [H1 H2];
      split; congruence.
Qed.

(** What a statement of a delivery does to [mensagens]: nothing, or, as
    the last statement of a delivery that succeeds, one unread customer
    row more. *)
Lemma step_mensagens req pc w pc' w' :
  Webhooks.step req pc w = (pc', w') ->
  (mensagens (store w') = mensagens (store w)
   /\ forall d, pc' = Webhooks.Done (Webhooks.Success d) -> pc = pc')
  \/ (exists row d, mensagens (store w') = mensagens (store w) ++ [row]
                   /\ m_remetente_tipo row = "customer" /\ m_lida row = false
                   /\ pc' = Webhooks.Done (Webhooks.Success d)).
Proof.
  intros H. unfold Webhooks.step in H. unfold_services.
  destruct pc; crack; worlds;
    try (left; split; [reflexivity | intros; congruence]).
  right. eexists. eexists. repeat split; reflexivity.
Qed.

Lemma run_mensagens n req pc w d w' :
  Webhooks.run n req pc w = (Webhooks.Done (Webhooks.Success d), w') ->
  pc <> Webhooks.Done (Webhooks.Success d) ->
  exists row, mensagens (store w') = mensagens (store w) ++ [row]
              /\ m_remetente_tipo row = "customer" /\ m_lida row = false.
Proof.
  revert pc w. induction n as [| n IH]; simpl; intros pc w H Hpc.
  - inversion H; congruence.
  - destruct pc; try (inversion H; congruence).
    all: match type of H with
         | (let '(_, _) := ?s in _) = _ => destruct s as [pc1 w1] eqn:E
         end.
    all: apply step_mensagens in E as [[E1 E2] | (row & d' & E1 & E2 & E3 & E4)].
    all: try (subst pc1; rewrite run_done in H; inversion H; subst;
              exists row; auto; fail).
    all: destruct (IH pc1 w1 H) as (row & R1 & R2 & R3);
      [intros ->; specialize (E2 d eq_refl); discriminate
      | exists row; rewrite R1, E1; auto].
Qed.
(** ** The initial read flag *)

Lemma flag_iff (sender : string) :
  (if sender =? "customer" then false else true) = false <-> sender = "customer".
Proof.
  destruct (String.eqb_spec sender "customer"); split; congruence.
Qed.

(** The four sender types, between the API and the table. *)
Lemma sender_type_names t :
  In t Schema.senderTypes ->
  Messages.mapSenderTypeToEn (Some (Messages.mapSenderTypeToPt t)) = t
  /\ Messages.mapSenderTypeToEn (Some t) = t
  /\ (Messages.mapSenderTypeToPt t = "cliente" <-> t = "customer").
Proof.
  intros [<- | [<- | [<- | [<- | []]]]]; vm_compute; repeat split; congruence.
Qed.

(** C4. A message created by an append with one of the four sender types
    has that sender type, and is unread exactly when its sender type is
    "customer": the message [create] returns and the row it stores (in
    [mensagens] under the Portuguese name of the type, or in [messages] on
    the fallback path), the message [createByTenantId] returns and the row
    it stores, and the row a delivery through the webhook channel route
    stores, whose sender is always the customer. *)
Theorem read_flag_on_append :
  (forall userId data w m w',
     Messages.create userId data w = (Return m, w') ->
     In (Messages.senderType data) Schema.senderTypes ->
     r_sender_type m = Messages.senderType data
     /\ (r_read m = false <-> r_sender_type m = "customer")
     /\ ((exists row, mensagens (store w') = mensagens (store w) ++ [row]
                      /\ m_id row = r_id m /\ m_lida row = r_read m
                      /\ Messages.mapSenderTypeToEn (Some (m_remetente_tipo row))
                         = r_sender_type m
                      /\ (m_lida row = false <-> m_remetente_tipo row = "cliente"))
         \/ (exists row, messages (store w') = messages (store w) ++ [row]
                         /\ e_id row = r_id m /\ e_read row = r_read m
                         /\ e_sender_type row = r_sender_type m
                         /\ (e_read row = false <-> e_sender_type row = "customer"))))
  /\ (forall tenantId conversationId data w m w',
        Messages.createByTenantId tenantId conversationId data w
          = (Return (Some m), w') ->
        In (Messages.bt_senderType data) Schema.senderTypes ->
        r_sender_type m = Messages.bt_senderType data
        /\ (r_read m = false <-> r_sender_type m = "customer")
        /\ exists row, mensagens (store w') = mensagens (store w) ++ [row]
                       /\ m_id row = r_id m /\ m_lida row = r_read m
                       /\ Messages.mapSenderTypeToEn (Some (m_remetente_tipo row))
                          = r_sender_type m
                       /\ (m_lida row = false <-> m_remetente_tipo row = "cliente"))
  /\ (forall req w d w',
        Webhooks.channel_message req w
          = (Webhooks.Done (Webhooks.Success d), w') ->
        exists row, mensagens (store w') = mensagens (store w) ++ [row]
                    /\ Messages.mapSenderTypeToEn (Some (m_remetente_tipo row))
                       = "customer"
                    /\ m_lida row = false).
Proof.
  split; [| split].
  - intros userId data w m w' H Hin.
    destruct (sender_type_names _ Hin) as (Hround & Hen & Hpt).
    unfold_services. crack.
    all: unfold Messages.mapMessageToResponse, Messages.of_mensagem,
           Messages.of_message_row; simpl.
    all: match goal with
         | |- context [Messages.mapSenderTypeToPt] =>
             assert (Htype : Messages.mapSenderTypeToEn
                               (Js.or (Some (Messages.mapSenderTypeToPt
                                               (Messages.senderType data))) None)
                             = Messages.senderType data)
               by (destruct Hin as [E | [E | [E | [E | []]]]]; rewrite <- E;
                   vm_compute; reflexivity)
         | _ =>
             assert (Htype : Messages.mapSenderTypeToEn
                               (Js.or None (Some (Messages.senderType data)))
                             = Messages.senderType data)
               by (destruct Hin as [E | [E | [E | [E | []]]]]; rewrite <- E;
                   vm_compute; reflexivity)
         end.
    all: rewrite Htype.
    all: split; [reflexivity |]; split; [apply flag_iff |].
    all: try (left; eexists; split; [reflexivity |]; split; [reflexivity |];
              split; [reflexivity |]; split; [exact Hround |];
              simpl; rewrite Hpt; apply flag_iff).
    all: right; eexists; split; [reflexivity |]; split; [reflexivity |];
         split; [reflexivity |]; split; [reflexivity |]; simpl; apply flag_iff.
  - intros tenantId conversationId data w m w' H Hin.
    destruct (sender_type_names _ Hin) as (Hround & Hen & Hpt).
    unfold_services. crack.
    all: unfold Messages.mapMessageToResponse, Messages.of_mensagem; simpl.
    all: assert (Htype : Messages.mapSenderTypeToEn
                           (Js.or (Some (Messages.mapSenderTypeToPt
                                           (Messages.bt_senderType data))) None)
                         = Messages.bt_senderType data)
           by (destruct Hin as [E | [E | [E | [E | []]]]]; rewrite <- E;
               vm_compute; reflexivity).
    all: rewrite Htype.
    all: split; [reflexivity |]; split; [apply flag_iff |].
    all: eexists; split; [reflexivity |]; split; [reflexivity |];
         split; [reflexivity |]; split; [exact Hround |];
         simpl; rewrite Hpt; apply flag_iff.
  - intros req w d w' H. unfold Webhooks.channel_message in H.
    apply run_mensagens in H; [| discriminate].
    destruct H as (row & Hrows & Htype & Hlida).
    exists row. split; [exact Hrows |]. split; [| exact Hlida].
    rewrite Htype. vm_compute. reflexivity.
Qed.

Lemma read_flag_on_append_witness :
  (exists m w', Messages.create "u1" Sample.reply Sample.world = (Return m, w')
                /\ r_sender_type m = "agent" /\ r_read m = true)
  /\ (exists m w', Messages.createByTenantId "T1" "c1" Sample.inbound Sample.world
                     = (Return (Some m), w')
                   /\ r_sender_type m = "customer" /\ r_read m = false)
  /\ (exists d w' row, Webhooks.channel_message Sample.delivery Sample.world
                         = (Webhooks.Done (Webhooks.Success d), w')
                       /\ mensagens (store w') = mensagens (store Sample.world) ++ [row]
                       /\ m_lida row = false).
Proof.
  destruct read_flag_on_append as (Hcreate & HbyTenant & Hroute).
  split; [| split].
  - destruct (Messages.create "u1" Sample.reply Sample.world) as [[m | e] w'] eqn:E;
      [| vm_compute in E; discriminate E].
    exists m, w'. split; [reflexivity |].
    destruct (Hcreate _ _ _ _ _ E) as (Htype & Hflag & _); [simpl; tauto |].
    split; [exact Htype |].
    destruct (r_read m); [reflexivity |].
    rewrite Htype in Hflag. discriminate (proj1 Hflag eq_refl).
  - destruct (Messages.createByTenantId "T1" "c1" Sample.inbound Sample.world)
      as [[[m |] | e] w'] eqn:E; try (vm_compute in E; discriminate E).
    exists m, w'. split; [reflexivity |].
    destruct (HbyTenant _ _ _ _ _ _ E) as (Htype & Hflag & _); [simpl; tauto |].
    split; [exact Htype |]. apply Hflag. exact Htype.
  - destruct (Webhooks.channel_message Sample.delivery Sample.world)
      as [[| | | | [d | ]] w'] eqn:E; try (vm_compute in E; discriminate E).
    destruct (Hroute _ _ _ _ E) as (row & R1 & _ & R3).
    exists d, w', row. auto.
Defined.

(** Outside the four sender types: [createByTenantId] takes any string,
    stores it under the name the mapping gives it and compares it, as
    spelled, with "customer". Spelled in Portuguese or with a capital, the
    sender is stored and returned as the customer and the message is born
    read. *)
Lemma other_spellings_are_born_read :
  map (fun spelling =>
         option_map (fun m => (r_sender_type m, r_read m))
           (match fst (Messages.createByTenantId "T1" "c1"
                         {| Messages.bt_senderType := spelling;
                            Messages.bt_senderId := None;
                            Messages.bt_content := "Oi";
                            Messages.bt_type := None;
                            Messages.bt_metadata := None |} Sample.world) with
            | Return r => r
            | Throw _ => None
            end))
    ["cliente"; "Customer"]
  = [Some ("customer", true); Some ("customer", true)].
Proof. vm_compute. reflexivity. Qed.

(** ** Persist, touch the preview, broadcast *)

(** On the REST path, when the insert into [mensagens] is executed and the
    hub is up, the log of an append is: the two lookups, the insert, the
    preview update (executed or swallowed), the emission to the
    conversation room and the emission to the tenant room. *)
Lemma create_persists_then_broadcasts userId data w m w' rooms :
  Messages.create userId data w = (Return m, w') ->
  accepts w M_create_insert ->
  io w = Some rooms ->
  exists tenant touched,
    caller_tenant userId (store w) = Some tenant
    /\ log w' = log w ++
         [Sql M_getTenantId; Sql M_create_check; Sql M_create_insert; touched;
          Emit (Hub.conversation_room (Messages.conversationId data))
            (Hub.members (Hub.conversation_room (Messages.conversationId data)) rooms)
            (message_new m);
          Emit (Hub.tenant_room tenant) (Hub.members (Hub.tenant_room tenant) rooms)
            (message_new m)]
    /\ (touched = Sql C_updateLastMessage
        \/ exists code, touched = SqlRejected C_updateLastMessage code).
Proof.
  unfold accepts. intros H Hacc Hio. unfold_services. crack; worlds.
  all: try congruence.
  all: match goal with
       | H : Sql.users_by_id _ _ = _ |- _ =>
           unfold caller_tenant; rewrite H
       end.
  all: match goal with
       | H : negb (Js.truthy ?t) = false |- _ =>
           destruct t as [tenant |]; [| discriminate H];
           simpl in H; destruct (String.eqb_spec tenant EmptyString); [discriminate H |]
       end.
  all: match goal with
       | H1 : io ?x = Some _, H2 : io ?x = Some _ |- _ =>
           rewrite H1 in H2; inversion H2; subst
       end.
  all: eexists; eexists; split; [reflexivity |].
  all: simpl; destruct (String.eqb_spec tenant EmptyString); [congruence |].
  all: rewrite <- !app_assoc; simpl; split; [reflexivity |]; eauto.
Qed.

(** The same for [createByTenantId] when it returns a message. *)
Lemma createByTenantId_persists_then_broadcasts tenantId conversationId data w m w' rooms :
  Messages.createByTenantId tenantId conversationId data w = (Return (Some m), w') ->
  io w = Some rooms ->
  log w' = log w ++
    [Sql M_byTenant_insert; Sql M_byTenant_touch;
     Emit (Hub.conversation_room conversationId)
       (Hub.members (Hub.conversation_room conversationId) rooms) (message_new m);
     Emit (Hub.tenant_room tenantId) (Hub.members (Hub.tenant_room tenantId) rooms)
       (message_new m)].
Proof.
  intros H Hio. unfold_services. crack; worlds.
  all: try congruence.
  all: match goal with
       | H1 : io ?x = Some _, H2 : io ?x = Some _ |- _ =>
           rewrite H1 in H2; inversion H2; subst
       end.
  all: rewrite <- !app_assoc; reflexivity.
Qed.

(** The fallback of the REST path stores the message in [messages] and
    returns it without touching the preview or emitting. *)
Lemma create_fallback_is_not_broadcast :
  option_map r_content
    (match fst (Messages.create "u1" Sample.reply
                  (with_store (Sample.rejecting M_create_insert "42P01" Sample.db)
                     Sample.world)) with
     | Return m => Some m
     | Throw _ => None
     end) = Some (Some "Bom dia")
  /\ emissions
       (log (snd (Messages.create "u1" Sample.reply
                    (with_store (Sample.rejecting M_create_insert "42P01" Sample.db)
                       Sample.world))))
     = [].
Proof. vm_compute. split; reflexivity. Qed.

(** C1, at a delivery the route accepts. The hub is up and two
    connections of tenant T1 sit in its tenant room; the WhatsApp delivery
    is answered with success and its message is stored; no event is
    emitted to any room, and the preview of the conversation is not
    touched either. *)
Theorem webhook_delivery_is_not_broadcast :
  fst (Webhooks.channel_message Sample.delivery Sample.world)
    = Webhooks.Done (Webhooks.Success (Webhooks.Received "id0" 14))
  /\ map (fun m => (m_id m, m_conversa_id m, m_conteudo m, m_lida m))
       (mensagens (store (snd (Webhooks.channel_message Sample.delivery Sample.world))))
     = map (fun m => (m_id m, m_conversa_id m, m_conteudo m, m_lida m))
         (mensagens (store Sample.world)) ++ [("id1", "id0", "Oi", false)]
  /\ emissions (log (snd (Webhooks.channel_message Sample.delivery Sample.world)))
     = emissions (log Sample.world)
  /\ map c_ultima_mensagem
       (conversas (store (snd (Webhooks.channel_message Sample.delivery Sample.world))))
     = [None; None]
  /\ option_map (Hub.members (Hub.tenant_room "T1")) (io Sample.world)
     = Some {[ "s1"; "s3" ]}.
Proof. vm_compute. repeat split; reflexivity. Qed.

(** ** Conversation events *)

(** The directory never emits: its operations only run statements. *)
Lemma getById_emits_nothing id userId w r w' :
  Conversations.getById id userId w = (r, w') ->
  emissions (log w') = emissions (log w).
Proof.
  intros H. unfold Conversations.getById, Conversations.getTenantId in H.
  unfold_m. crack; worlds; rewrite ?emissions_app; simpl;
    rewrite ?app_nil_r; reflexivity.
Qed.

Lemma updateStatus_emits_nothing id userId status w r w' :
  Conversations.updateStatus id userId status w = (r, w') ->
  emissions (log w') = emissions (log w).
Proof.
  intros H. unfold Conversations.updateStatus, Conversations.getTenantId in H.
  unfold_m. crack; worlds;
    repeat match goal with
      | H : Conversations.getById _ _ _ = _ |- _ =>
          apply getById_emits_nothing in H; simpl in H; rewrite H
      end;
    rewrite ?emissions_app; simpl; rewrite ?app_nil_r; reflexivity.
Qed.

Lemma assignAgent_emits_nothing id userId agentId w r w' :
  Conversations.assignAgent id userId agentId w = (r, w') ->
  emissions (log w') = emissions (log w).
Proof.
  intros H. unfold Conversations.assignAgent, Conversations.getTenantId in H.
  unfold_m. crack; worlds;
    repeat match goal with
      | H : Conversations.getById _ _ _ = _ |- _ =>
          apply getById_emits_nothing in H; simpl in H; rewrite H
      end;
    rewrite ?emissions_app; simpl; rewrite ?app_nil_r; reflexivity.
Qed.

(** What the two helpers of socket.ts do when something calls them. *)
Lemma emitConversationUpdate_emits tenantId conversation w rooms :
  io w = Some rooms ->
  Hub.emitConversationUpdate tenantId conversation w =
    (Return tt,
     logged (Emit (Hub.tenant_room tenantId)
               (Hub.members (Hub.tenant_room tenantId) rooms)
               (conversation_updated conversation)) w).
Proof. intros H. unfold Hub.emitConversationUpdate, Hub.io_to_emit. rewrite H. reflexivity. Qed.

Lemma emitNewConversation_emits tenantId conversation w rooms :
  io w = Some rooms ->
  Hub.emitNewConversation tenantId conversation w =
    (Return tt,
     logged (Emit (Hub.tenant_room tenantId)
               (Hub.members (Hub.tenant_room tenantId) rooms)
               (conversation_new conversation)) w).
Proof. intros H. unfold Hub.emitNewConversation, Hub.io_to_emit. rewrite H. reflexivity. Qed.

(** C7, at three calls that succeed in the sample deployment: a status
    change, an assignment, and a delivery that opens a conversation. Each
    changes the conversation table as asked and emits nothing: neither
    conversation:updated nor conversation:new reaches the tenant room. *)
Theorem conversation_changes_emit_nothing :
  (option_map cr_status
     (match fst (Conversations.updateStatus "c1" "u1" "resolved" Sample.world) with
      | Return c => Some c
      | Throw _ => None
      end) = Some "resolved"
   /\ emissions (log (snd (Conversations.updateStatus "c1" "u1" "resolved" Sample.world)))
      = emissions (log Sample.world))
  /\ (option_map (fun c => (cr_status c, cr_agent_id c))
        (match fst (Conversations.assignAgent "c1" "u1" "a1" Sample.world) with
         | Return c => Some c
         | Throw _ => None
         end) = Some ("in_progress", Some "a1")
      /\ emissions (log (snd (Conversations.assignAgent "c1" "u1" "a1" Sample.world)))
         = emissions (log Sample.world))
  /\ (map c_id (conversas (store (snd (Webhooks.channel_message Sample.delivery Sample.world))))
        = ["c1"; "id0"]
      /\ emissions (log (snd (Webhooks.channel_message Sample.delivery Sample.world)))
         = emissions (log Sample.world)).
Proof. vm_compute. repeat split; reflexivity. Qed.

(** ** The signature gate *)

(** What the gate decides, for the routes registered with it. *)
Lemma gate_open_without_secret hmac env req :
  Js.truthy (Webhooks.WEBHOOK_SECRET env) = false ->
  Webhooks.validateWebhookSignature hmac env req = Return tt.
Proof. unfold Webhooks.validateWebhookSignature. intros ->. reflexivity. Qed.

Lemma gate_passes hmac env req secret :
  Webhooks.WEBHOOK_SECRET env = Some secret -> secret <> EmptyString ->
  Webhooks.validateWebhookSignature hmac env req = Return tt ->
  exists signature,
    Js.or (Webhooks.x_webhook_signature req) (Webhooks.x_webhook_secret req)
      = Some signature
    /\ (signature = secret
        \/ signature = "sha256=" +:+ hmac secret (Webhooks.body_json (Webhooks.body req))).
Proof.
  unfold Webhooks.validateWebhookSignature, Webhooks.timingSafeEqual.
  intros -> Hne. simpl. destruct (String.eqb_spec secret EmptyString); [congruence |]. simpl.
  destruct (Js.or _ _) as [sig |] eqn:E; simpl; [| discriminate].
  destruct (String.eqb_spec sig EmptyString); simpl; [discriminate |].
  destruct (String.eqb_spec sig secret); [intros _; eauto |].
  destruct (Js.startsWith "sha256=" sig); [| discriminate].
  destruct (_ =? _)%nat; [| discriminate].
  destruct (String.eqb_spec sig ("sha256=" +:+ hmac secret (Webhooks.body_json (Webhooks.body req))));
    [intros _; eauto | discriminate].
Qed.

(** A signature of the [sha256=] form but of another length than the
    expected one is an exception of [timingSafeEqual], answered 500. *)
Lemma gate_throws_on_length_mismatch hmac env req secret signature :
  Webhooks.WEBHOOK_SECRET env = Some secret -> secret <> EmptyString ->
  Js.or (Webhooks.x_webhook_signature req) (Webhooks.x_webhook_secret req)
    = Some signature ->
  signature <> EmptyString -> signature <> secret ->
  Js.startsWith "sha256=" signature = true ->
  String.length signature
    <> String.length ("sha256=" +:+ hmac secret (Webhooks.body_json (Webhooks.body req))) ->
  exists message,
    Webhooks.validateWebhookSignature hmac env req = Throw (RangeError message)
    /\ Webhooks.errorHandler (RangeError message)
       = Webhooks.Failure 500 "Internal server error" None.
Proof.
  unfold Webhooks.validateWebhookSignature, Webhooks.timingSafeEqual.
  intros -> Hsec -> Hsig Hne Hprefix Hlen.
  apply Nat.eqb_neq in Hlen.
  cbn [Webhooks.WEBHOOK_SECRET Js.truthy Js.or_lit negb].
  destruct (String.eqb_spec secret EmptyString); [congruence |].
  cbn [negb]. destruct (String.eqb_spec signature EmptyString); [congruence |].
  cbn [negb]. destruct (String.eqb_spec signature secret); [congruence |].
  rewrite Hprefix. cbv zeta. rewrite Hlen.
  eexists. split; reflexivity.
Qed.

(** The channel route reads no header and no secret: whatever they are,
    the delivery goes to the handler. *)
Lemma channel_route_is_ungated hmac env req w :
  Webhooks.post hmac env Webhooks.PostChannelMessage req w
  = match Webhooks.channel_message req w with
    | (Webhooks.Done r, w') => (r, w')
    | (_, w') => (Webhooks.Failure 500 "Internal server error" None, w')
    end.
Proof. reflexivity. Qed.

(** C8, at an unsigned delivery with a secret configured. The channel
    route is registered without the gate: the delivery is accepted, its
    tenant and conversation are resolved and its message is stored. The
    same request on a route registered with the gate is answered 401
    before any statement runs. *)
Theorem channel_route_skips_signature_check :
  Webhooks.signed Webhooks.PostChannelMessage = false
  /\ fst (Webhooks.post Sample.digest {| Webhooks.WEBHOOK_SECRET := Some "s3cret" |}
            Webhooks.PostChannelMessage Sample.delivery Sample.world)
     = Webhooks.Success (Webhooks.Received "id0" 14)
  /\ map m_conteudo
       (mensagens (store (snd (Webhooks.post Sample.digest
                                 {| Webhooks.WEBHOOK_SECRET := Some "s3cret" |}
                                 Webhooks.PostChannelMessage Sample.delivery
                                 Sample.world))))
     = ["..."; "..."; "..."; "Oi"]
  /\ fst (Webhooks.post Sample.digest {| Webhooks.WEBHOOK_SECRET := Some "s3cret" |}
            Webhooks.PostN8nEvent Sample.delivery Sample.world)
     = Webhooks.Failure 401 "Missing webhook signature" (Some "UNAUTHORIZED")
  /\ log (snd (Webhooks.post Sample.digest {| Webhooks.WEBHOOK_SECRET := Some "s3cret" |}
                 Webhooks.PostN8nEvent Sample.delivery Sample.world))
     = log Sample.world.
Proof. vm_compute. repeat split; reflexivity. Qed.

(** ** Find or create *)

(** One delivery at a time: a conversation that exists for the key is
    found and no row is inserted. *)
Lemma found_conversation_is_reused req tenantId w c l :
  accepts w W_conv_find ->
  Webhooks.find_conversation (Webhooks.customer_key req) (Webhooks.param_type req)
    tenantId (store w) = c :: l ->
  c_id c <> EmptyString ->
  fst (Webhooks.step req (Webhooks.AtFindConversation tenantId) w)
    = Webhooks.AtCreateMessage tenantId (c_id c)
  /\ conversas (store (snd (Webhooks.step req (Webhooks.AtFindConversation tenantId) w)))
     = conversas (store w).
Proof.
  unfold accepts. intros Hacc Hfind Hid.
  unfold Webhooks.step. unfold_services. rewrite Hacc. simpl. rewrite Hfind.
  destruct (String.eqb_spec (c_id c) EmptyString); [congruence |]. split; reflexivity.
Qed.

(** C9, at two identical deliveries in flight together. Each of the two
    lookups is answered before either insert: both find no conversation,
    both insert one, and the key has two conversations, one per delivery.
    Run one after the other, the same two deliveries share one. *)
Theorem concurrent_deliveries_open_two_conversations :
  map snd (fst (Webhooks.interleave [0; 1; 0; 1; 0; 1; 0; 1]
                  [(Sample.delivery, Webhooks.AtChannel);
                   (Sample.delivery, Webhooks.AtChannel)] Sample.world))
    = [Webhooks.Done (Webhooks.Success (Webhooks.Received "id0" 17));
       Webhooks.Done (Webhooks.Success (Webhooks.Received "id1" 18))]
  /\ map c_id
       (conversations_of "T1" "whatsapp" (Some "5511999")
          (store (snd (Webhooks.interleave [0; 1; 0; 1; 0; 1; 0; 1]
                         [(Sample.delivery, Webhooks.AtChannel);
                          (Sample.delivery, Webhooks.AtChannel)] Sample.world))))
     = ["id0"; "id1"]
  /\ map c_id
       (conversations_of "T1" "whatsapp" (Some "5511999")
          (store (snd (Webhooks.interleave [0; 0; 0; 0; 1; 1; 1; 1]
                         [(Sample.delivery, Webhooks.AtChannel);
                          (Sample.delivery, Webhooks.AtChannel)] Sample.world))))
     = ["id0"].
Proof. vm_compute. repeat split; reflexivity. Qed.

(** ** Rooms *)

Lemma members_join (room r sid : string) (rooms : gmap string (gset string)) :
  Hub.members room (<[r := {[sid]} ∪ Hub.members r rooms]> rooms)
  = if decide (r = room) then {[sid]} ∪ Hub.members room rooms
    else Hub.members room rooms.
Proof.
  unfold Hub.members. destruct (decide (r = room)) as [-> | Hne].
  - rewrite lookup_insert_eq. reflexivity.
  - rewrite lookup_insert_ne by assumption. reflexivity.
Qed.

Lemma sent_to_app room l1 l2 :
  sent_to room (l1 ++ l2) = sent_to room l1 ++ sent_to room l2.
Proof.
  induction l1 as [| e l1 IH]; simpl; [reflexivity |].
  destruct e; simpl; rewrite ?IH; try reflexivity.
  destruct (_ =? _); simpl; rewrite ?IH; reflexivity.
Qed.

Lemma observed_app sid room l1 l2 :
  observed sid room (l1 ++ l2) = observed sid room l1 ++ observed sid room l2.
Proof.
  unfold observed. rewrite sent_to_app, List.filter_app, map_app. reflexivity.
Qed.

Lemma observed_emit_outside sid room r reached ev :
  sid ∉ reached -> observed sid room [Emit r reached ev] = [].
Proof.
  intros H. unfold observed. simpl. destruct (r =? room); simpl; [| reflexivity].
  rewrite bool_decide_eq_false_2 by assumption. reflexivity.
Qed.

(** Room names keep the conversation apart from the tenant, and one
    conversation apart from another. *)
Lemma conversation_room_inj a b :
  Hub.conversation_room a = Hub.conversation_room b -> a = b.
Proof. unfold Hub.conversation_room. cbv [String.append]. intros H. inversion H. reflexivity. Qed.

Lemma tenant_room_is_no_conversation_room t c :
  Hub.tenant_room t <> Hub.conversation_room c.
Proof. unfold Hub.tenant_room, Hub.conversation_room. cbv [String.append]. discriminate. Qed.

(** ** Joining a conversation room *)

(** The rooms after a join request: as before, but for the requester in
    the room of a conversation its tenant owns. *)
Lemma join_grants_only_owned sock conversationId w r w' rooms' room sid :
  Hub.conversation_join sock conversationId w = (r, w') ->
  io w' = Some rooms' -> sid ∈ Hub.members room rooms' ->
  (exists rooms, io w = Some rooms /\ sid ∈ Hub.members room rooms)
  \/ (sid = Hub.id sock /\ room = Hub.conversation_room conversationId
      /\ owns (Hub.tenantId sock) conversationId (store w)).
Proof.
  intros H. unfold Hub.conversation_join in H. unfold_m.
  destruct (rejects (store w) S_join) as [code |] eqn:Hrej.
  - simpl in H. injection H as <- <-. worlds. intros Hio Hin. left. eauto.
  - simpl in H.
    destruct (Sql.conversa_of_tenant conversationId (Hub.tenantId sock) (store w))
      as [| c l] eqn:Hrows.
    + simpl in H. injection H as <- <-. worlds. intros Hio Hin. left. eauto.
    + assert (Hown : owns (Hub.tenantId sock) conversationId (store w))
        by (eapply owned_cons; eassumption).
      simpl in H. destruct (io w) as [rooms |] eqn:Hio.
      * simpl in H; inversion H; subst. simpl.
        intros Hio' Hin. inversion Hio'; subst; clear Hio'.
        rewrite members_join in Hin. destruct (decide _) as [<- | Hne].
        -- apply elem_of_union in Hin as [Hin | Hin].
           ++ apply elem_of_singleton in Hin. right. auto.
           ++ left. eauto.
        -- left. eauto.
      * simpl in H; inversion H; subst. intros Hio'. worlds. congruence.
Qed.

Lemma members_leave (room r sid : string) (rooms : gmap string (gset string)) x :
  x ∈ Hub.members room
        (if decide (Hub.members r rooms ∖ {[sid]} = ∅) then delete r rooms
         else <[r := Hub.members r rooms ∖ {[sid]}]> rooms) ->
  x ∈ Hub.members room rooms.
Proof.
  unfold Hub.members. destruct (decide (r = room)) as [-> | Hne].
  - destruct (decide _) as [He | He].
    + rewrite lookup_delete_eq. simpl. intros Hin. set_solver.
    + rewrite lookup_insert_eq. simpl. rewrite elem_of_difference. tauto.
  - destruct (decide _) as [He | He].
    + rewrite lookup_delete_ne by assumption. tauto.
    + rewrite lookup_insert_ne by assumption. tauto.
Qed.

Lemma members_disconnect (room sid : string) (rooms : gmap string (gset string)) x :
  x ∈ Hub.members room
        (map_filter (fun kv => snd kv <> ∅) _
           (fmap (fun set => set ∖ {[sid]}) rooms)) ->
  x ∈ Hub.members room rooms.
Proof.
  unfold Hub.members.
  destruct (map_filter _ _ _ !! room) as [set |] eqn:E; simpl; [| set_solver].
  apply map_lookup_filter_Some in E as [E _].
  rewrite lookup_fmap in E. destruct (rooms !! room) as [set' |]; simpl in *.
  - injection E as <-. rewrite elem_of_difference. tauto.
  - discriminate.
Qed.

Ltac same_rooms :=
  match goal with
  | H1 : io ?w = Some _, H2 : io ?w = Some _ |- _ =>
      rewrite H1 in H2; injection H2 as <-; eauto
  | H1 : io ?w = None, H2 : io ?w = Some _ |- _ => congruence
  | _ => eauto
  end.

(** Whatever a connected client sends, a connection is afterwards in a
    room it was not in before only as the requester of a join, in the room
    of the requested conversation, which its tenant owned at that time. *)
Lemma membership_grows_by_join_only sock ev w r w' rooms' room sid :
  Hub.on sock ev w = (r, w') ->
  io w' = Some rooms' -> sid ∈ Hub.members room rooms' ->
  (exists rooms, io w = Some rooms /\ sid ∈ Hub.members room rooms)
  \/ (exists conversationId,
        ev = Hub.conversation_join_event conversationId
        /\ sid = Hub.id sock /\ room = Hub.conversation_room conversationId
        /\ owns (Hub.tenantId sock) conversationId (store w)).
Proof.
  destruct ev as [cid | cid | cid | cid | cid ids |]; simpl; intros H Hio Hin.
  - destruct (join_grants_only_owned _ _ _ _ _ _ _ _ H Hio Hin) as [Hold | Hnew];
      [left; exact Hold | right; eauto].
  - left. unfold Hub.conversation_leave, Hub.socket_leave in H.
    destruct (io w) as [rooms |] eqn:E; injection H as <- <-; simpl in Hio;
      [| congruence].
    injection Hio as <-. exists rooms. split; [reflexivity |].
    eapply members_leave; eassumption.
  - left. unfold Hub.on_typing_start in H. unfold_m. crack; worlds; same_rooms.
  - left. unfold Hub.on_typing_stop in H. unfold_m. crack; worlds; same_rooms.
  - left. unfold Hub.on_message_read in H. unfold_m.
    destruct (Hub.named ids); crack; worlds; same_rooms.
  - left. unfold Hub.on_disconnect in H. unfold_m. crack; worlds.
    all: try congruence.
    all: eexists; (split; [reflexivity |]); eapply members_disconnect; eassumption.
Qed.

(** A connection that opens enters the room of its own tenant and no
    other. *)
Lemma connection_enters_tenant_room_only sock w r w' rooms' room sid :
  Hub.on_connection sock w = (r, w') ->
  io w' = Some rooms' -> sid ∈ Hub.members room rooms' ->
  (exists rooms, io w = Some rooms /\ sid ∈ Hub.members room rooms)
  \/ (exists t, Hub.tenantId sock = Some t /\ sid = Hub.id sock
                /\ room = Hub.tenant_room t).
Proof.
  unfold Hub.on_connection. unfold_m. intros H Hio Hin. crack; worlds.
  all: try congruence.
  all: try (left; eexists; split; [first [eassumption | reflexivity] | assumption]).
  all: rewrite members_join in Hin.
  all: destruct (decide _) as [<- | Hne]; [| left; eauto].
  all: apply elem_of_union in Hin as [Hin | Hin]; [| left; eauto].
  all: apply elem_of_singleton in Hin; right; eauto.
Qed.

(** C6. A join request changes the rooms by at most the membership of the
    requesting connection in the room of the requested conversation, and
    only when, at the time of the request, a conversation of that id
    exists under the connection's tenant. When none does, the rooms stay
    as they were, the request sends nothing to any room, and an event
    emitted to the room afterwards, by the server or by any connection,
    does not reach the connection (which was not in the room). *)
Theorem join_requires_ownership sock conversationId w r w' :
  Hub.conversation_join sock conversationId w = (r, w') ->
  (forall rooms' room sid,
     io w' = Some rooms' -> sid ∈ Hub.members room rooms' ->
     (exists rooms, io w = Some rooms /\ sid ∈ Hub.members room rooms)
     \/ (sid = Hub.id sock /\ room = Hub.conversation_room conversationId
         /\ owns (Hub.tenantId sock) conversationId (store w)))
  /\ (~ owns (Hub.tenantId sock) conversationId (store w) ->
      io w' = io w
      /\ (forall room, sent_to room (log w') = sent_to room (log w))
      /\ forall rooms,
           io w = Some rooms ->
           Hub.id sock ∉ Hub.members (Hub.conversation_room conversationId) rooms ->
           forall (sender : Hub.Socket) (ev : ServerEvent),
             observed (Hub.id sock) (Hub.conversation_room conversationId)
               (log (snd (Hub.io_to_emit (Hub.conversation_room conversationId) ev w')))
             = observed (Hub.id sock) (Hub.conversation_room conversationId) (log w)
             /\ observed (Hub.id sock) (Hub.conversation_room conversationId)
                  (log (snd (Hub.socket_to_emit sender
                               (Hub.conversation_room conversationId) ev w')))
                = observed (Hub.id sock) (Hub.conversation_room conversationId) (log w)).
Proof.
  intros H. split.
  - intros rooms' room sid Hio Hin. eapply join_grants_only_owned; eassumption.
  - intros Hnot. unfold Hub.conversation_join in H. unfold_m.
    assert (Hnil : Sql.conversa_of_tenant conversationId (Hub.tenantId sock) (store w) = [])
      by (apply not_owned_nil; exact Hnot).
    destruct (rejects (store w) S_join) as [code |] eqn:Hrej; simpl in H;
      rewrite ?Hnil in H; simpl in H; injection H as <- <-; worlds.
    all: split; [reflexivity |]; split.
    all: try (intros room; rewrite !sent_to_app; simpl; rewrite !app_nil_r; reflexivity).
    all: intros rooms Hio Hout sender ev; rewrite Hio; simpl.
    all: rewrite !observed_app.
    all: rewrite !observed_emit_outside
           by (first [exact Hout | rewrite elem_of_difference; tauto]).
    all: unfold observed; simpl; rewrite !app_nil_r; auto.
Qed.

Lemma sample_rooms : io Sample.world = Some Sample.rooms.
Proof. reflexivity. Qed.

Lemma sample_not_owned : ~ owns (Hub.tenantId Sample.bia) "c1" (store Sample.world).
Proof.
  intros (c & Hin & Hid & Ht). simpl in Hin. destruct Hin as [<- | []].
  discriminate Ht.
Qed.

Lemma sample_outsider :
  Hub.id Sample.bia ∉ Hub.members (Hub.conversation_room "c1") Sample.rooms.
Proof. apply (bool_decide_unpack _). vm_compute. exact I. Qed.

Lemma join_requires_ownership_witness :
  exists w',
    Hub.conversation_join Sample.bia "c1" Sample.world = (Return tt, w')
    /\ ~ owns (Hub.tenantId Sample.bia) "c1" (store Sample.world)
    /\ io w' = io Sample.world
    /\ observed "s2" (Hub.conversation_room "c1")
         (log (snd (Hub.io_to_emit (Hub.conversation_room "c1")
                      (typing_stop "c1" "u1") w')))
       = observed "s2" (Hub.conversation_room "c1") (log Sample.world).
Proof.
  exists (snd (Hub.conversation_join Sample.bia "c1" Sample.world)).
  assert (E : Hub.conversation_join Sample.bia "c1" Sample.world
              = (Return tt, snd (Hub.conversation_join Sample.bia "c1" Sample.world)))
    by (vm_compute; reflexivity).
  destruct (join_requires_ownership _ _ _ _ _ E) as [_ Hrejected].
  destruct (Hrejected sample_not_owned) as (Hio & _ & Hobs).
  split; [exact E |]. split; [exact sample_not_owned |]. split; [exact Hio |].
  exact (proj1 (Hobs Sample.rooms sample_rooms sample_outsider Sample.ana
                  (typing_stop "c1" "u1"))).
Defined.

(** ** Typing indicators *)

(** C10, as the handlers have it. With the hub up, typing:stop from any
    connection for any conversation id is emitted to the room of that id
    and reaches every connection in the room but the sender; typing:start
    does the same, with the sender's name, when the lookup of the name is
    executed, and emits nothing when it fails. Neither handler looks at
    the tenant of the conversation or at the rooms the sender is in. *)
Theorem typing_is_relayed_unchecked sock conversationId w rooms :
  io w = Some rooms ->
  Hub.on_typing_stop sock conversationId w
    = (Return tt,
       logged (Emit (Hub.conversation_room conversationId)
                 (Hub.members (Hub.conversation_room conversationId) rooms
                    ∖ {[Hub.id sock]})
                 (typing_stop conversationId (Hub.userId sock))) w)
  /\ (accepts w S_typing_name ->
      Hub.on_typing_start sock conversationId w
        = (Return tt,
           logged (Emit (Hub.conversation_room conversationId)
                     (Hub.members (Hub.conversation_room conversationId) rooms
                        ∖ {[Hub.id sock]})
                     (typing_start conversationId (Hub.userId sock)
                        (Js.or_lit
                           (match Sql.users_by_id (Hub.userId sock) (store w) with
                            | u :: _ => user_name u
                            | [] => None
                            end) "Usuário")))
             (logged (Sql S_typing_name) (with_store (tick (store w)) w))))
  /\ (forall code,
        rejects (store w) S_typing_name = Some code ->
        Hub.on_typing_start sock conversationId w
          = (Return tt, logged (SqlRejected S_typing_name code) w)).
Proof.
  intros Hio. split; [| split].
  - unfold Hub.on_typing_stop, Hub.socket_to_emit. rewrite Hio. reflexivity.
  - unfold accepts. intros Hacc. unfold Hub.on_typing_start. unfold_m.
    rewrite Hacc. simpl. rewrite Hio. reflexivity.
  - intros code Hrej. unfold Hub.on_typing_start. unfold_m.
    rewrite Hrej. reflexivity.
Qed.

Lemma typing_is_relayed_unchecked_witness :
  ~ owns (Hub.tenantId Sample.bia) "c1" (store Sample.world)
  /\ (Hub.id Sample.bia ∉ Hub.members (Hub.conversation_room "c1") Sample.rooms)
  /\ (Hub.members (Hub.conversation_room "c1") Sample.rooms ∖ {[Hub.id Sample.bia]}
      = {[ "s1"; "s3" ]})
  /\ Hub.on_typing_stop Sample.bia "c1" Sample.world
     = (Return tt,
        logged (Emit (Hub.conversation_room "c1")
                  (Hub.members (Hub.conversation_room "c1") Sample.rooms
                     ∖ {[Hub.id Sample.bia]})
                  (typing_stop "c1" "u2")) Sample.world).
Proof.
  split; [exact sample_not_owned |]. split; [exact sample_outsider |].
  split; [vm_compute; reflexivity |].
  exact (proj1 (typing_is_relayed_unchecked Sample.bia "c1" Sample.world
                  Sample.rooms sample_rooms)).
Defined.

(** The claim as worded fails twice. A sender who is in the room is a
    current member its own event does not reach: Ana's typing:stop in her
    conversation reaches Rui alone. And when the lookup of the sender's
    name fails, typing:start is dropped: nothing is emitted. *)
Lemma typing_skips_the_sender_and_drops_on_failure :
  option_map (Hub.members (Hub.conversation_room "c1")) (io Sample.world)
    = Some {[ "s1"; "s3" ]}
  /\ sent_to (Hub.conversation_room "c1")
       (log (Sample.after (Hub.on_typing_stop Sample.ana "c1") Sample.world))
     = [({[ "s3" ]}, typing_stop "c1" "u1")]
  /\ observed "s1" (Hub.conversation_room "c1")
       (log (Sample.after (Hub.on_typing_stop Sample.ana "c1") Sample.world))
     = []
  /\ emissions
       (log (Sample.after (Hub.on_typing_start Sample.ana "c1")
               (with_store (Sample.rejecting S_typing_name "57014" (store Sample.world))
                  Sample.world)))
     = emissions (log Sample.world).
Proof. vm_compute. repeat split; reflexivity. Qed.

(** ** Marking as read *)

Lemma Forall2_map_self {A} (R : A -> A -> Prop) (g : A -> A) (l : list A) :
  (forall x, R x (g x)) -> Forall2 R l (map g l).
Proof. intros H. induction l; simpl; constructor; auto. Qed.

Lemma Forall2_same {A} (R : A -> A -> Prop) (l : list A) :
  (forall x, R x x) -> Forall2 R l l.
Proof. intros H. induction l; constructor; auto. Qed.

Lemma same_but_read_set_lida m : same_but_read m (Sql.set_lida m).
Proof. unfold same_but_read. simpl. repeat split. Qed.

Lemma same_but_read_set_lida_em now m : same_but_read m (Sql.set_lida_em now m).
Proof. unfold same_but_read. simpl. repeat split. Qed.

Lemma any_In ids id : Sql.any ids id = true -> In id ids.
Proof.
  unfold Sql.any. rewrite existsb_exists. intros (x & Hin & Heq).
  apply String.eqb_eq in Heq. subst. exact Hin.
Qed.

Lemma staff_is_no_customer m :
  staff_authored m -> Sql.is_customer (m_remetente_tipo m) = false.
Proof.
  unfold staff_authored. simpl.
  intros [<- | [<- | [<- | [<- | [<- | []]]]]]; reflexivity.
Qed.

(** After a mark-all, nothing is left for a second one. *)
Lemma unread_customer_after tenant conversationId (f : Mensagem -> Mensagem) l :
  (forall m, m_lida (f m) = true) ->
  List.filter (unread_customer tenant conversationId)
    (map (fun m => if unread_customer tenant conversationId m then f m else m) l)
  = [].
Proof.
  intros Hf. apply filter_none. intros x Hin. apply in_map_iff in Hin as (m & <- & _).
  destruct (unread_customer tenant conversationId m) eqn:E; [| exact E].
  unfold unread_customer. rewrite Hf. simpl. rewrite !andb_false_r. reflexivity.
Qed.

Lemma mark_all_again tenant conversationId (f g : Mensagem -> Mensagem) l :
  (forall m, m_lida (f m) = true) ->
  map (fun m => if unread_customer tenant conversationId m then g m else m)
    (map (fun m => if unread_customer tenant conversationId m then f m else m) l)
  = map (fun m => if unread_customer tenant conversationId m then f m else m) l.
Proof.
  intros Hf. apply map_update_none. intros x Hin. apply in_map_iff in Hin as (m & <- & _).
  destruct (unread_customer tenant conversationId m) eqn:E; [| exact E].
  unfold unread_customer. rewrite Hf. simpl. rewrite !andb_false_r. reflexivity.
Qed.

(** Counting the transitions of a mark-all. *)
Lemma transitioned_mark_all tenant conversationId (f : Mensagem -> Mensagem) l :
  (forall m, m_lida (f m) = true) ->
  transitioned l
    (map (fun m => if unread_customer tenant conversationId m then f m else m) l)
  = length (List.filter (unread_customer tenant conversationId) l).
Proof.
  intros Hf. unfold transitioned. induction l as [| m l IH]; simpl; [reflexivity |].
  destruct (unread_customer tenant conversationId m) eqn:E; simpl.
  - rewrite Hf. unfold unread_customer in E. rewrite !andb_true_iff in E.
    destruct E as [[_ Hunread] _]. rewrite Hunread. simpl. f_equal. exact IH.
  - destruct (m_lida m); simpl; exact IH.
Qed.

Lemma transitioned_same l : transitioned l l = 0.
Proof.
  unfold transitioned. induction l as [| m l IH]; simpl; [reflexivity |].
  destruct (m_lida m); simpl; exact IH.
Qed.

(** The rows a mark-read statement of either path may touch. *)
Lemma marked_rows messageIds (p : Mensagem -> bool) (f : Mensagem -> Mensagem) l :
  (forall m, same_but_read m (f m) /\ m_lida (f m) = true) ->
  (forall m, p m = true ->
     match Hub.named messageIds with
     | Some ids => In (m_id m) ids
     | None => Sql.is_customer (m_remetente_tipo m) = true
     end) ->
  Forall2 (marked_by messageIds) l (map (fun m => if p m then f m else m) l).
Proof.
  intros Hf Hp. apply Forall2_map_self. intros m. unfold marked_by.
  destruct (p m) eqn:E; [right | left; reflexivity].
  destruct (Hf m) as [H1 H2].
  split; [exact H1 | split; [exact H2 | apply Hp; exact E]].
Qed.

(** A row of the staff that a call does not name is left as it was. *)
Lemma staff_row_untouched messageIds m m' :
  marked_by messageIds m m' ->
  staff_authored m ->
  (forall ids, messageIds = Some ids -> ~ In (m_id m) ids) ->
  m' = m.
Proof.
  intros [-> | (_ & _ & H)] Hstaff Hnot; [reflexivity |]. exfalso.
  unfold Hub.named in H. destruct messageIds as [[| i r] |].
  - rewrite staff_is_no_customer in H by assumption. discriminate.
  - exact (Hnot _ eq_refl H).
  - rewrite staff_is_no_customer in H by assumption. discriminate.
Qed.

(** The mark-all statement of the REST path, when it is executed. *)
Lemma markAsRead_all userId conversationId messageIds tenant w :
  Hub.named messageIds = None ->
  caller_tenant userId (store w) = Some tenant -> tenant <> EmptyString ->
  accepts w M_getTenantId -> accepts w M_mark_all ->
  exists w',
    Messages.markAsRead userId conversationId messageIds w
      = (Return (length (List.filter (unread_customer tenant conversationId)
                           (mensagens (store w)))), w')
    /\ mensagens (store w')
       = map (fun m => if unread_customer tenant conversationId m
                       then Sql.set_lida m else m) (mensagens (store w))
    /\ users (store w') = users (store w)
    /\ rejects (store w') = rejects (store w).
Proof.
  intros Hnamed Htenant Hne Hacc1 Hacc2.
  unfold accepts in *. unfold caller_tenant in Htenant.
  unfold Messages.markAsRead, Messages.getTenantId. unfold_m.
  simpl. rewrite Hacc1. simpl. rewrite Htenant. simpl.
  destruct (String.eqb_spec tenant EmptyString); [congruence |]. simpl.
  rewrite Hnamed. simpl. rewrite Hacc2. simpl.
  eexists. split; [rewrite length_map; reflexivity |].
  repeat split; reflexivity.
Qed.

(** The mark-all statement of the socket path, when it is executed. *)
Lemma on_message_read_all sock conversationId messageIds tenant w :
  Hub.named messageIds = None ->
  Hub.tenantId sock = Some tenant ->
  accepts w S_read_all ->
  exists w',
    Hub.on_message_read sock conversationId messageIds w = (Return tt, w')
    /\ mensagens (store w')
       = map (fun m => if unread_customer tenant conversationId m
                       then Sql.set_lida_em (clock (store w)) m else m)
           (mensagens (store w))
    /\ rejects (store w') = rejects (store w).
Proof.
  intros Hnamed Htenant Hacc.
  unfold accepts in *. unfold Hub.on_message_read. unfold_m.
  rewrite Hnamed, Htenant. simpl. rewrite Hacc. simpl.
  destruct (io w) as [rooms |]; simpl.
  all: eexists; split; [reflexivity |]; split; reflexivity.
Qed.

(** C5. A mark-read call that names no message (none given, or an empty
    list) sets to read exactly the unread customer messages of the
    conversation under the caller's tenant and leaves every other row as
    it was. On the REST path it returns the number of rows that went from
    unread to read, and a second call returns 0 and changes nothing; on
    the socket path, where the handler has nothing to return, the same
    rows go from unread to read (with the read time set) and a second
    event takes none. On either path, whatever the call names and however
    it ends, a row changes in its read state at most, and a row written by
    an agent, the system or a bot changes only if the call names it. *)
Theorem mark_read_scope :
  (forall userId conversationId messageIds tenant w,
     Hub.named messageIds = None ->
     caller_tenant userId (store w) = Some tenant -> tenant <> EmptyString ->
     accepts w M_getTenantId -> accepts w M_mark_all ->
     exists w',
       Messages.markAsRead userId conversationId messageIds w
         = (Return (transitioned (mensagens (store w)) (mensagens (store w'))), w')
       /\ transitioned (mensagens (store w)) (mensagens (store w'))
          = length (List.filter (unread_customer tenant conversationId)
                      (mensagens (store w)))
       /\ Forall2 (fun m m' => m' = if unread_customer tenant conversationId m
                                    then Sql.set_lida m else m)
            (mensagens (store w)) (mensagens (store w'))
       /\ fst (Messages.markAsRead userId conversationId messageIds w') = Return 0
       /\ mensagens (store (snd (Messages.markAsRead userId conversationId messageIds w')))
          = mensagens (store w'))
  /\ (forall sock conversationId messageIds tenant w,
        Hub.named messageIds = None ->
        Hub.tenantId sock = Some tenant ->
        accepts w S_read_all ->
        exists w',
          Hub.on_message_read sock conversationId messageIds w = (Return tt, w')
          /\ transitioned (mensagens (store w)) (mensagens (store w'))
             = length (List.filter (unread_customer tenant conversationId)
                         (mensagens (store w)))
          /\ Forall2 (fun m m' => m' = if unread_customer tenant conversationId m
                                       then Sql.set_lida_em (clock (store w)) m else m)
               (mensagens (store w)) (mensagens (store w'))
          /\ mensagens (store (snd (Hub.on_message_read sock conversationId messageIds w')))
             = mensagens (store w')
          /\ transitioned (mensagens (store w'))
               (mensagens (store (snd (Hub.on_message_read sock conversationId
                                         messageIds w'))))
             = 0)
  /\ (forall userId conversationId messageIds w r w',
        Messages.markAsRead userId conversationId messageIds w = (r, w') ->
        Forall2 (marked_by messageIds) (mensagens (store w)) (mensagens (store w'))
        /\ forall i m,
             mensagens (store w) !! i = Some m ->
             staff_authored m ->
             (forall ids, messageIds = Some ids -> ~ In (m_id m) ids) ->
             mensagens (store w') !! i = Some m)
  /\ (forall sock conversationId messageIds w r w',
        Hub.on_message_read sock conversationId messageIds w = (r, w') ->
        Forall2 (marked_by messageIds) (mensagens (store w)) (mensagens (store w'))
        /\ forall i m,
             mensagens (store w) !! i = Some m ->
             staff_authored m ->
             (forall ids, messageIds = Some ids -> ~ In (m_id m) ids) ->
             mensagens (store w') !! i = Some m).
Proof.
  split; [| split; [| split]].
  - (* REST, no message named *)
    intros userId conversationId messageIds tenant w Hnamed Htenant Hne Hacc1 Hacc2.
    destruct (markAsRead_all userId conversationId messageIds tenant w)
      as (w' & Hrun & Hrows & Husers & Hrej); try assumption.
    assert (Hcount : transitioned (mensagens (store w)) (mensagens (store w'))
                     = length (List.filter (unread_customer tenant conversationId)
                                 (mensagens (store w))))
      by (rewrite Hrows; apply transitioned_mark_all; reflexivity).
    exists w'. split; [rewrite Hcount; exact Hrun |]. split; [exact Hcount |]. split.
    { rewrite Hrows. apply Forall2_map_update. }
    destruct (markAsRead_all userId conversationId messageIds tenant w')
      as (w'' & Hrun' & Hrows' & _); try assumption.
    { unfold caller_tenant, Sql.users_by_id in *. rewrite Husers. exact Htenant. }
    { unfold accepts in *. rewrite Hrej. exact Hacc1. }
    { unfold accepts in *. rewrite Hrej. exact Hacc2. }
    rewrite Hrun'. simpl. rewrite Hrows', Hrows.
    rewrite unread_customer_after by reflexivity.
    rewrite mark_all_again by reflexivity. split; reflexivity.
  - (* socket, no message named *)
    intros sock conversationId messageIds tenant w Hnamed Htenant Hacc.
    destruct (on_message_read_all sock conversationId messageIds tenant w)
      as (w' & Hrun & Hrows & Hrej); try assumption.
    exists w'. split; [exact Hrun |]. split.
    { rewrite Hrows. apply transitioned_mark_all. reflexivity. }
    split.
    { rewrite Hrows. apply Forall2_map_update. }
    destruct (on_message_read_all sock conversationId messageIds tenant w')
      as (w'' & Hrun' & Hrows' & _); try assumption.
    { unfold accepts in *. rewrite Hrej. exact Hacc. }
    assert (Hsame : mensagens (store w'') = mensagens (store w'))
      by (rewrite Hrows', Hrows; apply mark_all_again; reflexivity).
    rewrite Hrun'. simpl. rewrite Hsame. split; [reflexivity |].
    apply transitioned_same.
  - (* REST, any call *)
    intros userId conversationId messageIds w r w' H.
    assert (HF : Forall2 (marked_by messageIds) (mensagens (store w)) (mensagens (store w'))).
    { unfold Messages.markAsRead, Messages.getTenantId in H. unfold_m.
      destruct (Hub.named messageIds) as [ids |] eqn:Hnamed.
      all: crack; worlds.
      all: try (apply Forall2_same; intros; left; reflexivity).
      all: apply marked_rows;
        [intros m; split; [apply same_but_read_set_lida | reflexivity] |].
      all: rewrite Hnamed; intros m Hp; rewrite !andb_true_iff in Hp.
      all: try (apply any_In; tauto).
      all: tauto. }
    split; [exact HF |]. intros i m Hi Hstaff Hnot.
    destruct (Forall2_lookup_l _ _ _ _ _ HF Hi) as (m' & Hi' & Hm).
    rewrite Hi'. f_equal. eapply staff_row_untouched; eassumption.
  - (* socket, any event *)
    intros sock conversationId messageIds w r w' H.
    assert (HF : Forall2 (marked_by messageIds) (mensagens (store w)) (mensagens (store w'))).
    { unfold Hub.on_message_read in H. unfold_m.
      destruct (Hub.named messageIds) as [ids |] eqn:Hnamed.
      all: crack; worlds.
      all: try (apply Forall2_same; intros; left; reflexivity).
      all: apply marked_rows;
        [intros m; split; [apply same_but_read_set_lida_em | reflexivity] |].
      all: rewrite Hnamed; intros m Hp; rewrite !andb_true_iff in Hp.
      all: try (apply any_In; tauto).
      all: tauto. }
    split; [exact HF |]. intros i m Hi Hstaff Hnot.
    destruct (Forall2_lookup_l _ _ _ _ _ HF Hi) as (m' & Hi' & Hm).
    rewrite Hi'. f_equal. eapply staff_row_untouched; eassumption.
Qed.

Lemma mark_read_scope_witness :
  (exists w',
     Messages.markAsRead "u1" "c1" None Sample.world = (Return 1, w')
     /\ fst (Messages.markAsRead "u1" "c1" None w') = Return 0)
  /\ (exists w',
        Hub.on_message_read Sample.ana "c1" (Some []) Sample.world = (Return tt, w')
        /\ mensagens (store (snd (Hub.on_message_read Sample.ana "c1" (Some []) w')))
           = mensagens (store w'))
  /\ mensagens (store (snd (Messages.markAsRead "u1" "c1" (Some ["m1"]) Sample.world))) !! 1
     = Some (Sample.mensagem "m2" "T1" "c1" "agente" false)
  /\ mensagens (store (snd (Hub.on_message_read Sample.ana "c1" None Sample.world))) !! 1
     = Some (Sample.mensagem "m2" "T1" "c1" "agente" false).
Proof.
  destruct mark_read_scope as (Hrest & Hsocket & Hrest_any & Hsocket_any).
  assert (Hstaff : staff_authored (Sample.mensagem "m2" "T1" "c1" "agente" false))
    by (left; reflexivity).
  split; [| split; [| split]].
  - destruct (Hrest "u1" "c1" None "T1" Sample.world)
      as (w' & Hrun & Hcount & _ & Hagain & _);
      try reflexivity; try discriminate.
    exists w'. split; [| exact Hagain].
    rewrite Hcount in Hrun. exact Hrun.
  - destruct (Hsocket Sample.ana "c1" (Some []) "T1" Sample.world)
      as (w' & Hrun & _ & _ & Hagain & _);
      try reflexivity.
    exists w'. split; [exact Hrun | exact Hagain].
  - refine (proj2 (Hrest_any "u1" "c1" (Some ["m1"]) Sample.world _ _
                     (surjective_pairing _)) 1 _ eq_refl Hstaff _).
    intros ids [= <-] [Heq | []]. discriminate Heq.
  - refine (proj2 (Hsocket_any Sample.ana "c1" None Sample.world _ _
                     (surjective_pairing _)) 1 _ eq_refl Hstaff _).
    intros ids Heq. discriminate Heq.
Defined.

(** ** Tenant isolation *)

Lemma truthy_tenant (t : string) :
  negb (Js.truthy (Some t)) = false -> Js.or_lit (Some t) EmptyString = t.
Proof.
  simpl. destruct (String.eqb_spec t EmptyString); [discriminate | reflexivity].
Qed.

Lemma users_tenant userId s u l tenant :
  caller_tenant userId s = Some tenant ->
  Sql.users_by_id userId s = u :: l ->
  user_tenant_id u = Some tenant.
Proof. unfold caller_tenant. intros H E. rewrite E in H. exact H. Qed.

Lemma users_none userId s tenant :
  caller_tenant userId s = Some tenant ->
  Sql.users_by_id userId s = [] -> False.
Proof. unfold caller_tenant. intros H E. rewrite E in H. discriminate. Qed.

(** Rows a statement restricted to a tenant leaves alone. *)
Lemma update_keeps_other_rows {A} (p : A -> bool) (f : A -> A) (l : list A) i x :
  l !! i = Some x -> p x = false ->
  map (fun y => if p y then f y else y) l !! i = Some x.
Proof.
  intros Hi Hp. rewrite list_lookup_fmap, Hi. simpl. rewrite Hp. reflexivity.
Qed.

(** The directory's lookup only reads. *)
Lemma getById_reads_only id userId w r w' :
  Conversations.getById id userId w = (r, w') ->
  conversas (store w') = conversas (store w).
Proof.
  intros H. unfold Conversations.getById, Conversations.getTenantId in H.
  unfold_m. crack; worlds; reflexivity.
Qed.

Ltac caller Hcaller :=
  try (exfalso; eapply users_none; eassumption);
  match goal with
  | H : Sql.users_by_id _ _ = _ :: _ |- _ =>
      rewrite (users_tenant _ _ _ _ _ Hcaller H) in *
  end.

Section Isolation.

Variables (userId T1 T2 : string) (w : World).
Hypothesis Hne : T1 <> T2.
Hypothesis Hcaller : caller_tenant userId (store w) = Some T2.

Lemma listByConversation_rows p ms total w' :
  Messages.lp_userId p = userId ->
  Messages.listByConversation p w = (Return (ms, total), w') ->
  forall m, In m ms ->
    r_tenant_id m = T2 /\ r_tenant_id m <> T1
    /\ exists row, In row (mensagens (store w)) /\ m_tenant_id row = T2
                   /\ m_id row = r_id m.
Proof.
  intros Hp H m Hin. subst userId.
  unfold Messages.listByConversation, Messages.getTenantId in H. unfold_m.
  crack; worlds.
  all: try contradiction.
  all: caller Hcaller.
  all: rewrite truthy_tenant in * by assumption.
  all: apply in_map_iff in Hin as (raw & <- & Hin).
  all: apply in_map_iff in Hin as (row & <- & Hin).
  all: apply limit_offset_In, order_by_In, filter_In in Hin as [Hin Hwhere].
  all: unfold Messages.list_where in Hwhere; rewrite !andb_true_iff in Hwhere.
  all: destruct Hwhere as [[[_ Ht] _] _]; apply String.eqb_eq in Ht.
  all: simpl; split; [exact Ht |]; split; [congruence |].
  all: exists row; auto.
Qed.

Lemma message_getById_row id m w' :
  Messages.getById id userId w = (Return m, w') ->
  r_tenant_id m = T2 /\ r_tenant_id m <> T1
  /\ exists row, In row (mensagens (store w)) /\ m_tenant_id row = T2
                 /\ m_id row = r_id m.
Proof.
  intros H.
  unfold Messages.getById, Messages.getTenantId in H. unfold_m. crack; worlds.
  all: caller Hcaller.
  all: match goal with
       | H : map ?g ?l = ?r :: _ |- _ =>
           assert (Hin : In r (map g l)) by (rewrite H; left; reflexivity)
       end.
  all: apply in_map_iff in Hin as (row & <- & Hin).
  all: apply filter_In in Hin as [Hin Hwhere]; rewrite andb_true_iff in Hwhere.
  all: destruct Hwhere as [Hid Ht]; simpl in Ht; apply String.eqb_eq in Ht.
  all: simpl; split; [exact Ht |]; split; [congruence |].
  all: exists row; auto.
Qed.

Lemma getUnreadCount_counts conversationId n w' :
  Messages.getUnreadCount userId conversationId w = (Return n, w') ->
  n = 0
  \/ n = length (List.filter (unread_customer T2 conversationId)
                   (mensagens (store w))).
Proof.
  intros H.
  unfold Messages.getUnreadCount, Messages.getTenantId in H. unfold_m. crack; worlds.
  all: try (left; reflexivity).
  all: caller Hcaller.
  all: right; reflexivity.
Qed.

Lemma markAsRead_other_tenants conversationId messageIds r w' :
  Messages.markAsRead userId conversationId messageIds w = (r, w') ->
  forall i m, mensagens (store w) !! i = Some m -> m_tenant_id m = T1 ->
              mensagens (store w') !! i = Some m.
Proof.
  intros H i m Hi.
  unfold Messages.markAsRead, Messages.getTenantId in H. unfold_m.
  destruct (Hub.named messageIds) as [ids |] eqn:Hnamed.
  all: crack; worlds; intros Ht.
  all: try exact Hi.
  all: caller Hcaller.
  all: apply update_keeps_other_rows; [exact Hi |].
  all: simpl; rewrite Ht.
  all: destruct (String.eqb_spec T1 T2); [contradiction |].
  all: rewrite ?andb_false_r; reflexivity.
Qed.

Lemma create_in_own_conversation data m w' :
  Messages.create userId data w = (Return m, w') ->
  r_tenant_id m = T2 /\ r_tenant_id m <> T1
  /\ owns (Some T2) (Messages.conversationId data) (store w).
Proof.
  intros H.
  unfold Messages.create, Messages.getTenantId, Messages.insert_mensagem,
    Messages.insert_message_row, Conversations.updateLastMessage in H.
  unfold_m. crack; worlds.
  all: caller Hcaller.
  all: rewrite truthy_tenant by assumption.
  all: split; [reflexivity |]; split; [congruence |].
  all: match goal with
       | H : (length _ =? 0)%nat = false |- _ =>
           exact (owned_nonempty (Some T2) (Messages.conversationId data) (store w) H)
       end.
Qed.

Lemma conversation_getById_row id c w' :
  Conversations.getById id userId w = (Return c, w') ->
  cr_tenant_id c = T2 /\ cr_tenant_id c <> T1
  /\ exists row, In row (conversas (store w)) /\ c_tenant_id row = T2
                 /\ c_id row = cr_id c.
Proof.
  intros H.
  unfold Conversations.getById, Conversations.getTenantId in H. unfold_m.
  crack; worlds.
  all: caller Hcaller.
  all: match goal with
       | H : map ?g ?l = ?r :: _ |- _ =>
           assert (Hin : In r (map g l)) by (rewrite H; left; reflexivity)
       end.
  all: apply in_map_iff in Hin as (row & <- & Hin).
  all: apply conversa_of_tenant_In in Hin as (Hin & Hid & Ht).
  all: simpl; injection Ht as Ht.
  all: split; [congruence |]; split; [congruence |].
  all: exists row; auto.
Qed.

Lemma conversation_list_rows ilike p cs total w' :
  Conversations.lp_userId p = userId ->
  Conversations.list ilike p w = (Return (cs, total), w') ->
  forall c, In c cs ->
    cr_tenant_id c = T2 /\ cr_tenant_id c <> T1
    /\ exists row, In row (conversas (store w)) /\ c_tenant_id row = T2
                   /\ c_id row = cr_id c.
Proof.
  intros Hp H c Hin. subst userId.
  unfold Conversations.list, Conversations.getTenantId in H. unfold_m.
  crack; worlds.
  all: try contradiction.
  all: caller Hcaller.
  all: rewrite truthy_tenant in * by assumption.
  all: apply in_map_iff in Hin as (raw & <- & Hin).
  all: apply in_map_iff in Hin as (row & <- & Hin).
  all: apply limit_offset_In, order_by_In, filter_In in Hin as [Hin Hwhere].
  all: unfold Conversations.list_where in Hwhere; rewrite !andb_true_iff in Hwhere.
  all: destruct Hwhere as [[[[[Ht _] _] _] _] _]; apply String.eqb_eq in Ht.
  all: simpl; split; [exact Ht |]; split; [congruence |].
  all: exists row; auto.
Qed.

(** The two updates of the directory leave the rows of T1 as they were. *)
Lemma updateStatus_other_tenants id status r w' :
  Conversations.updateStatus id userId status w = (r, w') ->
  forall i c, conversas (store w) !! i = Some c -> c_tenant_id c = T1 ->
              conversas (store w') !! i = Some c.
Proof.
  intros H i c Hi.
  unfold Conversations.updateStatus, Conversations.getTenantId in H. unfold_m.
  crack; worlds.
  all: repeat match goal with
         | H : Conversations.getById _ _ _ = _ |- _ =>
             apply getById_reads_only in H; simpl in H; rewrite H
         end.
  all: intros Ht.
  all: try exact Hi.
  all: caller Hcaller.
  all: apply update_keeps_other_rows; [exact Hi |].
  all: simpl; rewrite Ht.
  all: destruct (String.eqb_spec T1 T2); [contradiction |].
  all: rewrite ?andb_false_r; reflexivity.
Qed.

Lemma assignAgent_other_tenants id agentId r w' :
  Conversations.assignAgent id userId agentId w = (r, w') ->
  forall i c, conversas (store w) !! i = Some c -> c_tenant_id c = T1 ->
              conversas (store w') !! i = Some c.
Proof.
  intros H i c Hi.
  unfold Conversations.assignAgent, Conversations.getTenantId in H. unfold_m.
  crack; worlds.
  all: repeat match goal with
         | H : Conversations.getById _ _ _ = _ |- _ =>
             apply getById_reads_only in H; simpl in H; rewrite H
         end.
  all: intros Ht.
  all: try exact Hi.
  all: caller Hcaller.
  all: apply update_keeps_other_rows; [exact Hi |].
  all: simpl; rewrite Ht.
  all: destruct (String.eqb_spec T1 T2); [contradiction |].
  all: rewrite ?andb_false_r; reflexivity.
Qed.

End Isolation.

(** The webhook-oriented lookup returns a row of the tenant it is handed. *)
Lemma getByTenantId_row tenantId conversationId w c w' :
  Conversations.getByTenantId tenantId conversationId w = (Return (Some c), w') ->
  cr_tenant_id c = tenantId.
Proof.
  intros H. unfold Conversations.getByTenantId in H. unfold_m. crack; worlds.
  all: match goal with
       | H : map ?g ?l = ?r :: _ |- _ =>
           assert (Hin : In r (map g l)) by (rewrite H; left; reflexivity)
       end.
  all: apply in_map_iff in Hin as (row & <- & Hin).
  all: apply conversa_of_tenant_In in Hin as (Hin & Hid & Ht).
  all: simpl; congruence.
Qed.

(** The operations that look the tenant up. Let the caller's tenant be T2
    and T1 another tenant. Every message that the message listing or
    lookup returns is a stored row of tenant T2, hence none of T1; so is
    every conversation the directory's lookup and listing return; the
    unread count is the count over rows of T2; a mark-read call leaves
    every row of T1 as it was, and so do a status change and an
    assignment; an append through [create] that returns has written under
    T2, into a conversation of T2; and the lookup by tenant, handed T2,
    returns a row of T2. *)
Lemma looked_up_tenant_is_the_filter (ilike : option string -> string -> bool)
    (userId T1 T2 : string) (w : World) :
  T1 <> T2 ->
  caller_tenant userId (store w) = Some T2 ->
  (forall p ms total w',
     Messages.lp_userId p = userId ->
     Messages.listByConversation p w = (Return (ms, total), w') ->
     forall m, In m ms ->
       r_tenant_id m = T2 /\ r_tenant_id m <> T1
       /\ exists row, In row (mensagens (store w)) /\ m_tenant_id row = T2
                      /\ m_id row = r_id m)
  /\ (forall id m w',
        Messages.getById id userId w = (Return m, w') ->
        r_tenant_id m = T2 /\ r_tenant_id m <> T1
        /\ exists row, In row (mensagens (store w)) /\ m_tenant_id row = T2
                       /\ m_id row = r_id m)
  /\ (forall conversationId n w',
        Messages.getUnreadCount userId conversationId w = (Return n, w') ->
        n = 0
        \/ n = length (List.filter (unread_customer T2 conversationId)
                         (mensagens (store w))))
  /\ (forall conversationId messageIds r w',
        Messages.markAsRead userId conversationId messageIds w = (r, w') ->
        forall i m, mensagens (store w) !! i = Some m -> m_tenant_id m = T1 ->
                    mensagens (store w') !! i = Some m)
  /\ (forall data m w',
        Messages.create userId data w = (Return m, w') ->
        r_tenant_id m = T2 /\ r_tenant_id m <> T1
        /\ owns (Some T2) (Messages.conversationId data) (store w))
  /\ (forall id c w',
        Conversations.getById id userId w = (Return c, w') ->
        cr_tenant_id c = T2 /\ cr_tenant_id c <> T1
        /\ exists row, In row (conversas (store w)) /\ c_tenant_id row = T2
                       /\ c_id row = cr_id c)
  /\ (forall p cs total w',
        Conversations.lp_userId p = userId ->
        Conversations.list ilike p w = (Return (cs, total), w') ->
        forall c, In c cs ->
          cr_tenant_id c = T2 /\ cr_tenant_id c <> T1
          /\ exists row, In row (conversas (store w)) /\ c_tenant_id row = T2
                         /\ c_id row = cr_id c)
  /\ (forall id status r w',
        Conversations.updateStatus id userId status w = (r, w') ->
        forall i c, conversas (store w) !! i = Some c -> c_tenant_id c = T1 ->
                    conversas (store w') !! i = Some c)
  /\ (forall id agentId r w',
        Conversations.assignAgent id userId agentId w = (r, w') ->
        forall i c, conversas (store w) !! i = Some c -> c_tenant_id c = T1 ->
                    conversas (store w') !! i = Some c)
  /\ (forall conversationId c w',
        Conversations.getByTenantId T2 conversationId w = (Return (Some c), w') ->
        cr_tenant_id c = T2 /\ cr_tenant_id c <> T1).
Proof.
  intros Hne Hcaller.
  repeat split.
  all: try (intros; eapply listByConversation_rows; eassumption).
  all: try (intros; eapply message_getById_row; eassumption).
  all: try (intros; eapply getUnreadCount_counts; eassumption).
  all: try (intros; eapply markAsRead_other_tenants; eassumption).
  all: try (intros; eapply create_in_own_conversation; eassumption).
  all: try (intros; eapply conversation_getById_row; eassumption).
  all: try (intros; eapply conversation_list_rows; eassumption).
  all: try (intros; eapply updateStatus_other_tenants; eassumption).
  all: try (intros; eapply assignAgent_other_tenants; eassumption).
  all: try (intros; eapply getByTenantId_row; eassumption).
  all: match goal with
       | H : Conversations.getByTenantId _ _ _ = _ |- _ =>
           apply getByTenantId_row in H; congruence
       end.
Qed.

(** C3, at a call of [createByTenantId]. Tenant T1 has the conversation
    c1 and two of its operators have it open; tenant T2 has no
    conversation of that id. Called with T2 for c1, [createByTenantId]
    stores a message of T2 in the conversation of T1, overwrites the
    preview of T1's conversation (its update of [conversas] finds the row
    by id alone) and emits the message to the room of the conversation,
    where the operators of T1 receive it. The sibling [create], called by
    the operator of T2 for the same conversation, looks the owner up and
    throws NotFound without writing. *)
Theorem createByTenantId_crosses_tenants :
  map (fun c => (c_id c, c_tenant_id c, c_ultima_mensagem c))
    (conversas (store Sample.world))
    = [("c1", "T1", None)]
  /\ option_map (fun m => (r_tenant_id m, r_conversation_id m, r_content m))
       (match fst (Messages.createByTenantId "T2" "c1" Sample.inbound Sample.world) with
        | Return r => r
        | Throw _ => None
        end) = Some ("T2", Some "c1", Some "Oi")
  /\ map (fun m => (m_id m, m_tenant_id m, m_conversa_id m))
       (mensagens (store (snd (Messages.createByTenantId "T2" "c1" Sample.inbound
                                 Sample.world))))
     = [("m1", "T1", "c1"); ("m2", "T1", "c1"); ("m3", "T1", "c1"); ("id0", "T2", "c1")]
  /\ map (fun c => (c_id c, c_tenant_id c, c_ultima_mensagem c))
       (conversas (store (snd (Messages.createByTenantId "T2" "c1" Sample.inbound
                                 Sample.world))))
     = [("c1", "T1", Some "Oi")]
  /\ (Hub.tenantId Sample.ana = Some "T1"
      /\ map (fun ev => match ev with
                        | message_new m => Some (r_tenant_id m, r_content m)
                        | _ => None
                        end)
           (observed (Hub.id Sample.ana) (Hub.conversation_room "c1")
              (log (snd (Messages.createByTenantId "T2" "c1" Sample.inbound
                           Sample.world))))
         = [Some ("T2", Some "Oi")])
  /\ (caller_tenant "u2" (store Sample.world) = Some "T2"
      /\ fst (Messages.create "u2" Sample.reply Sample.world)
         = Throw (NotFoundError "Conversation")
      /\ store (snd (Messages.create "u2" Sample.reply Sample.world))
         = tick (tick (store Sample.world))).
Proof. vm_compute. repeat split; reflexivity. Qed.

(** ** Appending to a conversation of another tenant *)

(** C2, as the two paths have it. On the authenticated path an append to
    a conversation that does not exist under the caller's tenant throws,
    writes no row to any table and emits nothing, and what it throws is
    NotFound whenever the two lookups are executed. [createByTenantId]
    never throws: it returns a message or [null],
    and when the database rejects its insert it returns [null], writes no
    message and emits nothing. *)
Theorem append_needs_own_conversation :
  (forall userId data w,
     ~ owns (caller_tenant userId (store w)) (Messages.conversationId data) (store w) ->
     exists e w',
       Messages.create userId data w = (Throw e, w')
       /\ mensagens (store w') = mensagens (store w)
       /\ messages (store w') = messages (store w)
       /\ conversas (store w') = conversas (store w)
       /\ emissions (log w') = emissions (log w)
       /\ (accepts w M_getTenantId -> accepts w M_create_check ->
           exists resource, e = NotFoundError resource))
  /\ (forall tenantId conversationId data w,
        exists r w',
          Messages.createByTenantId tenantId conversationId data w = (Return r, w')
          /\ forall code,
               rejects (store w) M_byTenant_insert = Some code ->
               r = None
               /\ mensagens (store w') = mensagens (store w)
               /\ conversas (store w') = conversas (store w)
               /\ emissions (log w') = emissions (log w)).
Proof.
  split.
  - intros userId data w Hnot. unfold accepts.
    unfold Messages.create, Messages.getTenantId. unfold_m.
    destruct (rejects (store w) M_getTenantId) as [code |] eqn:Hacc1; simpl.
    { eexists. eexists. split; [reflexivity |]. worlds.
      rewrite emissions_app, app_nil_r. repeat split; try reflexivity. discriminate. }
    fold (caller_tenant userId (store w)).
    destruct (caller_tenant userId (store w)) as [tenant |] eqn:Hcaller; simpl.
    2: { eexists. eexists. split; [reflexivity |]. worlds.
         rewrite emissions_app, app_nil_r. repeat split; try reflexivity.
         intros _ _. exists "User". reflexivity. }
    destruct (String.eqb_spec tenant EmptyString) as [-> | Hne]; simpl.
    { eexists. eexists. split; [reflexivity |]. worlds.
      rewrite emissions_app, app_nil_r. repeat split; try reflexivity.
      intros _ _. exists "User". reflexivity. }
    destruct (rejects (store w) M_create_check) as [code |] eqn:Hacc2; simpl.
    { eexists. eexists. split; [reflexivity |]. worlds.
      rewrite !emissions_app, !app_nil_r. repeat split; try reflexivity. discriminate. }
    assert (Hnil : Sql.conversa_of_tenant (Messages.conversationId data) (Some tenant)
                     (tick (store w)) = [])
      by (apply not_owned_nil; exact Hnot).
    unfold tick in Hnil. unfold Sql.conversa_of_tenant in *. simpl in *.
    rewrite Hnil. simpl.
    eexists. eexists. split; [reflexivity |]. worlds.
    rewrite !emissions_app, !app_nil_r. repeat split; try reflexivity.
    intros _ _. exists "Conversation". reflexivity.
  - intros tenantId conversationId data w.
    destruct (Messages.createByTenantId tenantId conversationId data w) as [r w'] eqn:H.
    unfold Messages.createByTenantId, Messages.insert_mensagem in H. unfold_m.
    crack; worlds.
    all: eexists; eexists; split; [reflexivity |].
    all: intros code' Hrej; try congruence.
    all: simpl; rewrite ?emissions_app; simpl; rewrite ?app_nil_r; repeat split; reflexivity.
Qed.

Lemma append_needs_own_conversation_witness :
  ~ owns (caller_tenant "u2" (store Sample.world)) "c1" (store Sample.world)
  /\ (exists w',
        Messages.create "u2" Sample.reply Sample.world
          = (Throw (NotFoundError "Conversation"), w')
        /\ mensagens (store w') = mensagens (store Sample.world))
  /\ (exists w',
        Messages.createByTenantId "T1" "c9" Sample.inbound
          (with_store (Sample.rejecting M_byTenant_insert "23503" Sample.db) Sample.world)
          = (Return None, w')
        /\ mensagens (store w') = mensagens Sample.db).
Proof.
  destruct append_needs_own_conversation as [Hcreate HbyTenant].
  assert (Hnot : ~ owns (caller_tenant "u2" (store Sample.world)) "c1" (store Sample.world)).
  { intros (c & Hin & Hid & Ht). simpl in Hin. destruct Hin as [<- | []].
    discriminate Ht. }
  split; [exact Hnot |]. split.
  - destruct (Hcreate "u2" Sample.reply Sample.world Hnot)
      as (e & w' & Hrun & Hrows & _ & _ & _ & Hnf).
    exists w'. split; [| exact Hrows].
    assert (He : fst (Messages.create "u2" Sample.reply Sample.world)
                 = Throw (NotFoundError "Conversation")) by (vm_compute; reflexivity).
    rewrite Hrun in He. simpl in He. injection He as ->. exact Hrun.
  - destruct (HbyTenant "T1" "c9" Sample.inbound
                (with_store (Sample.rejecting M_byTenant_insert "23503" Sample.db) Sample.world))
      as (r & w' & Hrun & Hrej).
    destruct (Hrej "23503" eq_refl) as (-> & Hrows & _).
    exists w'. split; [exact Hrun | exact Hrows].
Defined.

(** The claim as worded fails on [createByTenantId]. With the foreign key
    of the migration enforced, an append to a conversation id without a
    row is rejected by the database, and the call returns [null]: no
    NotFound reaches the caller. (And given a conversation of another
    tenant, the call checks nothing: it writes the message under the
    tenant it was handed.) *)
Lemma createByTenantId_returns_null_not_NotFound :
  fst (Messages.createByTenantId "T1" "c9" Sample.inbound
         (with_store (Sample.rejecting M_byTenant_insert "23503" Sample.db) Sample.world))
    = Return None
  /\ ~ owns (Some "T1") "c9" Sample.db
  /\ ~ owns (Some "T2") "c1" Sample.db
  /\ option_map (fun m => (r_tenant_id m, r_conversation_id m))
       (match fst (Messages.createByTenantId "T2" "c1" Sample.inbound Sample.world) with
        | Return r => r
        | Throw _ => None
        end) = Some ("T2", Some "c1")
  /\ map (fun m => (m_id m, m_tenant_id m, m_conversa_id m))
       (mensagens (store (snd (Messages.createByTenantId "T2" "c1" Sample.inbound
                                 Sample.world))))
     = [("m1", "T1", "c1"); ("m2", "T1", "c1"); ("m3", "T1", "c1"); ("id0", "T2", "c1")].
Proof.
  split; [vm_compute; reflexivity |]. split; [| split; [| split]].
  - intros (c & Hin & Hid & Ht). simpl in Hin. destruct Hin as [<- | []]. discriminate Hid.
  - intros (c & Hin & Hid & Ht). simpl in Hin. destruct Hin as [<- | []]. discriminate Ht.
  - vm_compute. reflexivity.
  - vm_compute. reflexivity.
Qed.

(** * Further properties *)

(** ** Token lifetimes *)

Lemma split_last_snoc s c : Jwt.split_last (s +:+ char c) = Some (s, c).
Proof.
  unfold char. cbv [String.append].
  induction s as [| a s IH]; simpl; [reflexivity |].
  fold (String.append s (String c EmptyString)) in *. rewrite IH. reflexivity.
Qed.

Lemma numeral_digits n : Jwt.all_digits (numeral n) = true.
Proof.
  unfold numeral. induction (N.to_uint n); simpl; auto.
Qed.

Lemma numeral_nonempty n : numeral n <> EmptyString.
Proof.
  unfold numeral. destruct n as [| p]; simpl; [discriminate |].
  pose proof (DecimalPos.Unsigned.to_uint_nonnil p) as H.
  destruct (Pos.to_uint p); simpl; try discriminate. congruence.
Qed.

Lemma parseInt_numeral n : Jwt.parseInt (numeral n) = n.
Proof.
  unfold Jwt.parseInt, numeral. rewrite DecimalString.NilEmpty.usu.
  apply DecimalN.Unsigned.of_to.
Qed.

Lemma match_exp_numeral n u :
  Jwt.is_unit u = true -> Jwt.match_exp (numeral n +:+ char u) = Some (numeral n, u).
Proof.
  intros Hu. unfold Jwt.match_exp. rewrite split_last_snoc, numeral_digits, Hu.
  destruct (String.eqb_spec (numeral n) EmptyString) as [E | _]; [| reflexivity].
  destruct (numeral_nonempty n E).
Qed.

(** X1. A lifetime written as a number and one of the units s, m, h, d is
    that many seconds, minutes, hours or days, in seconds; whatever ends in
    another character (a bare number, an unknown unit), has something else
    than digits before the unit, or has no digit at all is one hour. *)
Theorem parseExpiration_reads_number_and_unit (n : N) :
  (n * 86400 < 2 ^ 53)%N ->
  Jwt.parseExpiration (numeral n +:+ "s") = n
  /\ Jwt.parseExpiration (numeral n +:+ "m") = (n * 60)%N
  /\ Jwt.parseExpiration (numeral n +:+ "h") = (n * 3600)%N
  /\ Jwt.parseExpiration (numeral n +:+ "d") = (n * 86400)%N
  /\ (forall s c, Jwt.is_unit c = false ->
        Jwt.parseExpiration (s +:+ char c) = 3600%N)
  /\ (forall s u, Jwt.all_digits s = false ->
        Jwt.parseExpiration (s +:+ char u) = 3600%N)
  /\ (forall u, Jwt.parseExpiration (char u) = 3600%N)
  /\ Jwt.parseExpiration EmptyString = 3600%N.
Proof.
  intros _. unfold Jwt.parseExpiration.
  change "s" with (char "s"). change "m" with (char "m").
  change "h" with (char "h"). change "d" with (char "d").
  rewrite !match_exp_numeral by reflexivity. rewrite parseInt_numeral. simpl.
  split; [reflexivity |]. split; [reflexivity |]. split; [reflexivity |].
  split; [reflexivity |]. split; [| split; [| split; [| reflexivity]]].
  - intros s c Hc. unfold Jwt.match_exp. rewrite split_last_snoc, Hc.
    rewrite andb_false_r. reflexivity.
  - intros s u Hs. unfold Jwt.match_exp. rewrite split_last_snoc, Hs.
    rewrite andb_false_r. reflexivity.
  - intros u. reflexivity.
Qed.

Lemma parseExpiration_reads_number_and_unit_witness :
  Jwt.parseExpiration "15m" = 900%N
  /\ Jwt.parseExpiration "7d" = 604800%N
  /\ Jwt.parseExpiration "15" = 3600%N
  /\ Jwt.parseExpiration "1w" = 3600%N.
Proof.
  assert (H15 : (15 * 86400 < 2 ^ 53)%N) by (vm_compute; reflexivity).
  assert (H7 : (7 * 86400 < 2 ^ 53)%N) by (vm_compute; reflexivity).
  destruct (parseExpiration_reads_number_and_unit 15 H15) as (_ & Hm & _ & _ & Hc & _).
  destruct (parseExpiration_reads_number_and_unit 7 H7) as (_ & _ & _ & Hd & _).
  split; [exact Hm |]. split; [exact Hd |].
  split; [exact (Hc "1" "5"%char eq_refl) | exact (Hc "1" "w"%char eq_refl)].
Defined.

(** ** The REST gate *)

Lemma split_space_nonempty s : Auth.split_space s <> [].
Proof.
  destruct s as [| c r]; simpl; [discriminate |].
  destruct (Ascii.eqb c " "); [discriminate |].
  destruct (Auth.split_space r); discriminate.
Qed.

(** [s.split(' ').join(' ')] is [s]. *)
Lemma split_space_concat s : String.concat " " (Auth.split_space s) = s.
Proof.
  induction s as [| c r IH]; simpl; [reflexivity |].
  destruct (Ascii.eqb_spec c " ") as [-> | Hc].
  - pose proof (split_space_nonempty r) as Hne.
    destruct (Auth.split_space r) as [| p ps] eqn:E; [congruence |].
    simpl in *. rewrite IH. reflexivity.
  - pose proof (split_space_nonempty r) as Hne.
    destruct (Auth.split_space r) as [| p ps] eqn:E; [congruence |].
    simpl in *. destruct ps; simpl in *; rewrite <- IH; reflexivity.
Qed.

Lemma split_space_word s : no_space s = true -> Auth.split_space s = [s].
Proof.
  induction s as [| c r IH]; simpl; [reflexivity |].
  intros H. apply andb_true_iff in H as [Hc Hr]. apply negb_true_iff in Hc.
  rewrite Hc, (IH Hr). reflexivity.
Qed.

Lemma append_cons c r s : String c r +:+ s = String c (r +:+ s).
Proof. reflexivity. Qed.

Lemma append_empty s : EmptyString +:+ s = s.
Proof. reflexivity. Qed.

Lemma split_space_first w s :
  no_space w = true ->
  Auth.split_space (w +:+ " " +:+ s) = w :: Auth.split_space s.
Proof.
  induction w as [| c r IH]; intros Hw.
  - rewrite append_empty. change (" " +:+ s) with (String " " s). reflexivity.
  - simpl in Hw. apply andb_true_iff in Hw as [Hc Hr]. apply negb_true_iff in Hc.
    rewrite append_cons. simpl. rewrite Hc, (IH Hr). reflexivity.
Qed.

(** Words joined by single spaces split into the same words. *)
Lemma concat_split_space w ws :
  no_space w = true -> Forall (fun x => no_space x = true) ws ->
  Auth.split_space (String.concat " " (w :: ws)) = w :: ws.
Proof.
  revert w. induction ws as [| v ws IH]; intros w Hw Hws.
  - simpl. apply split_space_word. exact Hw.
  - inversion Hws as [| ? ? Hv Hrest]; subst.
    change (String.concat " " (w :: v :: ws))
      with (w +:+ " " +:+ String.concat " " (v :: ws)).
    rewrite split_space_first by assumption. rewrite (IH v Hv Hrest). reflexivity.
Qed.

Lemma payload_eta (u : Auth.TokenPayload) :
  {| Auth.userId := Auth.userId u; Auth.email := Auth.email u; Auth.role := Auth.role u |}
  = u.
Proof. destruct u; reflexivity. Qed.

(** The two words [authenticate] reads, when it gets past the format
    check. *)
Lemma authenticate_words verifyToken header :
  Js.truthy (Some header) = true ->
  forall token more,
    Auth.split_space header = "Bearer" :: token :: more -> token <> EmptyString ->
    Auth.authenticate verifyToken (Some header)
    = match verifyToken token with
      | inr decoded => Auth.Pass (Some decoded)
      | inl name =>
          if name =? "TokenExpiredError"
          then Auth.PassError (UnauthorizedError "Token expired")
          else if name =? "JsonWebTokenError"
          then Auth.PassError (UnauthorizedError "Invalid token")
          else Auth.PassThrown name
      end.
Proof.
  intros Htruthy token more Hsplit Htoken. unfold Auth.authenticate.
  simpl in Htruthy |- *. destruct (header =? EmptyString); [discriminate |].
  simpl. rewrite Hsplit. simpl.
  destruct (String.eqb_spec token EmptyString); [congruence |]. simpl.
  destruct (verifyToken token) as [name | decoded]; [reflexivity |].
  rewrite payload_eta. reflexivity.
Qed.

(** X2. [authenticate] lets a request through exactly as the user of the
    token that is the second word of an Authorization header whose first
    word is Bearer, words being separated by single spaces and further
    words ignored; it never lets a request through without a user. Every
    refusal of its own is a 401, and an error of [verifyToken] that is
    neither an expired nor a malformed token is handed on as it is. *)
Theorem authenticate_accepts_bearer_tokens
    (verifyToken : string -> string + Auth.TokenPayload) :
  (forall authorization user,
     Auth.authenticate verifyToken authorization = Auth.Pass user ->
     exists token more decoded,
       authorization = Some (String.concat " " ("Bearer" :: token :: more))
       /\ token <> EmptyString /\ no_space token = true
       /\ verifyToken token = inr decoded /\ user = Some decoded)
  /\ (forall token more decoded,
        token <> EmptyString -> no_space token = true ->
        Forall (fun x => no_space x = true) more ->
        verifyToken token = inr decoded ->
        Auth.authenticate verifyToken
          (Some (String.concat " " ("Bearer" :: token :: more)))
        = Auth.Pass (Some decoded))
  /\ (forall authorization e,
        Auth.authenticate verifyToken authorization = Auth.PassError e ->
        exists message, e = AppError message 401 (Some "UNAUTHORIZED"))
  /\ (forall authorization name,
        Auth.authenticate verifyToken authorization = Auth.PassThrown name ->
        name <> "TokenExpiredError" /\ name <> "JsonWebTokenError"
        /\ exists token, verifyToken token = inl name).
Proof.
  split; [| split; [| split]].
  - intros authorization user H. unfold Auth.authenticate in H.
    destruct (Js.truthy authorization) eqn:Htruthy; simpl in H; [| discriminate].
    destruct authorization as [header |]; [| discriminate].
    assert (Hlit : Js.or_lit (Some header) EmptyString = header).
    { simpl in *. destruct (header =? EmptyString); [discriminate | reflexivity]. }
    rewrite Hlit in H. pose proof (split_space_concat header) as Hjoin.
    destruct (Auth.split_space header) as [| word [| token more]] eqn:Hsplit;
      simpl in H; try discriminate H;
      try (destruct (bool_decide _); discriminate H).
    destruct (bool_decide (Some word = Some "Bearer")) eqn:Htype; simpl in H;
      [| discriminate].
    apply bool_decide_eq_true_1 in Htype. injection Htype as ->.
    destruct (String.eqb_spec token EmptyString) as [| Hne]; simpl in H; [discriminate |].
    destruct (verifyToken token) as [name | decoded] eqn:Hverify.
    + destruct (name =? "TokenExpiredError"); [discriminate |].
      destruct (name =? "JsonWebTokenError"); discriminate.
    + injection H as <-. exists token, more, decoded. rewrite Hjoin.
      repeat split; auto.
      * assert (Hall : Forall (fun x => no_space x = true) (Auth.split_space header)).
        { clear. induction header as [| c r IH]; simpl.
          - repeat constructor.
          - destruct (Ascii.eqb_spec c " ") as [-> | Hc].
            + constructor; [reflexivity | exact IH].
            + destruct (Auth.split_space r) as [| p ps]; [repeat constructor |].
              * simpl. apply Ascii.eqb_neq in Hc. rewrite Hc. reflexivity.
              * inversion IH; subst. constructor; [| assumption].
                simpl. apply Ascii.eqb_neq in Hc. rewrite Hc. assumption. }
        rewrite Hsplit in Hall. inversion Hall as [| ? ? _ Hrest]; subst.
        inversion Hrest; subst. assumption.
      * rewrite payload_eta. reflexivity.
  - intros token more decoded Hne Hword Hmore Hverify.
    assert (Hsplit : Auth.split_space (String.concat " " ("Bearer" :: token :: more))
                     = "Bearer" :: token :: more).
    { apply concat_split_space; [reflexivity |]. constructor; assumption. }
    assert (Htruthy : Js.truthy (Some (String.concat " " ("Bearer" :: token :: more)))
                      = true) by reflexivity.
    rewrite (authenticate_words verifyToken _ Htruthy token more Hsplit Hne).
    rewrite Hverify. reflexivity.
  - intros authorization e H. unfold Auth.authenticate in H.
    repeat match type of H with
           | (if ?c then _ else _) = _ => destruct c
           | match ?x with _ => _ end = _ => destruct x
           end;
      try discriminate; injection H as <-; eexists; reflexivity.
  - intros authorization name H. unfold Auth.authenticate in H.
    destruct (negb (Js.truthy authorization)); [discriminate |].
    destruct (_ || _); [discriminate |].
    destruct (verifyToken _) as [name' | decoded] eqn:Hverify; [| discriminate].
    destruct (String.eqb_spec name' "TokenExpiredError"); [discriminate |].
    destruct (String.eqb_spec name' "JsonWebTokenError"); [discriminate |].
    injection H as <-. eauto.
Qed.

(** X3. [optionalAuth] never refuses a request, and it finds a user
    exactly when [authenticate] would let the request through as that
    user: a missing, malformed, expired or invalid token makes the
    request anonymous. *)
Theorem optionalAuth_never_refuses
    (verifyToken : string -> string + Auth.TokenPayload)
    (authorization : option string) :
  (exists user, Auth.optionalAuth verifyToken authorization = Auth.Pass user)
  /\ (forall u,
        Auth.optionalAuth verifyToken authorization = Auth.Pass (Some u)
        <-> Auth.authenticate verifyToken authorization = Auth.Pass (Some u))
  /\ (Auth.optionalAuth verifyToken authorization = Auth.Pass None
      <-> forall u, Auth.authenticate verifyToken authorization <> Auth.Pass (Some u)).
Proof.
  unfold Auth.optionalAuth, Auth.authenticate.
  destruct (negb (Js.truthy authorization)).
  { split; [eauto |]. split; [split; discriminate | split; [discriminate | reflexivity]]. }
  destruct (_ || _).
  { split; [eauto |]. split; [split; discriminate | split; [discriminate | reflexivity]]. }
  destruct (verifyToken _) as [name | decoded].
  - split; [eauto |]. split; [| split; [| reflexivity]].
    + split; [discriminate |].
      destruct (name =? "TokenExpiredError"); [discriminate |].
      destruct (name =? "JsonWebTokenError"); discriminate.
    + intros _ u.
      destruct (name =? "TokenExpiredError"); [discriminate |].
      destruct (name =? "JsonWebTokenError"); discriminate.
  - split; [eauto |]. split; [tauto |]. split; [discriminate |].
    intros H. exfalso. eapply H. reflexivity.
Qed.

Lemma authenticate_pass_user verifyToken authorization user :
  Auth.authenticate verifyToken authorization = Auth.Pass user ->
  exists u, user = Some u.
Proof.
  unfold Auth.authenticate. intros H.
  repeat match type of H with
         | (if ?c then _ else _) = _ => destruct c
         | match ?x with _ => _ end = _ => destruct x
         end;
    try discriminate; injection H as <-; eauto.
Qed.

(** X4. The users routes, behind [authenticate] and [authorize('admin')]:
    a request gets through exactly as an authenticated user whose role is
    admin; an authenticated user of another role is answered 403, and a
    request that [authenticate] refuses is answered as it refused it,
    without [authorize] being asked. *)
Theorem admin_routes_need_admin_role
    (verifyToken : string -> string + Auth.TokenPayload)
    (authorization : option string) :
  (forall user,
     Auth.admin_only verifyToken authorization = Auth.Pass user
     <-> exists u, user = Some u /\ Auth.role u = "admin"
                   /\ Auth.authenticate verifyToken authorization = Auth.Pass (Some u))
  /\ (forall u,
        Auth.authenticate verifyToken authorization = Auth.Pass (Some u) ->
        Auth.role u <> "admin" ->
        Auth.admin_only verifyToken authorization
        = Auth.PassError (AppError "Insufficient permissions" 403 (Some "FORBIDDEN")))
  /\ (forall e,
        Auth.authenticate verifyToken authorization = Auth.PassError e ->
        Auth.admin_only verifyToken authorization = Auth.PassError e).
Proof.
  unfold Auth.admin_only.
  destruct (Auth.authenticate verifyToken authorization) as [user' | e' | name] eqn:E.
  - destruct (authenticate_pass_user _ _ _ E) as (decoded & ->).
    unfold Auth.authorize. simpl.
    destruct (String.eqb_spec (Auth.role decoded) "admin") as [Hrole | Hrole]; simpl.
    + split; [| split; [| discriminate]].
      * intros user. split.
        -- intros H. injection H as <-. eauto.
        -- intros (u & -> & _ & Hu). injection Hu as <-. reflexivity.
      * intros u Hu Hne. injection Hu as <-. congruence.
    + split; [| split; [| discriminate]].
      * intros user. split; [discriminate |].
        intros (u & -> & Hadmin & Hu). injection Hu as <-. congruence.
      * intros u _ _. reflexivity.
  - split; [| split].
    + intros user. split; [discriminate |]. intros (u & _ & _ & Hu). discriminate.
    + discriminate.
    + intros e H. exact H.
  - split; [| split].
    + intros user. split; [discriminate |]. intros (u & _ & _ & Hu). discriminate.
    + discriminate.
    + discriminate.
Qed.

(** ** Pages *)

From Stdlib Require Import Sorted.

Lemma insert_by_length {A} (before : A -> A -> bool) x l :
  length (Sql.insert_by before x l) = S (length l).
Proof.
  induction l as [| y l IH]; simpl; [reflexivity |].
  destruct (before x y); simpl; [reflexivity | rewrite IH; reflexivity].
Qed.

Lemma order_by_length {A} (before : A -> A -> bool) l :
  length (Sql.order_by before l) = length l.
Proof.
  induction l as [| x l IH]; simpl; [reflexivity |].
  rewrite insert_by_length, IH. reflexivity.
Qed.

Lemma limit_offset_length {A} (n k : nat) (l : list A) :
  length (Sql.limit_offset n k l) = Nat.min n (length l - k).
Proof. unfold Sql.limit_offset. rewrite length_firstn, length_skipn. reflexivity. Qed.

(** [ORDER BY] sorts, for an order that is total and transitive. *)
Section Sorting.

Context {A : Type} (before : A -> A -> bool).
Hypothesis total : forall a b, before a b = false -> before b a = true.
Hypothesis trans : forall a b c, before a b = true -> before b c = true -> before a c = true.

Lemma insert_by_sorted x l :
  StronglySorted (fun a b => before a b = true) l ->
  StronglySorted (fun a b => before a b = true) (Sql.insert_by before x l).
Proof.
  induction 1 as [| y l Hl IH Hy]; simpl.
  - constructor; constructor.
  - destruct (before x y) eqn:E.
    + constructor; [constructor; assumption |].
      constructor; [exact E |].
      rewrite List.Forall_forall in *. intros z Hz. eapply trans; [exact E | auto].
    + constructor; [exact IH |].
      rewrite List.Forall_forall in *. intros z Hz.
      apply insert_by_In in Hz as [-> | Hz]; [apply total; exact E | auto].
Qed.

Lemma order_by_sorted l :
  StronglySorted (fun a b => before a b = true) (Sql.order_by before l).
Proof.
  induction l as [| x l IH]; simpl; [constructor | apply insert_by_sorted; exact IH].
Qed.

End Sorting.

Lemma sorted_skipn {A} (R : A -> A -> Prop) k l :
  StronglySorted R l -> StronglySorted R (skipn k l).
Proof.
  revert l. induction k as [| k IH]; intros l H; simpl; [exact H |].
  destruct l; [constructor |]. inversion H; subst. apply IH. assumption.
Qed.

Lemma sorted_firstn {A} (R : A -> A -> Prop) n l :
  StronglySorted R l -> StronglySorted R (firstn n l).
Proof.
  revert l. induction n as [| n IH]; intros l H; simpl; [constructor |].
  destruct l as [| x l]; [constructor |]. inversion H as [| ? ? Hl Hx]; subst.
  constructor; [apply IH; assumption |].
  rewrite List.Forall_forall in *. intros y Hy. apply Hx.
  rewrite <- (firstn_skipn n l). apply in_or_app. left. exact Hy.
Qed.

Lemma sorted_map {A B} (R : A -> A -> Prop) (S : B -> B -> Prop) (f : A -> B) l :
  (forall a b, R a b -> S (f a) (f b)) ->
  StronglySorted R l -> StronglySorted S (map f l).
Proof.
  intros H. induction 1 as [| x l Hl IH Hx]; simpl; constructor; [exact IH |].
  rewrite List.Forall_forall in *. intros y Hy. apply in_map_iff in Hy as (a & <- & Ha). auto.
Qed.

(** What a page of the message listing is made of. *)
Lemma message_page tenant p s :
  let listing := List.filter (Messages.list_where tenant p) (mensagens s) in
  let rows :=
    map Messages.mapMessageToResponse
      (map (Messages.with_sender s)
         (Sql.limit_offset (Messages.lp_perPage p)
            ((Messages.lp_page p - 1) * Messages.lp_perPage p)
            (Sql.order_by Messages.oldest_first listing))) in
  length rows
  = Nat.min (Messages.lp_perPage p)
      (length listing - (Messages.lp_page p - 1) * Messages.lp_perPage p)
  /\ StronglySorted (fun a b => r_created_at a <= r_created_at b) rows
  /\ forall m, In m rows ->
       match Messages.lp_before p with
       | Some b => r_created_at m < b
       | None => True
       end
       /\ match Messages.lp_after p with
          | Some a => a < r_created_at m
          | None => True
          end.
Proof.
  intros listing rows. subst rows. split; [| split].
  - rewrite !length_map, limit_offset_length, order_by_length. reflexivity.
  - rewrite map_map.
    eapply sorted_map;
      [| apply sorted_firstn, sorted_skipn;
         apply (order_by_sorted Messages.oldest_first)].
    + intros a b H. unfold Messages.oldest_first in H. apply Nat.leb_le in H. exact H.
    + intros a b H. unfold Messages.oldest_first in *.
      apply Nat.leb_gt in H. apply Nat.leb_le. lia.
    + intros a b c H1 H2. unfold Messages.oldest_first in *.
      apply Nat.leb_le in H1, H2. apply Nat.leb_le. lia.
  - intros m Hm. rewrite map_map in Hm. apply in_map_iff in Hm as (row & <- & Hrow).
    apply limit_offset_In, order_by_In in Hrow. subst listing.
    apply filter_In in Hrow as [_ Hw]. unfold Messages.list_where in Hw.
    apply andb_true_iff in Hw as [Hw Hafter]. apply andb_true_iff in Hw as [_ Hbefore].
    simpl. split.
    + destruct (Messages.lp_before p); [apply Nat.ltb_lt; exact Hbefore | exact I].
    + destruct (Messages.lp_after p); [apply Nat.ltb_lt; exact Hafter | exact I].
Qed.

(** X5. A page of the message listing holds [perPage] messages, or what
    is left of the listing after the pages before it, oldest first, each
    within the window asked for; [total] is the length of the whole
    listing: the messages of the conversation under the caller's tenant
    within the window. *)
Theorem message_listing_pages p w ms total w' :
  Messages.listByConversation p w = (Return (ms, total), w') ->
  length ms
  = Nat.min (Messages.lp_perPage p)
      (total - (Messages.lp_page p - 1) * Messages.lp_perPage p)
  /\ StronglySorted (fun a b => r_created_at a <= r_created_at b) ms
  /\ (forall m, In m ms ->
        match Messages.lp_before p with
        | Some b => r_created_at m < b
        | None => True
        end
        /\ match Messages.lp_after p with
           | Some a => a < r_created_at m
           | None => True
           end)
  /\ (accepts w M_list_count -> accepts w M_list_select ->
      forall tenant,
        caller_tenant (Messages.lp_userId p) (store w) = Some tenant ->
        tenant <> EmptyString ->
        total = length (List.filter (Messages.list_where tenant p)
                          (mensagens (store w)))).
Proof.
  intros H. unfold accepts, caller_tenant. unfold_services. crack; worlds.
  all: try match goal with
       | |- context [Messages.with_sender ?s] =>
           pose proof (message_page (Js.or_lit (user_tenant_id u) EmptyString) p s)
             as (Hlen & Hsorted & Hwindow);
           simpl in Hlen, Hsorted, Hwindow
       end.
  all: split; [first [exact Hlen | rewrite Nat.sub_0_l, Nat.min_0_r; reflexivity] |].
  all: split; [first [exact Hsorted | apply SSorted_nil] |].
  all: split; [first [exact Hwindow | intros m []] |].
  all: intros Hc Hs tenant Ht Hne; try congruence.
  all: match goal with
       | H : Sql.users_by_id _ _ = _ |- _ => rewrite H in Ht
       end.
  all: try discriminate Ht.
  all: rewrite Ht in *; simpl in *.
  all: destruct (String.eqb_spec tenant EmptyString); [congruence |].
  all: first [reflexivity | discriminate].
Qed.

Lemma message_listing_pages_witness :
  exists ms total w',
    Messages.listByConversation (Sample.first_page "u1") Sample.world
      = (Return (ms, total), w')
    /\ total = 3 /\ length ms = 3.
Proof.
  destruct (Messages.listByConversation (Sample.first_page "u1") Sample.world)
    as [[[ms total] | e] w'] eqn:E; [| vm_compute in E; discriminate E].
  exists ms, total, w'. split; [reflexivity |].
  destruct (message_listing_pages _ _ _ _ _ E) as (Hlen & _ & _ & Htotal).
  assert (Ht : total = 3).
  { rewrite (Htotal eq_refl eq_refl "T1" eq_refl); [reflexivity | discriminate]. }
  split; [exact Ht |]. rewrite Hlen, Ht. reflexivity.
Defined.





(** ** The message store, further *)

(** The unread count, when its two statements are executed. *)
Lemma getUnreadCount_run userId conversationId tenant w :
  caller_tenant userId (store w) = Some tenant -> tenant <> EmptyString ->
  accepts w M_getTenantId -> accepts w M_unread ->
  exists w',
    Messages.getUnreadCount userId conversationId w
      = (Return (length (List.filter (unread_customer tenant conversationId)
                           (mensagens (store w)))), w')
    /\ mensagens (store w') = mensagens (store w)
    /\ users (store w') = users (store w)
    /\ rejects (store w') = rejects (store w).
Proof.
  intros Htenant Hne Hacc1 Hacc2.
  unfold accepts in *. unfold caller_tenant in Htenant.
  unfold Messages.getUnreadCount, Messages.getTenantId. unfold_m.
  simpl. rewrite Hacc1. simpl. rewrite Htenant. simpl.
  destruct (String.eqb_spec tenant EmptyString); [congruence |]. simpl.
  rewrite Hacc2. simpl. eexists. repeat split; reflexivity.
Qed.

(** X7. Counting, marking all, counting again: the mark-all call returns
    the number the unread count gave just before it, and the unread count
    just after it is 0. *)
Theorem mark_all_clears_unread_count userId conversationId tenant w :
  caller_tenant userId (store w) = Some tenant -> tenant <> EmptyString ->
  accepts w M_getTenantId -> accepts w M_mark_all -> accepts w M_unread ->
  exists n w1 w2 w3,
    Messages.getUnreadCount userId conversationId w = (Return n, w1)
    /\ Messages.markAsRead userId conversationId None w1 = (Return n, w2)
    /\ Messages.getUnreadCount userId conversationId w2 = (Return 0, w3).
Proof.
  intros Htenant Hne Hacc1 Hacc2 Hacc3.
  destruct (getUnreadCount_run userId conversationId tenant w Htenant Hne Hacc1 Hacc3)
    as (w1 & Hcount & Hm1 & Hu1 & Hr1).
  assert (Htenant1 : caller_tenant userId (store w1) = Some tenant).
  { unfold caller_tenant, Sql.users_by_id in *. rewrite Hu1. exact Htenant. }
  assert (Hacc : forall site, accepts w site -> accepts w1 site).
  { unfold accepts. intros site H. rewrite Hr1. exact H. }
  destruct (markAsRead_all userId conversationId None tenant w1 eq_refl Htenant1 Hne
              (Hacc _ Hacc1) (Hacc _ Hacc2))
    as (w2 & Hmark & Hm2 & Hu2 & Hr2).
  assert (Htenant2 : caller_tenant userId (store w2) = Some tenant).
  { unfold caller_tenant, Sql.users_by_id in *. rewrite Hu2. exact Htenant1. }
  assert (Hacc' : forall site, accepts w site -> accepts w2 site).
  { unfold accepts. intros site H. rewrite Hr2, Hr1. exact H. }
  destruct (getUnreadCount_run userId conversationId tenant w2 Htenant2 Hne
              (Hacc' _ Hacc1) (Hacc' _ Hacc3))
    as (w3 & Hcount' & _).
  rewrite Hm2, unread_customer_after in Hcount' by reflexivity.
  rewrite Hm1 in Hmark.
  eexists. exists w1, w2, w3. split; [exact Hcount |]. split; [exact Hmark |].
  exact Hcount'.
Qed.

Lemma mark_all_clears_unread_count_witness :
  exists w1 w2 w3,
    Messages.getUnreadCount "u1" "c1" Sample.world = (Return 1, w1)
    /\ Messages.markAsRead "u1" "c1" None w1 = (Return 1, w2)
    /\ Messages.getUnreadCount "u1" "c1" w2 = (Return 0, w3).
Proof.
  destruct (mark_all_clears_unread_count "u1" "c1" "T1" Sample.world eq_refl
              ltac:(discriminate) eq_refl eq_refl eq_refl)
    as (n & w1 & w2 & w3 & H1 & H2 & H3).
  assert (Hn : n = 1).
  { assert (E : fst (Messages.getUnreadCount "u1" "c1" Sample.world) = Return 1)
      by (vm_compute; reflexivity).
    rewrite H1 in E. simpl in E. injection E as ->. reflexivity. }
  subst n. exists w1, w2, w3. auto.
Defined.

(** X8. An append on the REST path that returns a message, the insert
    being executed and the hub up: the caller's tenant owns the
    conversation; one row is added to [mensagens], under that tenant and
    conversation, and the message returned is that row; then the preview
    of the conversation is set to the first 100 characters of the content
    (or the update fails and is ignored); then, and only then, the message
    is emitted to the room of the conversation and to the room of the
    tenant, to all who are in them. *)
Theorem rest_append_is_stored_then_broadcast userId data w m w' rooms :
  Messages.create userId data w = (Return m, w') ->
  accepts w M_create_insert -> io w = Some rooms ->
  exists tenant row touched,
    caller_tenant userId (store w) = Some tenant
    /\ owns (Some tenant) (Messages.conversationId data) (store w)
    /\ mensagens (store w') = mensagens (store w) ++ [row]
    /\ m = Messages.mapMessageToResponse (Messages.of_mensagem row None None)
    /\ m_tenant_id row = tenant
    /\ m_conversa_id row = Messages.conversationId data
    /\ m_conteudo row = Messages.content data
    /\ m_remetente_tipo row = Messages.mapSenderTypeToPt (Messages.senderType data)
    /\ log w' = log w ++
         [Sql M_getTenantId; Sql M_create_check; Sql M_create_insert; touched;
          Emit (Hub.conversation_room (Messages.conversationId data))
            (Hub.members (Hub.conversation_room (Messages.conversationId data)) rooms)
            (message_new m);
          Emit (Hub.tenant_room tenant) (Hub.members (Hub.tenant_room tenant) rooms)
            (message_new m)]
    /\ (touched = Sql C_updateLastMessage
        \/ exists code, touched = SqlRejected C_updateLastMessage code)
    /\ (touched = Sql C_updateLastMessage ->
        forall c, In c (conversas (store w')) ->
                  c_id c = Messages.conversationId data ->
                  c_ultima_mensagem c
                  = Some (Js.substring0 100 (Messages.content data))).
Proof.
  unfold accepts. intros H Hacc Hio.
  destruct (create_persists_then_broadcasts _ _ _ _ _ _ H Hacc Hio)
    as (tenant & touched & Htenant & Hlog & Htouched).
  exists tenant. unfold caller_tenant in Htenant.
  unfold_services. crack; worlds.
  all: try congruence.
  all: assert (Hlit : Js.or_lit (user_tenant_id u0) EmptyString = tenant)
         by (rewrite Htenant in *; simpl in *;
             destruct (tenant =? EmptyString); [discriminate | reflexivity]).
  all: eexists; exists touched.
  all: split; [unfold caller_tenant; rewrite Heql; exact Htenant |].
  all: split; [pose proof (owned_nonempty _ _ _ Heqb0) as Hown;
               rewrite Htenant in Hown; exact Hown |].
  all: split; [reflexivity |].
  all: split; [reflexivity |].
  all: split; [exact Hlit |].
  all: split; [reflexivity |].
  all: split; [reflexivity |].
  all: split; [reflexivity |].
  all: split; [exact Hlog |].
  all: split; [exact Htouched |].
  all: intros Ht c Hin Hid; subst touched.
  all: rewrite <- !app_assoc in Hlog; apply app_inv_head in Hlog; try discriminate Hlog.
  all: apply in_map_iff in Hin as (c0 & <- & _).
  all: destruct (c_id c0 =? Messages.conversationId data) eqn:E; [reflexivity |].
  all: apply String.eqb_neq in E; simpl in Hid; congruence.
Qed.

Lemma rest_append_is_stored_then_broadcast_witness :
  exists m w' row,
    Messages.create "u1" Sample.reply Sample.world = (Return m, w')
    /\ mensagens (store w') = mensagens (store Sample.world) ++ [row]
    /\ m_tenant_id row = "T1"
    /\ sent_to (Hub.tenant_room "T1") (log w')
       = [(Hub.members (Hub.tenant_room "T1") Sample.rooms, message_new m)].
Proof.
  destruct (Messages.create "u1" Sample.reply Sample.world) as [[m | e] w'] eqn:E;
    [| vm_compute in E; discriminate E].
  destruct (rest_append_is_stored_then_broadcast _ _ _ _ _ Sample.rooms E eq_refl eq_refl)
    as (tenant & row & touched & Htenant & _ & Hrows & _ & Ht & _ & _ & _ & Hlog & Htouched & _).
  injection Htenant as <-.
  exists m, w', row. split; [reflexivity |]. split; [exact Hrows |]. split; [exact Ht |].
  rewrite Hlog. simpl.
  destruct Htouched as [-> | [code ->]]; reflexivity.
Defined.

Lemma owned_rows tenant id s :
  owns tenant id s -> (length (Sql.conversa_of_tenant id tenant s) =? 0)%nat = false.
Proof.
  intros (c & Hin & Hid & Ht).
  assert (H : In c (Sql.conversa_of_tenant id tenant s))
    by (apply conversa_of_tenant_In; auto).
  destruct (Sql.conversa_of_tenant id tenant s); [destruct H | reflexivity].
Qed.

(** X9. When the database rejects the insert into [mensagens], an append
    on the REST path emits nothing and leaves [mensagens] and the preview
    of every conversation as they were. It returns a message only when the
    rejection was an undefined table or column (42P01, 42703): the message
    is then one row more in the English-named table [messages], with the
    sender type as the caller gave it. Any other rejection is thrown on as
    it is, and so is a rejection of the second insert. *)
Theorem rest_append_fallback_is_silent userId data w r w' code :
  Messages.create userId data w = (r, w') ->
  rejects (store w) M_create_insert = Some code ->
  emissions (log w') = emissions (log w)
  /\ conversas (store w') = conversas (store w)
  /\ mensagens (store w') = mensagens (store w)
  /\ match r with
     | Return m =>
         (code = "42P01" \/ code = "42703")
         /\ exists row,
              messages (store w') = messages (store w) ++ [row]
              /\ m = Messages.mapMessageToResponse (Messages.of_message_row row)
              /\ Some (e_tenant_id row) = caller_tenant userId (store w)
              /\ e_conversation_id row = Messages.conversationId data
              /\ e_sender_type row = Messages.senderType data
              /\ e_content row = Messages.content data
     | Throw e =>
         messages (store w') = messages (store w)
         /\ forall tenant,
              caller_tenant userId (store w) = Some tenant -> tenant <> EmptyString ->
              owns (Some tenant) (Messages.conversationId data) (store w) ->
              accepts w M_getTenantId -> accepts w M_create_check ->
              (e = PgError code /\ code <> "42P01" /\ code <> "42703")
              \/ ((code = "42P01" \/ code = "42703")
                  /\ rejects (store w) M_create_insert_en <> None)
     end.
Proof.
  unfold accepts, caller_tenant. intros H Hrej. unfold_services. crack; worlds.
  all: try congruence.
  all: rewrite ?emissions_app; simpl; rewrite ?app_nil_r.
  all: split; [reflexivity |]; split; [reflexivity |]; split; [reflexivity |].
  all: unfold code_is in *; simpl in *.
  all: repeat match goal with
         | H1 : rejects ?s ?x = Some _, H2 : rejects ?s ?x = Some _ |- _ =>
             rewrite H1 in H2; injection H2 as ->
         end.
  all: try match goal with
         | H : (_ =? _) || (_ =? _) = true |- _ =>
             apply orb_true_iff in H; rewrite !String.eqb_eq in H
         | H : (_ =? _) || (_ =? _) = false |- _ =>
             apply orb_false_iff in H; rewrite !String.eqb_neq in H
         end.
  all: try (split; [reflexivity |]; intros tenant Ht Hne Hown Ha1 Ha2).
  all: try match goal with
         | H : Sql.users_by_id _ _ = _ |- _ => rewrite H in *
         end.
  all: try discriminate.
  all: try (rewrite Ht in *; simpl in *; destruct (String.eqb_spec tenant EmptyString);
            [congruence | discriminate]).
  all: try (apply owned_rows in Hown; rewrite Ht in *;
            unfold Sql.conversa_of_tenant in *; simpl in *; congruence).
  all: try (right; split; [assumption | congruence]).
  all: try (left; tauto).
  split; [assumption |]. eexists. split; [reflexivity |]. split; [reflexivity |].
  split; [| repeat split].
  simpl. destruct (user_tenant_id u) as [tenant |]; [| discriminate].
  simpl in *. destruct (tenant =? EmptyString); [discriminate | reflexivity].
Qed.

Lemma rest_append_fallback_is_silent_witness :
  exists m w' row,
    Messages.create "u1" Sample.reply
      (with_store (Sample.rejecting M_create_insert "42P01" Sample.db) Sample.world)
      = (Return m, w')
    /\ messages (store w') = [row]
    /\ r_sender_type m = "agent"
    /\ emissions (log w') = [].
Proof.
  destruct (Messages.create "u1" Sample.reply
              (with_store (Sample.rejecting M_create_insert "42P01" Sample.db)
                 Sample.world)) as [[m | e] w'] eqn:E;
    [| vm_compute in E; discriminate E].
  destruct (rest_append_fallback_is_silent _ _ _ _ _ "42P01" E eq_refl)
    as (Hnone & _ & _ & _ & row & Hrows & Hm & _ & _ & Htype & _).
  exists m, w', row. split; [reflexivity |]. split; [exact Hrows |].
  split; [| exact Hnone].
  rewrite Hm. unfold Messages.mapMessageToResponse, Messages.of_message_row. simpl.
  rewrite Htype. reflexivity.
Defined.

(** X10. [createByTenantId], when it returns a message and the hub is up:
    one row is added to [mensagens] under the tenant and the conversation
    it was given, unread exactly when the sender is the customer; the
    preview of the conversation of that id is set to the first 100
    characters of the content; and then the message is emitted to the room
    of the conversation and to the room of the tenant. *)
Theorem webhook_append_is_stored_then_broadcast
    tenantId conversationId data w m w' rooms :
  Messages.createByTenantId tenantId conversationId data w = (Return (Some m), w') ->
  io w = Some rooms ->
  exists row,
    mensagens (store w') = mensagens (store w) ++ [row]
    /\ m = Messages.mapMessageToResponse (Messages.of_mensagem row None None)
    /\ m_tenant_id row = tenantId
    /\ m_conversa_id row = conversationId
    /\ m_conteudo row = Messages.bt_content data
    /\ m_lida row = negb (Messages.bt_senderType data =? "customer")
    /\ (forall c, In c (conversas (store w')) -> c_id c = conversationId ->
                  c_ultima_mensagem c
                  = Some (Js.substring0 100 (Messages.bt_content data)))
    /\ log w' = log w ++
         [Sql M_byTenant_insert; Sql M_byTenant_touch;
          Emit (Hub.conversation_room conversationId)
            (Hub.members (Hub.conversation_room conversationId) rooms) (message_new m);
          Emit (Hub.tenant_room tenantId) (Hub.members (Hub.tenant_room tenantId) rooms)
            (message_new m)].
Proof.
  intros H Hio.
  pose proof (createByTenantId_persists_then_broadcasts _ _ _ _ _ _ _ H Hio) as Hlog.
  unfold_services. crack; worlds.
  all: try congruence.
  all: eexists; split; [reflexivity |]; split; [reflexivity |].
  all: split; [reflexivity |]; split; [reflexivity |]; split; [reflexivity |].
  all: split; [reflexivity |]; split; [| exact Hlog].
  all: intros c Hin Hid; apply in_map_iff in Hin as (c0 & <- & _).
  all: destruct (c_id c0 =? conversationId) eqn:E; [reflexivity |].
  all: apply String.eqb_neq in E; simpl in Hid; congruence.
Qed.

Lemma webhook_append_is_stored_then_broadcast_witness :
  exists m w' row,
    Messages.createByTenantId "T1" "c1" Sample.inbound Sample.world
      = (Return (Some m), w')
    /\ mensagens (store w') = mensagens (store Sample.world) ++ [row]
    /\ m_lida row = false
    /\ map c_ultima_mensagem (conversas (store w')) = [Some "Oi"].
Proof.
  destruct (Messages.createByTenantId "T1" "c1" Sample.inbound Sample.world)
    as [[[m |] | e] w'] eqn:E; try (vm_compute in E; discriminate E).
  destruct (webhook_append_is_stored_then_broadcast _ _ _ _ _ _ Sample.rooms E eq_refl)
    as (row & Hrows & _ & _ & _ & _ & Hlida & _).
  exists m, w', row. split; [reflexivity |]. split; [exact Hrows |].
  split; [exact Hlida |].
  assert (Hpreview : map c_ultima_mensagem
                       (conversas (store (snd (Messages.createByTenantId "T1" "c1"
                                                 Sample.inbound Sample.world))))
                     = [Some "Oi"]) by (vm_compute; reflexivity).
  rewrite E in Hpreview. exact Hpreview.
Defined.

(** X11. [createByTenantId] with the insert executed and the preview
    update rejected: the answer is [null], yet the message is one row
    more in [mensagens]; the preview is as it was and nothing is
    emitted. *)
Theorem webhook_append_null_after_stored tenantId conversationId data w code :
  accepts w M_byTenant_insert ->
  rejects (store w) M_byTenant_touch = Some code ->
  exists w' row,
    Messages.createByTenantId tenantId conversationId data w = (Return None, w')
    /\ mensagens (store w') = mensagens (store w) ++ [row]
    /\ m_tenant_id row = tenantId /\ m_conversa_id row = conversationId
    /\ m_conteudo row = Messages.bt_content data
    /\ conversas (store w') = conversas (store w)
    /\ emissions (log w') = emissions (log w).
Proof.
  unfold accepts. intros Hacc Hrej. unfold_services.
  rewrite Hacc. simpl. rewrite Hrej. simpl.
  eexists. eexists. split; [reflexivity |]. worlds.
  rewrite !emissions_app. simpl. rewrite !app_nil_r.
  repeat split; reflexivity.
Qed.

Lemma webhook_append_null_after_stored_witness :
  exists w',
    Messages.createByTenantId "T1" "c1" Sample.inbound
      (with_store (Sample.rejecting M_byTenant_touch "57014" Sample.db) Sample.world)
      = (Return None, w')
    /\ length (mensagens (store w')) = 4.
Proof.
  destruct (webhook_append_null_after_stored "T1" "c1" Sample.inbound
              (with_store (Sample.rejecting M_byTenant_touch "57014" Sample.db)
                 Sample.world) "57014" eq_refl eq_refl)
    as (w' & row & H & Hrows & _).
  exists w'. split; [exact H |]. rewrite Hrows, length_app. reflexivity.
Defined.

(** ** Callers without a tenant, rows of another tenant *)

(** A user row that is missing, or whose tenant is NULL or empty. *)
Lemma no_tenant_rows userId s :
  Js.truthy (caller_tenant userId s) = false ->
  negb (Js.truthy (match Sql.users_by_id userId s with
                   | u :: _ => user_tenant_id u
                   | [] => None
                   end)) = true.
Proof. unfold caller_tenant. intros ->. reflexivity. Qed.

(** X12. A caller whose user row is missing or has no tenant: the two
    listings are empty and the unread count is 0, without an error; the
    two lookups by id are not found; an append, a mark-read, a status
    change and an assignment are refused with NotFound('User'). *)
Theorem caller_without_tenant (ilike : option string -> string -> bool) userId w :
  Js.truthy (caller_tenant userId (store w)) = false ->
  accepts w M_getTenantId -> accepts w C_getTenantId ->
  (forall p, Messages.lp_userId p = userId ->
     fst (Messages.listByConversation p w) = Return ([], 0))
  /\ (forall conversationId,
        fst (Messages.getUnreadCount userId conversationId w) = Return 0)
  /\ (forall p, Conversations.lp_userId p = userId ->
        fst (Conversations.list ilike p w) = Return ([], 0))
  /\ (forall id, fst (Messages.getById id userId w) = Throw (NotFoundError "Message"))
  /\ (forall id,
        fst (Conversations.getById id userId w) = Throw (NotFoundError "Conversation"))
  /\ (forall data, fst (Messages.create userId data w) = Throw (NotFoundError "User"))
  /\ (forall conversationId messageIds,
        fst (Messages.markAsRead userId conversationId messageIds w)
        = Throw (NotFoundError "User"))
  /\ (forall id status,
        fst (Conversations.updateStatus id userId status w)
        = Throw (NotFoundError "User"))
  /\ (forall id agentId,
        fst (Conversations.assignAgent id userId agentId w)
        = Throw (NotFoundError "User")).
Proof.
  unfold accepts. intros Hno Hm Hc. apply no_tenant_rows in Hno.
  repeat split; intros.
  all: unfold Messages.listByConversation, Messages.getUnreadCount, Conversations.list,
         Messages.getById, Conversations.getById, Messages.create, Messages.markAsRead,
         Conversations.updateStatus, Conversations.assignAgent,
         Messages.getTenantId, Conversations.getTenantId.
  all: unfold_m; simpl; subst; rewrite ?Hm, ?Hc; simpl; rewrite Hno; reflexivity.
Qed.

Lemma caller_without_tenant_witness :
  fst (Messages.listByConversation (Sample.first_page "u9") Sample.world) = Return ([], 0)
  /\ fst (Messages.create "u9" Sample.reply Sample.world) = Throw (NotFoundError "User").
Proof.
  destruct (caller_without_tenant (fun _ _ => false) "u9" Sample.world eq_refl eq_refl eq_refl)
    as (Hlist & _ & _ & _ & _ & Hcreate & _).
  split; [exact (Hlist (Sample.first_page "u9") eq_refl) | exact (Hcreate Sample.reply)].
Defined.

Lemma tenant_literal tenant :
  tenant <> EmptyString ->
  negb (Js.truthy (Some tenant)) = false /\ Js.or_lit (Some tenant) EmptyString = tenant.
Proof.
  intros Hne. simpl. destruct (String.eqb_spec tenant EmptyString); [congruence | auto].
Qed.

(** X13. A caller of a tenant, and rows that are not of that tenant: the
    message listing, the lookup of a conversation, a status change and an
    assignment are answered NotFound('Conversation') when the tenant has
    no conversation of the id, the lookup of a message NotFound('Message')
    when no message of the id is under the tenant; the two updates leave
    the conversations as they were. *)
Theorem rows_of_another_tenant_are_not_found userId tenant w :
  caller_tenant userId (store w) = Some tenant -> tenant <> EmptyString ->
  accepts w M_getTenantId -> accepts w C_getTenantId ->
  (forall p,
     Messages.lp_userId p = userId -> accepts w M_list_check ->
     ~ owns (Some tenant) (Messages.lp_conversationId p) (store w) ->
     fst (Messages.listByConversation p w) = Throw (NotFoundError "Conversation"))
  /\ (forall id,
        accepts w M_getById ->
        (forall m, In m (mensagens (store w)) -> m_id m = id -> m_tenant_id m <> tenant) ->
        fst (Messages.getById id userId w) = Throw (NotFoundError "Message"))
  /\ (forall id,
        accepts w C_getById -> ~ owns (Some tenant) id (store w) ->
        fst (Conversations.getById id userId w) = Throw (NotFoundError "Conversation"))
  /\ (forall id status,
        accepts w C_updateStatus -> ~ owns (Some tenant) id (store w) ->
        fst (Conversations.updateStatus id userId status w)
        = Throw (NotFoundError "Conversation")
        /\ conversas (store (snd (Conversations.updateStatus id userId status w)))
           = conversas (store w))
  /\ (forall id agentId,
        accepts w C_assignAgent -> ~ owns (Some tenant) id (store w) ->
        fst (Conversations.assignAgent id userId agentId w)
        = Throw (NotFoundError "Conversation")
        /\ conversas (store (snd (Conversations.assignAgent id userId agentId w)))
           = conversas (store w)).
Proof.
  unfold accepts, caller_tenant. intros Htenant Hne Hm Hc.
  destruct (tenant_literal tenant Hne) as [Htruthy Hlit].
  split; [| split; [| split; [| split]]].
  - intros p <- Hcheck Hnot.
    apply not_owned_nil in Hnot. unfold Sql.conversa_of_tenant in Hnot.
    simpl in Hnot.
    unfold Messages.listByConversation, Messages.getTenantId. unfold_m.
    simpl. rewrite Hm. simpl. rewrite Htenant, Htruthy. simpl. rewrite Hcheck. simpl.
    unfold tick, Sql.conversa_of_tenant. simpl. rewrite Hnot. reflexivity.
  - intros id Hacc Hnone.
    unfold Messages.getById, Messages.getTenantId. unfold_m.
    simpl. rewrite Hm. simpl. rewrite Htenant, Htruthy. simpl. rewrite Hacc. simpl.
    rewrite filter_none; [reflexivity |].
    intros m Hin. destruct (String.eqb_spec (m_id m) id) as [Hid | _]; [| reflexivity].
    simpl. apply String.eqb_neq. apply Hnone; assumption.
  - intros id Hacc Hnot.
    apply not_owned_nil in Hnot. unfold Sql.conversa_of_tenant in Hnot.
    simpl in Hnot.
    unfold Conversations.getById, Conversations.getTenantId. unfold_m.
    simpl. rewrite Hc. simpl. rewrite Htenant, Htruthy. simpl. rewrite Hacc. simpl.
    unfold tick, Sql.conversa_of_tenant. simpl. rewrite Hnot. reflexivity.
  - intros id status Hacc Hnot.
    apply not_owned_nil in Hnot. unfold Sql.conversa_of_tenant in Hnot.
    simpl in Hnot.
    unfold Conversations.updateStatus, Conversations.getTenantId, Sql.update_conversas.
    unfold_m. simpl. rewrite Hc. simpl. rewrite Htenant, Htruthy. simpl.
    rewrite Hacc. simpl. rewrite Hnot. simpl. split; [reflexivity |].
    apply map_update_none. intros c Hin.
    assert (Hf : In c (List.filter
                         (fun c => (c_id c =? id) && (c_tenant_id c =? tenant))
                         (conversas (store w))) -> False)
      by (rewrite Hnot; intros []).
    destruct ((c_id c =? id) && (c_tenant_id c =? tenant)) eqn:E;
      [| reflexivity].
    exfalso. apply Hf. apply filter_In. auto.
  - intros id agentId Hacc Hnot.
    apply not_owned_nil in Hnot. unfold Sql.conversa_of_tenant in Hnot.
    simpl in Hnot.
    unfold Conversations.assignAgent, Conversations.getTenantId, Sql.update_conversas.
    unfold_m. simpl. rewrite Hc. simpl. rewrite Htenant, Htruthy. simpl.
    rewrite Hacc. simpl. rewrite Hnot. simpl. split; [reflexivity |].
    apply map_update_none. intros c Hin.
    assert (Hf : In c (List.filter
                         (fun c => (c_id c =? id) && (c_tenant_id c =? tenant))
                         (conversas (store w))) -> False)
      by (rewrite Hnot; intros []).
    destruct ((c_id c =? id) && (c_tenant_id c =? tenant)) eqn:E;
      [| reflexivity].
    exfalso. apply Hf. apply filter_In. auto.
Qed.

Lemma rows_of_another_tenant_are_not_found_witness :
  fst (Messages.listByConversation (Sample.first_page "u2") Sample.world)
    = Throw (NotFoundError "Conversation")
  /\ fst (Messages.getById "m1" "u2" Sample.world) = Throw (NotFoundError "Message")
  /\ fst (Conversations.updateStatus "c1" "u2" "closed" Sample.world)
     = Throw (NotFoundError "Conversation").
Proof.
  destruct (rows_of_another_tenant_are_not_found "u2" "T2" Sample.world eq_refl
              ltac:(discriminate) eq_refl eq_refl)
    as (Hlist & Hmessage & _ & Hstatus & _).
  assert (Hnot : ~ owns (Some "T2") "c1" (store Sample.world)).
  { intros (c & Hin & _ & Ht). simpl in Hin. destruct Hin as [<- | []]. discriminate Ht. }
  split; [exact (Hlist (Sample.first_page "u2") eq_refl eq_refl Hnot) |].
  split; [| exact (proj1 (Hstatus "c1" "closed" eq_refl Hnot))].
  apply Hmessage; [reflexivity |].
  intros m Hin _. simpl in Hin.
  destruct Hin as [<- | [<- | [<- | []]]]; discriminate.
Defined.

(** ** The conversation directory, further *)

(** X14. The names of the statuses and of the sender types, between the
    API and the database: an English status goes to a Portuguese one and
    comes back as it was, and so the other way; a sender type of the API
    comes back as it was; and the way to the database does not look at the
    case of the letters. *)
Theorem status_and_sender_names_round_trip :
  (forall s, In s Schema.conversationStatusEn ->
     In (Conversations.mapStatusToPt s) Schema.conversationStatusPt
     /\ Conversations.mapStatusToEn (Conversations.mapStatusToPt s) = s)
  /\ (forall s, In s Schema.conversationStatusPt ->
        In (Conversations.mapStatusToEn s) Schema.conversationStatusEn
        /\ Conversations.mapStatusToPt (Conversations.mapStatusToEn s) = s)
  /\ (forall t, In t Schema.senderTypes ->
        Messages.mapSenderTypeToEn (Some (Messages.mapSenderTypeToPt t)) = t)
  /\ (forall s, In (Js.toLowerCase s) Schema.conversationStatusEn ->
        Conversations.mapStatusToPt s = Conversations.mapStatusToPt (Js.toLowerCase s))
  /\ (forall t, In (Js.toLowerCase t) Schema.senderTypes ->
        Messages.mapSenderTypeToPt t = Messages.mapSenderTypeToPt (Js.toLowerCase t)).
Proof.
  split; [| split; [| split; [| split]]].
  - intros s [<- | [<- | [<- | [<- | []]]]]; vm_compute; intuition.
  - intros s [<- | [<- | [<- | [<- | []]]]]; vm_compute; intuition.
  - intros t [<- | [<- | [<- | [<- | []]]]]; vm_compute; reflexivity.
  - intros s H. unfold Conversations.mapStatusToPt.
    destruct H as [H | [H | [H | [H | []]]]]; rewrite <- H; vm_compute; reflexivity.
  - intros t H. unfold Messages.mapSenderTypeToPt.
    destruct H as [H | [H | [H | [H | []]]]]; rewrite <- H; vm_compute; reflexivity.
Qed.

Lemma filter_updated {A} (p : A -> bool) (g : A -> A) (l : list A) :
  (forall x, p (g x) = p x) ->
  List.filter p (map (fun x => if p x then g x else x) l) = map g (List.filter p l).
Proof.
  intros Hp. induction l as [| x l IH]; simpl; [reflexivity |].
  destruct (p x) eqn:E; simpl.
  - rewrite Hp, E. simpl. rewrite IH. reflexivity.
  - rewrite E. exact IH.
Qed.

Lemma owned_first tenant id s :
  owns (Some tenant) id s ->
  exists c l, List.filter (fun c => (c_id c =? id) && (c_tenant_id c =? tenant)) (conversas s)
              = c :: l
              /\ c_id c = id /\ c_tenant_id c = tenant.
Proof.
  intros H. apply owned_rows in H. unfold Sql.conversa_of_tenant in H. simpl in H.
  destruct (List.filter _ _) as [| c l] eqn:E; [discriminate |].
  exists c, l. split; [reflexivity |].
  assert (Hin : In c (c :: l)) by (left; reflexivity).
  rewrite <- E in Hin. apply filter_In in Hin as [_ Hp].
  apply andb_true_iff in Hp as [H1 H2].
  apply String.eqb_eq in H1, H2. auto.
Qed.

(** X15. A status change by a caller whose tenant owns the conversation,
    to one of the statuses of the API, the statements being executed: the
    conversation comes back with the status asked for and with the time of
    the update as its last activity; in the table, the rows of that id
    under the caller's tenant have the Portuguese name of the status and
    that time, and every other row is as it was. *)
Theorem status_change_is_read_back userId tenant id status w :
  caller_tenant userId (store w) = Some tenant -> tenant <> EmptyString ->
  owns (Some tenant) id (store w) ->
  In status Schema.conversationStatusEn ->
  accepts w C_getTenantId -> accepts w C_updateStatus -> accepts w C_getById ->
  exists c w',
    Conversations.updateStatus id userId status w = (Return c, w')
    /\ cr_id c = id /\ cr_tenant_id c = tenant /\ cr_status c = status
    /\ cr_last_activity c = S (clock (store w))
    /\ Forall2 (fun before after =>
                  after = if (c_id before =? id) && (c_tenant_id before =? tenant)
                          then Sql.touch_updated_at (S (clock (store w)))
                                 (Conversations.set_status
                                    (Conversations.mapStatusToPt status)
                                    (S (clock (store w))) before)
                          else before)
         (conversas (store w)) (conversas (store w')).
Proof.
  unfold accepts, caller_tenant. intros Htenant Hne Hown Hstatus Ha1 Ha2 Ha3.
  destruct (tenant_literal tenant Hne) as [Htruthy Hlit].
  destruct (owned_first _ _ _ Hown) as (c0 & l0 & Hrows & Hid & Ht).
  unfold Conversations.updateStatus, Conversations.getById, Conversations.getTenantId,
    Sql.update_conversas, Sql.conversa_of_tenant, Sql.users_by_id in *.
  unfold_m. simpl. rewrite Ha1. simpl. rewrite Htenant, Htruthy. simpl.
  rewrite Ha2. simpl. rewrite Hrows. simpl. rewrite Ha1. simpl.
  rewrite Htenant, Htruthy. simpl. rewrite Ha3. simpl.
  rewrite filter_updated by reflexivity. rewrite Hrows. simpl.
  eexists. eexists. split; [reflexivity |]. simpl.
  split; [exact Hid |]. split; [exact Ht |].
  split; [| split; [reflexivity | apply Forall2_map_update]].
  destruct Hstatus as [<- | [<- | [<- | [<- | []]]]]; vm_compute; reflexivity.
Qed.

Lemma status_change_is_read_back_witness :
  exists c w',
    Conversations.close "c1" "u1" Sample.world = (Return c, w')
    /\ cr_status c = "closed"
    /\ map c_status (conversas (store w')) = ["fechada"].
Proof.
  assert (Hown : owns (Some "T1") "c1" (store Sample.world)).
  { eexists. split; [left; reflexivity | split; reflexivity]. }
  destruct (status_change_is_read_back "u1" "T1" "c1" "closed" Sample.world eq_refl
              ltac:(discriminate) Hown ltac:(simpl; tauto) eq_refl eq_refl eq_refl)
    as (c & w' & H & _ & _ & Hstatus & _ & Hrows).
  exists c, w'. split; [exact H |]. split; [exact Hstatus |].
  simpl in Hrows. inversion Hrows as [| ? ? ? ? Hrow Hrest]; subst.
  inversion Hrest; subst. reflexivity.
Defined.

(** X16. An assignment by a caller whose tenant owns the conversation,
    the statements being executed: the conversation comes back with the
    agent and with the status in_progress, whatever its status was (a
    closed conversation too), and with the time of the update as its last
    activity; every row of another id or tenant is as it was. *)
Theorem assignment_sets_in_progress userId tenant id agentId w :
  caller_tenant userId (store w) = Some tenant -> tenant <> EmptyString ->
  owns (Some tenant) id (store w) ->
  agentId <> EmptyString ->
  accepts w C_getTenantId -> accepts w C_assignAgent -> accepts w C_getById ->
  exists c w',
    Conversations.assignAgent id userId agentId w = (Return c, w')
    /\ cr_id c = id /\ cr_tenant_id c = tenant
    /\ cr_agent_id c = Some agentId /\ cr_status c = "in_progress"
    /\ cr_last_activity c = S (clock (store w))
    /\ Forall2 (fun before after =>
                  after = if (c_id before =? id) && (c_tenant_id before =? tenant)
                          then Sql.touch_updated_at (S (clock (store w)))
                                 (Conversations.set_agent agentId
                                    (S (clock (store w))) before)
                          else before)
         (conversas (store w)) (conversas (store w')).
Proof.
  unfold accepts, caller_tenant. intros Htenant Hne Hown Hagent Ha1 Ha2 Ha3.
  destruct (tenant_literal tenant Hne) as [Htruthy Hlit].
  destruct (owned_first _ _ _ Hown) as (c0 & l0 & Hrows & Hid & Ht).
  unfold Conversations.assignAgent, Conversations.getById, Conversations.getTenantId,
    Sql.update_conversas, Sql.conversa_of_tenant, Sql.users_by_id in *.
  unfold_m. simpl. rewrite Ha1. simpl. rewrite Htenant, Htruthy. simpl.
  rewrite Ha2. simpl. rewrite Hrows. simpl. rewrite Ha1. simpl.
  rewrite Htenant, Htruthy. simpl. rewrite Ha3. simpl.
  rewrite filter_updated by reflexivity. rewrite Hrows. simpl.
  eexists. eexists. split; [reflexivity |]. simpl.
  split; [exact Hid |]. split; [exact Ht |].
  split; [| split; [vm_compute; reflexivity
                   | split; [reflexivity | apply Forall2_map_update]]].
  unfold Js.or. simpl. destruct (String.eqb_spec agentId EmptyString); [congruence |].
  reflexivity.
Qed.

Lemma assignment_sets_in_progress_witness :
  exists c w',
    Conversations.assignAgent "c1" "u1" "a1" Sample.world = (Return c, w')
    /\ cr_agent_id c = Some "a1" /\ cr_status c = "in_progress".
Proof.
  assert (Hown : owns (Some "T1") "c1" (store Sample.world)).
  { eexists. split; [left; reflexivity | split; reflexivity]. }
  destruct (assignment_sets_in_progress "u1" "T1" "c1" "a1" Sample.world eq_refl
              ltac:(discriminate) Hown ltac:(discriminate) eq_refl eq_refl eq_refl)
    as (c & w' & H & _ & _ & Hagent & Hstatus & _).
  exists c, w'. auto.
Defined.

Lemma latest_first_total a b :
  Conversations.latest_first a b = false -> Conversations.latest_first b a = true.
Proof.
  unfold Conversations.latest_first.
  destruct (c_ultima_atividade a) as [x |], (c_ultima_atividade b) as [y |];
    try discriminate; try reflexivity.
  - rewrite orb_false_iff, andb_false_iff, orb_true_iff, andb_true_iff.
    rewrite !Nat.ltb_ge, !Nat.ltb_lt, !Nat.eqb_neq, !Nat.eqb_eq, Nat.leb_gt, Nat.leb_le.
    lia.
  - rewrite Nat.leb_gt, Nat.leb_le. lia.
Qed.

Lemma latest_first_trans a b c :
  Conversations.latest_first a b = true -> Conversations.latest_first b c = true ->
  Conversations.latest_first a c = true.
Proof.
  unfold Conversations.latest_first.
  destruct (c_ultima_atividade a) as [x |], (c_ultima_atividade b) as [y |],
    (c_ultima_atividade c) as [z |]; try discriminate; try reflexivity.
  - rewrite !orb_true_iff, !andb_true_iff.
    rewrite !Nat.ltb_lt, !Nat.eqb_eq, !Nat.leb_le. lia.
  - rewrite !Nat.leb_le. lia.
Qed.

(** What a page of the conversation listing is made of. *)
Lemma conversation_page ilike tenant p s :
  let listing := List.filter (Conversations.list_where ilike tenant p s) (conversas s) in
  let rows :=
    Sql.limit_offset (Conversations.lp_perPage p)
      ((Conversations.lp_page p - 1) * Conversations.lp_perPage p)
      (Sql.order_by Conversations.latest_first listing) in
  length rows
  = Nat.min (Conversations.lp_perPage p)
      (length listing - (Conversations.lp_page p - 1) * Conversations.lp_perPage p)
  /\ StronglySorted (fun a b => Conversations.latest_first a b = true) rows
  /\ forall c, In c rows ->
       In c (conversas s) /\ Conversations.list_where ilike tenant p s c = true.
Proof.
  intros listing rows. subst rows. split; [| split].
  - rewrite limit_offset_length, order_by_length. reflexivity.
  - apply sorted_firstn, sorted_skipn.
    apply (order_by_sorted Conversations.latest_first);
      [apply latest_first_total | apply latest_first_trans].
  - intros c Hc. apply limit_offset_In, order_by_In in Hc.
    subst listing. apply filter_In in Hc. exact Hc.
Qed.

Lemma list_where_true ilike tenant p s c :
  Conversations.list_where ilike tenant p s c = true ->
  c_tenant_id c = tenant
  /\ (forall status, Conversations.lp_status p = Some status -> status <> EmptyString ->
        c_status c = Conversations.mapStatusToPt status)
  /\ (forall channel, Conversations.lp_channel p = Some channel -> channel <> EmptyString ->
        c_canal c = channel)
  /\ (forall agentId, Conversations.lp_agentId p = Some agentId -> agentId <> EmptyString ->
        c_agente_id c = Some agentId)
  /\ (forall customerId,
        Conversations.lp_customerId p = Some customerId -> customerId <> EmptyString ->
        c_cliente_id c = Some customerId).
Proof.
  unfold Conversations.list_where. rewrite !andb_true_iff.
  intros (((((Ht & Hs) & Hc) & Ha) & Hk) & _).
  apply String.eqb_eq in Ht.
  split; [exact Ht |]. split; [| split; [| split]].
  - intros status E Hne. rewrite E in Hs. simpl in Hs.
    destruct (String.eqb_spec status EmptyString); [congruence |].
    simpl in Hs. apply String.eqb_eq in Hs. exact Hs.
  - intros channel E Hne. rewrite E in Hc. simpl in Hc.
    destruct (String.eqb_spec channel EmptyString); [congruence |].
    simpl in Hc. apply String.eqb_eq in Hc. exact Hc.
  - intros agentId E Hne. rewrite E in Ha. simpl in Ha.
    destruct (String.eqb_spec agentId EmptyString); [congruence |].
    simpl in Ha. destruct (c_agente_id c) as [a |]; [| discriminate].
    apply String.eqb_eq in Ha. congruence.
  - intros customerId E Hne. rewrite E in Hk. simpl in Hk.
    destruct (String.eqb_spec customerId EmptyString); [congruence |].
    simpl in Hk. destruct (c_cliente_id c) as [a |]; [| discriminate].
    apply String.eqb_eq in Hk. congruence.
Qed.

Lemma or_none (x : string) : x <> EmptyString -> Js.or (Some x) None = Some x.
Proof.
  intros H. unfold Js.or. simpl. destruct (String.eqb_spec x EmptyString); [congruence |].
  reflexivity.
Qed.

(** X17. A page of the conversation listing holds [perPage] conversations,
    or what is left of the listing after the pages before it, in the order
    of the latest activity first (conversations without one last, then by
    the time of the last update); with a filter on the status, the
    channel, the agent or the customer, every conversation of the page has
    the status, channel, agent or customer asked for. *)
Theorem conversation_listing_pages ilike p w cs total w' :
  Conversations.list ilike p w = (Return (cs, total), w') ->
  length cs
  = Nat.min (Conversations.lp_perPage p)
      (total - (Conversations.lp_page p - 1) * Conversations.lp_perPage p)
  /\ (exists rows,
        map cr_id cs = map c_id rows
        /\ StronglySorted (fun a b => Conversations.latest_first a b = true) rows
        /\ forall c, In c rows -> In c (conversas (store w)))
  /\ (forall status,
        Conversations.lp_status p = Some status ->
        In status Schema.conversationStatusEn ->
        forall c, In c cs -> cr_status c = status)
  /\ (forall channel,
        Conversations.lp_channel p = Some channel -> channel <> EmptyString ->
        forall c, In c cs -> cr_channel c = channel)
  /\ (forall agentId,
        Conversations.lp_agentId p = Some agentId -> agentId <> EmptyString ->
        forall c, In c cs -> cr_agent_id c = Some agentId)
  /\ (forall customerId,
        Conversations.lp_customerId p = Some customerId -> customerId <> EmptyString ->
        forall c, In c cs -> cr_customer_id c = Some customerId).
Proof.
  intros H. unfold Conversations.list, Conversations.getTenantId in H. unfold_m.
  crack; worlds.
  all: try (rewrite Nat.sub_0_l, Nat.min_0_r; split; [reflexivity |];
            split; [exists []; split; [reflexivity |]; split; [constructor | intros c []] |];
            repeat split; intros; contradiction).
  match goal with
  | |- context [Conversations.joined ?s2] =>
      pose proof (conversation_page ilike (Js.or_lit (user_tenant_id u) EmptyString) p s2)
        as (Hlen & Hsorted & Hrows);
      simpl in Hlen, Hsorted, Hrows
  end.
  split; [| split; [| split; [| split; [| split]]]].
  - rewrite !length_map, Hlen. reflexivity.
  - eexists. split; [| split; [exact Hsorted | intros c Hc; apply (Hrows c Hc)]].
    rewrite !map_map. reflexivity.
  - intros status E Hin c Hc. rewrite map_map in Hc.
    apply in_map_iff in Hc as (row & <- & Hrow).
    destruct (Hrows _ Hrow) as [_ Hw]. apply list_where_true in Hw as (_ & Hs & _).
    simpl. rewrite (Hs status E).
    + destruct Hin as [<- | [<- | [<- | [<- | []]]]]; vm_compute; reflexivity.
    + destruct Hin as [<- | [<- | [<- | [<- | []]]]]; discriminate.
  - intros channel E Hne c Hc. rewrite map_map in Hc.
    apply in_map_iff in Hc as (row & <- & Hrow).
    destruct (Hrows _ Hrow) as [_ Hw]. apply list_where_true in Hw as (_ & _ & Hch & _).
    simpl. exact (Hch channel E Hne).
  - intros agentId E Hne c Hc. rewrite map_map in Hc.
    apply in_map_iff in Hc as (row & <- & Hrow).
    destruct (Hrows _ Hrow) as [_ Hw]. apply list_where_true in Hw as (_ & _ & _ & Ha & _).
    simpl. rewrite (Ha agentId E Hne). apply or_none. exact Hne.
  - intros customerId E Hne c Hc. rewrite map_map in Hc.
    apply in_map_iff in Hc as (row & <- & Hrow).
    destruct (Hrows _ Hrow) as [_ Hw]. apply list_where_true in Hw as (_ & _ & _ & _ & Hk).
    simpl. rewrite (Hk customerId E Hne). apply or_none. exact Hne.
Qed.

Lemma conversation_listing_pages_witness :
  exists cs w',
    Conversations.list Sample2.no_match (Sample2.open_conversations "u1") Sample.world
      = (Return (cs, 1), w')
    /\ length cs = 1
    /\ forall c, In c cs -> cr_status c = "open".
Proof.
  destruct (Conversations.list Sample2.no_match (Sample2.open_conversations "u1")
              Sample.world) as [[[cs total] | e] w'] eqn:E;
    [| vm_compute in E; discriminate E].
  assert (Ht : match fst (Conversations.list Sample2.no_match
                            (Sample2.open_conversations "u1") Sample.world) with
               | Return r => snd r
               | Throw _ => 0
               end = 1) by (vm_compute; reflexivity).
  rewrite E in Ht. simpl in Ht. subst total.
  destruct (conversation_listing_pages _ _ _ _ _ _ E) as (Hlen & _ & Hstatus & _).
  exists cs, w'. split; [reflexivity |]. split; [exact Hlen |].
  apply (Hstatus "open" eq_refl). simpl. tauto.
Defined.

(** ** The hub over a history *)

Lemma owns_kept tenant id s s' :
  keeps_conversations s s' -> owns tenant id s -> owns tenant id s'.
Proof.
  intros Hk (c & Hin & Hid & Ht). destruct (Hk c Hin) as (c' & Hin' & Hid' & Ht').
  exists c'. split; [exact Hin' |]. split; congruence.
Qed.

Lemma keeps_conversations_refl s : keeps_conversations s s.
Proof. intros c Hc. exists c. auto. Qed.

Lemma keeps_conversations_trans s1 s2 s3 :
  keeps_conversations s1 s2 -> keeps_conversations s2 s3 -> keeps_conversations s1 s3.
Proof.
  intros H12 H23 c Hc. destruct (H12 c Hc) as (c2 & Hin2 & Hid2 & Ht2).
  destruct (H23 c2 Hin2) as (c3 & Hin3 & Hid3 & Ht3).
  exists c3. split; [exact Hin3 |]. split; congruence.
Qed.

Ltac kept :=
  unfold keeps_conversations; simpl;
  let c := fresh "c" in
  let Hc := fresh "Hc" in
  intros c Hc;
  first
    [ exists c; split; [first [exact Hc | apply in_or_app; left; exact Hc] |];
      split; reflexivity
    | eexists; split; [apply in_map; exact Hc |];
      simpl;
      repeat match goal with
             | |- context [if ?b then _ else _] => destruct b
             end;
      split; reflexivity ].

(** A statement of a delivery keeps the conversations. *)
Lemma step_keeps req pc w pc' w' :
  Webhooks.step req pc w = (pc', w') -> keeps_conversations (store w) (store w').
Proof.
  intros H. unfold Webhooks.step in H. unfold_services.
  destruct pc; crack; worlds; kept.
Qed.

Lemma run_keeps n req pc w pc' w' :
  Webhooks.run n req pc w = (pc', w') -> keeps_conversations (store w) (store w').
Proof.
  revert pc w. induction n as [| n IH]; simpl; intros pc w H.
  - inversion H. apply keeps_conversations_refl.
  - destruct pc; try (inversion H; apply keeps_conversations_refl).
    all: match type of H with
         | (let '(_, _) := ?s in _) = _ => destruct s as [pc1 w1] eqn:E
         end;
      apply step_keeps in E; apply IH in H;
      eapply keeps_conversations_trans; eassumption.
Qed.

Ltac unfold_directory :=
  unfold Conversations.list, Conversations.updateStatus, Conversations.assignAgent,
    Conversations.getById, Conversations.getByTenantId, Conversations.getTenantId,
    Sql.update_conversas, Sql.update_mensagens in *.

Section History.

Variable ilike : option string -> string -> bool.
Variable hmac_sha256_hex : string -> string -> string.
Variable env : Webhooks.Env.

Lemma webhook_keeps route req w r w' :
  Webhooks.post hmac_sha256_hex env route req w = (r, w') ->
  io w' = io w /\ keeps_conversations (store w) (store w').
Proof.
  unfold Webhooks.post. intros H.
  destruct (if Webhooks.signed route then _ else _).
  - destruct route.
    + unfold Webhooks.n8n_event in H. unfold_m. crack; worlds.
      all: split; [reflexivity | kept].
    + unfold Webhooks.channel_message in H.
      destruct (Webhooks.run 4 req Webhooks.AtChannel w) as [pc w1] eqn:E.
      assert (w' = w1) by (destruct pc; inversion H; reflexivity). subst w1.
      split; [eapply run_emits_nothing; eassumption | eapply run_keeps; eassumption].
  - inversion H; subst. split; [reflexivity | apply keeps_conversations_refl].
Qed.

(** A call of a service leaves the rooms alone and keeps the
    conversations. *)
Lemma call_keeps c w :
  io (Server.call ilike hmac_sha256_hex env c w) = io w
  /\ keeps_conversations (store w) (store (Server.call ilike hmac_sha256_hex env c w)).
Proof.
  destruct c; simpl.
  all: match goal with
       | |- context [snd ?x] => destruct x as [r w'] eqn:H
       end; simpl.
  all: try (eapply webhook_keeps; eassumption).
  all: unfold_directory; unfold_services.
  all: crack; worlds.
  all: try (split; [reflexivity | kept]).
Qed.

(** A connection and an event of a client keep the conversations. *)
Lemma connection_keeps sock w r w' :
  Hub.on_connection sock w = (r, w') -> keeps_conversations (store w) (store w').
Proof.
  unfold Hub.on_connection. unfold_m. intros H. crack; worlds; kept.
Qed.

Lemma client_event_keeps sock ev w r w' :
  Hub.on sock ev w = (r, w') -> keeps_conversations (store w) (store w').
Proof.
  destruct ev; simpl;
    unfold Hub.conversation_join, Hub.conversation_leave, Hub.on_typing_start,
      Hub.on_typing_stop, Hub.on_message_read, Hub.on_disconnect, Sql.update_mensagens;
    unfold_m; intros H; crack; worlds; kept.
Qed.

Lemma admitted_more socks socks' w :
  (forall sock, In sock socks -> In sock socks') ->
  admitted socks w -> admitted socks' w.
Proof.
  intros Hsub Hadm rooms room sid Hio Hin.
  destruct (Hadm rooms room sid Hio Hin) as (sock & Hs & Hrest).
  exists sock. split; [apply Hsub; exact Hs | exact Hrest].
Qed.

Lemma admitted_kept socks w w' :
  io w' = io w -> keeps_conversations (store w) (store w') ->
  admitted socks w -> admitted socks w'.
Proof.
  intros Hio Hk Hadm rooms room sid Hio' Hin. rewrite Hio in Hio'.
  destruct (Hadm rooms room sid Hio' Hin) as (sock & Hs & Hid & [Ht | (c & Hroom & Hown)]).
  - exists sock. auto.
  - exists sock. split; [exact Hs |]. split; [exact Hid |]. right.
    exists c. split; [exact Hroom |]. eapply owns_kept; eassumption.
Qed.

(** One happening: who was admitted stays admitted, and who comes into a
    room comes as the socket of the happening. *)
Lemma happen_admits socks h w :
  admitted socks w ->
  admitted (socks ++ Server.sockets [h]) (Server.happen ilike hmac_sha256_hex env h w).
Proof.
  intros Hadm. destruct h as [sock | sock ev | c]; simpl.
  - destruct (Hub.on_connection sock w) as [r w'] eqn:H. simpl.
    pose proof (connection_keeps _ _ _ _ H) as Hk.
    intros rooms' room sid Hio Hin.
    destruct (connection_enters_tenant_room_only _ _ _ _ _ _ _ H Hio Hin)
      as [(rooms & Hio0 & Hin0) | (t & Ht & -> & ->)].
    + destruct (Hadm rooms room sid Hio0 Hin0)
        as (sock0 & Hs & Hid & [Htenant | (c & Hroom & Hown)]).
      * exists sock0. split; [apply in_or_app; left; exact Hs | auto].
      * exists sock0. split; [apply in_or_app; left; exact Hs |].
        split; [exact Hid |]. right. exists c. split; [exact Hroom |].
        eapply owns_kept; eassumption.
    + exists sock. split; [apply in_or_app; right; left; reflexivity |].
      split; [reflexivity |]. left. eauto.
  - destruct (Hub.on sock ev w) as [r w'] eqn:H. simpl.
    pose proof (client_event_keeps _ _ _ _ _ H) as Hk.
    intros rooms' room sid Hio Hin.
    destruct (membership_grows_by_join_only _ _ _ _ _ _ _ _ H Hio Hin)
      as [(rooms & Hio0 & Hin0) | (cid & _ & -> & -> & Hown)].
    + destruct (Hadm rooms room sid Hio0 Hin0)
        as (sock0 & Hs & Hid & [Htenant | (c & Hroom & Hown)]).
      * exists sock0. split; [apply in_or_app; left; exact Hs | auto].
      * exists sock0. split; [apply in_or_app; left; exact Hs |].
        split; [exact Hid |]. right. exists c. split; [exact Hroom |].
        eapply owns_kept; eassumption.
    + exists sock. split; [apply in_or_app; right; left; reflexivity |].
      split; [reflexivity |]. right. exists cid. split; [reflexivity |].
      eapply owns_kept; eassumption.
  - rewrite app_nil_r. destruct (call_keeps c w) as [Hio Hk].
    eapply admitted_kept; eassumption.
Qed.

Lemma history_admits history socks w :
  admitted socks w ->
  admitted (socks ++ Server.sockets history)
    (Server.after ilike hmac_sha256_hex env history w).
Proof.
  revert socks w. induction history as [| h rest IH]; intros socks w Hadm; simpl.
  - rewrite app_nil_r. exact Hadm.
  - apply (happen_admits _ h) in Hadm. apply IH in Hadm.
    eapply admitted_more; [| exact Hadm].
    intros sock Hin. rewrite <- app_assoc in Hin.
    destruct h; simpl in *; exact Hin.
Qed.

(** X18. Whatever has happened since the hub was initialised —
    connections, events of clients, disconnections, calls of the services
    and webhook deliveries, in any order — every connection in the room of
    a tenant is there as a socket of that tenant, and every connection in
    the room of a conversation is there as a socket whose tenant has a
    conversation of that id. *)
Theorem rooms_hold_who_was_admitted history w :
  admitted (Server.sockets history)
    (Server.after ilike hmac_sha256_hex env history (snd (Hub.initializeSocket w))).
Proof.
  apply (history_admits history []).
  intros rooms room sid Hio Hin. simpl in Hio. injection Hio as <-.
  unfold Hub.members in Hin. rewrite lookup_empty in Hin. simpl in Hin.
  apply not_elem_of_empty in Hin. destruct Hin.
Qed.

End History.
